(** * OEI-MS: telemetry ingestion, alarm evaluation and real-time fan-out

    A shallow embedding of the core of the backend:
    - [Sensor.check_alarm_conditions]      (app/models/sensor.py)
    - [ConnectionManager], [WebSocketService] (app/services/websocket_service.py)
    - [MQTTService]                         (app/services/mqtt_service.py)

    Python objects become records, dictionaries become finite maps, sets
    become duplicate-free lists whose order is the iteration order, and
    every method becomes a function from the state before the call to the
    state after it.  Exceptions are values of [result]. *)

From stdpp Require Import gmap strings list fin_maps pretty.
From Stdlib Require Import QArith Qcanon Ascii.

#[local] Set Warnings "-clear-no-such-hyp".

Close Scope Qc_scope.
Close Scope Q_scope.
Open Scope string_scope.
Open Scope nat_scope.
Open Scope list_scope.

(** ** Python values and exceptions *)

Inductive exn : Type :=
| AttributeError
| TypeError
| IndexError
| OverflowError
| SendError
| ConnectError
| TimeoutError.

Inductive result (A : Type) : Type :=
| Ok (a : A)
| Raise (e : exn).
Arguments Ok {A} a.
Arguments Raise {A} e.

#[global] Instance result_ret : MRet result := λ A a, Ok a.

#[global] Instance result_bind : MBind result := λ A B k m,
  match m with
  | Ok a => k a
  | Raise e => Raise e
  end.

(** Values produced by [json.loads] and stored in JSON columns.  Numbers
    are rationals: every finite [int] and [float] is one, and Python
    compares an [int] with a [float] by exact value. *)
#[local] Unset Elimination Schemes.
Inductive json : Type :=
| JNull
| JBool (b : bool)
| JNum (q : Q)
| JStr (s : string)
| JList (l : list json)
| JDict (d : list (string * json)).
#[local] Set Elimination Schemes.

(** Truth value of a Python object, as used by [if x] and [not x]. *)
Definition truthy (j : json) : bool :=
  match j with
  | JNull => false
  | JBool b => b
  | JNum q => negb (Qeq_bool q 0)
  | JStr s => negb (String.eqb s "")
  | JList l => match l with [] => false | _ => true end
  | JDict d => match d with [] => false | _ => true end
  end.

Definition is_none (j : json) : bool :=
  match j with JNull => true | _ => false end.

Fixpoint assoc (k : string) (d : list (string * json)) : option json :=
  match d with
  | [] => None
  | (k', v) :: d' => if String.eqb k k' then Some v else assoc k d'
  end.

(** [obj.get(key, default)]: only dictionaries have the method. *)
Definition py_get (obj : json) (key : string) (dflt : json) : result json :=
  match obj with
  | JDict d => Ok (default dflt (assoc key d))
  | _ => Raise AttributeError
  end.

(** [obj.get(key)] on an object already known to be a dictionary. *)
Definition data_get (obj : json) (key : string) : option json :=
  match obj with
  | JDict d => assoc key d
  | _ => None
  end.

(** [for x in obj]: lists yield their items, dictionaries their keys,
    strings their characters; anything else is not iterable. *)
Fixpoint chars (s : string) : list json :=
  match s with
  | EmptyString => []
  | String c s' => JStr (String c EmptyString) :: chars s'
  end.

Definition py_iter (obj : json) : result (list json) :=
  match obj with
  | JList l => Ok l
  | JDict d => Ok (map (λ kv, JStr kv.1) d)
  | JStr s => Ok (chars s)
  | _ => Raise TypeError
  end.

(** [isinstance(v, (int, float))], with the number the value is; [bool]
    is a subclass of [int]. *)
Definition as_number (v : json) : option Q :=
  match v with
  | JNum q => Some q
  | JBool b => Some (if b then 1 else 0)%Q
  | _ => None
  end.

Definition Qltb (x y : Q) : bool := negb (Qle_bool y x).

(** [float(n)] for an [int]: the nearest double, a tie going to the even
    mantissa, and [OverflowError] when that is not a finite double.  Up
    to 53 bits the integer is a double itself; above, the 53 leading
    bits are kept and the rest is rounded. *)
Definition float_of_int (n : Z) : result Z :=
  let a := Z.abs n in
  if (a <? 2 ^ 53)%Z then Ok n
  else
    let e := (Z.log2 a - 52)%Z in
    let m := (a / 2 ^ e)%Z in
    let r := (a mod 2 ^ e)%Z in
    let half := (2 ^ (e - 1))%Z in
    let m :=
      if (half <? r)%Z || ((r =? half)%Z && Z.odd m) then (m + 1)%Z else m in
    let v := (m * 2 ^ e)%Z in
    if (2 ^ 1024 <=? v)%Z then Raise OverflowError else Ok (Z.sgn n * v)%Z.

(** [float(value)] for a number.  A number that is not whole is a
    [float] already and comes back as it is; a whole number is an [int],
    or a [float] that [float_of_int] leaves as it is. *)
Definition py_float (value : Q) : result Q :=
  if (Qden (Qred value) =? 1)%positive then
    match float_of_int (Qnum (Qred value)) with
    | Ok n => Ok (inject_Z n)
    | Raise e => Raise e
    end
  else Ok value.

(** [str(value)]: a string is its own text; [str] is the text Python
    gives to every other value. *)
Definition py_str (str : json → string) (value : json) : string :=
  match value with
  | JStr s => s
  | _ => str value
  end.

(** Ordering comparisons of a float with a non-number raise [TypeError];
    equality comparisons never raise. *)
Definition py_gt (value : Q) (threshold : json) : result bool :=
  match as_number threshold with
  | Some t => Ok (Qltb t value)
  | None => Raise TypeError
  end.

Definition py_lt (value : Q) (threshold : json) : result bool :=
  match as_number threshold with
  | Some t => Ok (Qltb value t)
  | None => Raise TypeError
  end.

Definition py_ge (value : Q) (threshold : json) : result bool :=
  match as_number threshold with
  | Some t => Ok (Qle_bool t value)
  | None => Raise TypeError
  end.

Definition py_le (value : Q) (threshold : json) : result bool :=
  match as_number threshold with
  | Some t => Ok (Qle_bool value t)
  | None => Raise TypeError
  end.

Definition py_eq (value : Q) (threshold : json) : bool :=
  match as_number threshold with
  | Some t => Qeq_bool value t
  | None => false
  end.

Definition py_ne (value : Q) (threshold : json) : bool :=
  negb (py_eq value threshold).

Definition str_is (j : json) (s : string) : bool :=
  match j with
  | JStr s' => String.eqb s' s
  | _ => false
  end.

(** [c and e]: [e] is evaluated only when [c] holds. *)
Definition and_then (c : bool) (e : result bool) : result bool :=
  if c then e else Ok false.

(** ** app/models/sensor.py *)

Module Sensor.

Record SensorType : Type := {
  type_name : string;
  unit : option string
}.

Record t : Type := {
  id : Z;
  name : string;
  device_id : string;
  sensor_type : option SensorType;
  gateway_id : Z;
  location : option string;
  alarm_enabled : option bool;
  alarm_rules : json;
  status : json;
  last_value : option string;
  data_points_count : Z;
  error_count : Z;
  last_error : option json;
  is_active : bool
}.

(** One entry of [triggered_alarms].  The entry's ["condition"] text is
    the rendering of [value], [condition] and [threshold], which are kept
    here as they are. *)
Record alarm : Type := {
  rule_name : json;
  condition : json;
  severity : json;
  message : json;
  sensor_id : Z;
  sensor_name : string;
  value : Q;
  threshold : json
}.

Definition update_status (self : t) (st : json) (error_message : json) : t :=
  {| id := id self; name := name self; device_id := device_id self;
     sensor_type := sensor_type self; gateway_id := gateway_id self;
     location := location self; alarm_enabled := alarm_enabled self;
     alarm_rules := alarm_rules self; status := st;
     last_value := last_value self;
     data_points_count := data_points_count self;
     error_count :=
       if truthy error_message then error_count self + 1
       else error_count self;
     last_error :=
       if truthy error_message then Some error_message else last_error self;
     is_active := is_active self |}.

Definition update_data_stats (str : json → string) (self : t) (value : json)
  : t :=
  {| id := id self; name := name self; device_id := device_id self;
     sensor_type := sensor_type self; gateway_id := gateway_id self;
     location := location self; alarm_enabled := alarm_enabled self;
     alarm_rules := alarm_rules self; status := status self;
     last_value :=
       if is_none value then last_value self else Some (py_str str value);
     data_points_count := data_points_count self + 1;
     error_count := error_count self; last_error := last_error self;
     is_active := is_active self |}.

(** The assignment [sensor.status = st]. *)
Definition set_status (self : t) (st : json) : t :=
  {| id := id self; name := name self; device_id := device_id self;
     sensor_type := sensor_type self; gateway_id := gateway_id self;
     location := location self; alarm_enabled := alarm_enabled self;
     alarm_rules := alarm_rules self; status := st;
     last_value := last_value self;
     data_points_count := data_points_count self;
     error_count := error_count self; last_error := last_error self;
     is_active := is_active self |}.

(** One arm of the [if] / [elif] chain: when its test holds the rule has
    triggered, when it does not the next arm is tried, and an exception
    raised by the test leaves the loop. *)
Definition elif (test : result bool) (next : result bool) : result bool :=
  match test with
  | Ok true => Ok true
  | Ok false => next
  | Raise e => Raise e
  end.

Definition triggered (condition : json) (value : Q) (threshold : json)
  : result bool :=
  elif (and_then (str_is condition ">") (py_gt value threshold))
  (elif (and_then (str_is condition "<") (py_lt value threshold))
  (elif (and_then (str_is condition ">=") (py_ge value threshold))
  (elif (and_then (str_is condition "<=") (py_le value threshold))
  (elif (Ok (str_is condition "==" && py_eq value threshold))
  (elif (Ok (str_is condition "!=" && py_ne value threshold))
  (Ok false)))))).

Definition make_alarm (self : t) (rule : json) (condition : json)
    (value : Q) (threshold : json) : result alarm :=
  n ← py_get rule "name" (JStr "未命名规则") ;
  s ← py_get rule "severity" (JStr "info") ;
  m ← py_get rule "message"
        (JStr ("传感器 " ++ name self ++ " 触发报警条件")%string) ;
  Ok {| rule_name := n; condition := condition; severity := s;
        message := m; sensor_id := id self; sensor_name := name self;
        value := value; threshold := threshold |}.

(** One iteration of [for rule in rules]: the alarms appended by it. *)
Definition check_rule (self : t) (value : Q) (rule : json)
  : result (list alarm) :=
  enabled ← py_get rule "enabled" (JBool true) ;
  if negb (truthy enabled) then Ok [] else
  condition ← py_get rule "condition" JNull ;
  threshold ← py_get rule "threshold" JNull ;
  if truthy condition && negb (is_none threshold) then
    b ← triggered condition value threshold ;
    if b : bool then
      a ← make_alarm self rule condition value threshold ;
      Ok [a]
    else Ok []
  else Ok [].

Fixpoint check_rules (self : t) (value : Q) (rules : list json)
  : result (list alarm) :=
  match rules with
  | [] => Ok []
  | rule :: rest =>
      here ← check_rule self value rule ;
      later ← check_rules self value rest ;
      Ok (here ++ later)
  end.

Definition check_alarm_conditions (self : t) (value : Q)
  : result (list alarm) :=
  if negb (default false (alarm_enabled self))
     || negb (truthy (alarm_rules self))
  then Ok []
  else
    rules ← py_get (alarm_rules self) "rules" (JList []) ;
    items ← py_iter rules ;
    check_rules self value items.

End Sensor.

(** ** app/services/websocket_service.py *)

(** A connection is identified by its socket object. *)
Abbreviation conn := nat (only parsing).

(** What a socket does when the server writes to it: [Live] delivers,
    [Broken] is in state CONNECTED but [send_text] raises, [Closed] is not
    in state CONNECTED. *)
Inductive socket : Type := Live | Broken | Closed.

#[global] Instance socket_eq_dec : EqDecision socket.
Proof. solve_decision. Defined.

(** Python sets of connections: duplicate-free lists, in iteration
    order. *)
Definition set_add (x : conn) (s : list conn) : list conn :=
  if decide (x ∈ s) then s else s ++ [x].

Definition set_discard (x : conn) (s : list conn) : list conn :=
  filter (λ y, y ≠ x) s.

(** A truthy optional string: neither [None] nor empty. *)
Definition nonempty (o : option string) : option string :=
  match o with
  | Some s => if String.eqb s "" then None else Some s
  | None => None
  end.

(** What a dictionary takes as a key: [None], a number or a string.  A
    [bool] is the number it equals, and numbers that are equal are one
    and the same key.  Lists and dictionaries cannot be hashed. *)
Inductive dict_key : Type :=
| KNone
| KNum (q : Qc)
| KStr (s : string).

Coercion KStr : string >-> dict_key.

#[global] Instance dict_key_eq_dec : EqDecision dict_key.
Proof. solve_decision. Defined.

#[global] Instance dict_key_countable : Countable dict_key.
Proof.
  refine (inj_countable'
    (λ k, match k with
          | KNone => inl ()
          | KNum q => inr (inl q)
          | KStr s => inr (inr s)
          end)
    (λ x, match x with
          | inl _ => KNone
          | inr (inl q) => KNum q
          | inr (inr s) => KStr s
          end) _).
  by intros [].
Defined.

(** [hash(value)], as a dictionary lookup does it. *)
Definition hash (value : json) : result dict_key :=
  match value with
  | JNull => Ok KNone
  | JBool b => Ok (KNum (Q2Qc (if b then 1 else 0)))
  | JNum q => Ok (KNum (Q2Qc q))
  | JStr s => Ok (KStr s)
  | JList _ | JDict _ => Raise TypeError
  end.

(** The truth value of the object behind a key. *)
Definition key_truthy (k : dict_key) : bool :=
  match k with
  | KNone => false
  | KNum q => negb (Qeq_bool q 0)
  | KStr s => negb (String.eqb s "")
  end.

(** A truthy key. *)
Definition named (k : dict_key) : option dict_key :=
  if key_truthy k then Some k else None.

(** The key of an optional string. *)
Definition key_of (o : option string) : dict_key :=
  match o with
  | Some s => KStr s
  | None => KNone
  end.

(** One entry of [connection_info].  The room is kept as the key it is
    looked up by. *)
Module Info.
Record t : Type := {
  user_id : option string;
  room : dict_key;
  messages_received : nat;
  messages_sent : nat
}.
End Info.

(** [info.get("room")] on the entry found for a connection, [{}] when
    there is none. *)
Definition recorded_room (info : option Info.t) : dict_key :=
  match info with
  | Some i => Info.room i
  | None => KNone
  end.

Module Stats.
Record t : Type := {
  total_connections : nat;
  active_connections : nat;
  messages_sent : nat;
  messages_failed : nat;
  rooms_created : nat
}.
End Stats.

Module ConnectionManager.

(** The manager's four containers and its counters.  [wire] is the
    sequence of frames handed to [send_text] that were delivered, oldest
    first; time stamps inside frames are left out. *)
Record t : Type := {
  active_connections : list conn;
  connection_info : gmap conn Info.t;
  room_connections : gmap dict_key (list conn);
  user_connections : gmap string (list conn);
  stats : Stats.t;
  wire : list (conn * json)
}.

Definition init : t :=
  {| active_connections := []; connection_info := ∅;
     room_connections := ∅; user_connections := ∅;
     stats := {| Stats.total_connections := 0; Stats.active_connections := 0;
                 Stats.messages_sent := 0; Stats.messages_failed := 0;
                 Stats.rooms_created := 0 |};
     wire := [] |}.

Definition with_active (self : t) (a : list conn) : t :=
  {| active_connections := a; connection_info := connection_info self;
     room_connections := room_connections self;
     user_connections := user_connections self;
     stats := stats self; wire := wire self |}.

Definition with_info (self : t) (m : gmap conn Info.t) : t :=
  {| active_connections := active_connections self; connection_info := m;
     room_connections := room_connections self;
     user_connections := user_connections self;
     stats := stats self; wire := wire self |}.

Definition with_rooms (self : t) (m : gmap dict_key (list conn)) : t :=
  {| active_connections := active_connections self;
     connection_info := connection_info self;
     room_connections := m;
     user_connections := user_connections self;
     stats := stats self; wire := wire self |}.

Definition with_users (self : t) (m : gmap string (list conn)) : t :=
  {| active_connections := active_connections self;
     connection_info := connection_info self;
     room_connections := room_connections self;
     user_connections := m;
     stats := stats self; wire := wire self |}.

Definition with_stats (self : t) (s : Stats.t) : t :=
  {| active_connections := active_connections self;
     connection_info := connection_info self;
     room_connections := room_connections self;
     user_connections := user_connections self;
     stats := s; wire := wire self |}.

Definition with_wire (self : t) (w : list (conn * json)) : t :=
  {| active_connections := active_connections self;
     connection_info := connection_info self;
     room_connections := room_connections self;
     user_connections := user_connections self;
     stats := stats self; wire := w |}.

Definition count_sent (s : Stats.t) : Stats.t :=
  {| Stats.total_connections := Stats.total_connections s;
     Stats.active_connections := Stats.active_connections s;
     Stats.messages_sent := S (Stats.messages_sent s);
     Stats.messages_failed := Stats.messages_failed s;
     Stats.rooms_created := Stats.rooms_created s |}.

Definition count_failed (s : Stats.t) : Stats.t :=
  {| Stats.total_connections := Stats.total_connections s;
     Stats.active_connections := Stats.active_connections s;
     Stats.messages_sent := Stats.messages_sent s;
     Stats.messages_failed := S (Stats.messages_failed s);
     Stats.rooms_created := Stats.rooms_created s |}.

Definition count_room (s : Stats.t) : Stats.t :=
  {| Stats.total_connections := Stats.total_connections s;
     Stats.active_connections := Stats.active_connections s;
     Stats.messages_sent := Stats.messages_sent s;
     Stats.messages_failed := Stats.messages_failed s;
     Stats.rooms_created := S (Stats.rooms_created s) |}.

Definition count_connection (s : Stats.t) (active : nat) : Stats.t :=
  {| Stats.total_connections := S (Stats.total_connections s);
     Stats.active_connections := active;
     Stats.messages_sent := Stats.messages_sent s;
     Stats.messages_failed := Stats.messages_failed s;
     Stats.rooms_created := Stats.rooms_created s |}.

Definition set_active_count (s : Stats.t) (active : nat) : Stats.t :=
  {| Stats.total_connections := Stats.total_connections s;
     Stats.active_connections := active;
     Stats.messages_sent := Stats.messages_sent s;
     Stats.messages_failed := Stats.messages_failed s;
     Stats.rooms_created := Stats.rooms_created s |}.

Definition sent_one (i : Info.t) : Info.t :=
  {| Info.user_id := Info.user_id i; Info.room := Info.room i;
     Info.messages_received := Info.messages_received i;
     Info.messages_sent := S (Info.messages_sent i) |}.

Definition set_room (new_room : dict_key) (i : Info.t) : Info.t :=
  {| Info.user_id := Info.user_id i; Info.room := new_room;
     Info.messages_received := Info.messages_received i;
     Info.messages_sent := Info.messages_sent i |}.

(** [index[key].discard(ws)], then [del index[key]] when the set has
    become empty; nothing happens when [key] is not in the index. *)
Definition leave `{Countable K} (index : gmap K (list conn)) (key : K)
    (ws : conn) : gmap K (list conn) :=
  match index !! key with
  | Some members =>
      match set_discard ws members with
      | [] => delete key index
      | rest => <[key := rest]> index
      end
  | None => index
  end.

Definition disconnect (self : t) (ws : conn) : t :=
  let info := connection_info self !! ws in
  let user_id := info ≫= Info.user_id in
  let room := recorded_room info in
  let self := with_active self (set_discard ws (active_connections self)) in
  let self :=
    match named room with
    | Some r => with_rooms self (leave (room_connections self) r ws)
    | None => self
    end in
  let self :=
    match nonempty user_id with
    | Some u => with_users self (leave (user_connections self) u ws)
    | None => self
    end in
  let self := with_info self (delete ws (connection_info self)) in
  with_stats self
    (set_active_count (stats self) (length (active_connections self))).

(** The bookkeeping after a delivered frame. *)
Definition delivered (self : t) (ws : conn) (message : json) : t :=
  let self := with_wire self (wire self ++ [(ws, message)]) in
  let self := with_info self (alter sent_one ws (connection_info self)) in
  with_stats self (count_sent (stats self)).

Section Sending.

(** The state of every socket while one call runs. *)
Variable net : conn → socket.

Definition send_personal_message (self : t) (ws : conn) (message : json)
  : t * bool :=
  match net ws with
  | Live => (delivered self ws message, true)
  | Closed => (self, false)
  | Broken =>
      let self := with_stats self (count_failed (stats self)) in
      (disconnect self ws, false)
  end.

Definition _send_with_error_handling (self : t) (ws : conn) (message : json)
  : t * result bool :=
  match net ws with
  | Live => (delivered self ws message, Ok true)
  | Closed => (self, Ok false)
  | Broken => (with_stats self (count_failed (stats self)), Raise SendError)
  end.

(** [asyncio.gather] with [return_exceptions=True]: every task runs,
    and the results come back in the order of the tasks. *)
Fixpoint gather (self : t) (tasks : list conn) (message : json)
  : t * list (result bool) :=
  match tasks with
  | [] => (self, [])
  | ws :: rest =>
      let '(self, r) := _send_with_error_handling self ws message in
      let '(self, rs) := gather self rest message in
      (self, r :: rs)
  end.

(** The loop over [enumerate(results)]: a result that is an exception
    puts the connection found at the same position of [positions] into
    [failed_connections]; results that are [True] are counted. *)
Fixpoint collect (positions : list conn) (i : nat)
    (results : list (result bool)) (failed : list conn) (success_count : nat)
  : result (list conn * nat) :=
  match results with
  | [] => Ok (failed, success_count)
  | r :: rest =>
      match r with
      | Raise _ =>
          match positions !! i with
          | Some connection =>
              collect positions (S i) rest (set_add connection failed)
                success_count
          | None => Raise IndexError
          end
      | Ok true => collect positions (S i) rest failed (S success_count)
      | Ok false => collect positions (S i) rest failed success_count
      end
  end.

Definition disconnect_all (self : t) (failed : list conn) : t :=
  foldl disconnect self failed.

(** [broadcast]: the tasks are the active connections outside [exclude],
    while a failed result at position [i] is charged to
    [list(self.active_connections)[i]]. *)
Definition broadcast (self : t) (message : json) (exclude : option (list conn))
  : t * result unit :=
  match active_connections self with
  | [] => (self, Ok ())
  | _ =>
      let exclude := default [] exclude in
      let tasks :=
        filter (λ connection, connection ∉ exclude) (active_connections self) in
      let '(self, results) := gather self tasks message in
      match collect (active_connections self) 0 results [] 0 with
      | Ok (failed_connections, _) =>
          (disconnect_all self failed_connections, Ok ())
      | Raise e => (self, Raise e)
      end
  end.

Definition broadcast_to_room (self : t) (room : dict_key) (message : json)
    (exclude : option (list conn)) : t * result unit :=
  match room_connections self !! room with
  | None => (self, Ok ())
  | Some members =>
      let exclude := default [] exclude in
      let room_connections := list_difference members exclude in
      match room_connections with
      | [] => (self, Ok ())
      | _ =>
          let '(self, results) := gather self room_connections message in
          match collect room_connections 0 results [] 0 with
          | Ok (failed_connections, _) =>
              (disconnect_all self failed_connections, Ok ())
          | Raise e => (self, Raise e)
          end
      end
  end.

Definition send_to_user (self : t) (user_id : string) (message : json)
  : t * result bool :=
  match user_connections self !! user_id with
  | None => (self, Ok false)
  | Some members =>
      let user_connections := members in
      let '(self, results) := gather self user_connections message in
      match collect user_connections 0 results [] 0 with
      | Ok (failed_connections, success_count) =>
          (disconnect_all self failed_connections,
           Ok (bool_decide (0 < success_count)))
      | Raise e => (self, Raise e)
      end
  end.

(** [_join_room] from the point where its first line has looked the
    room up; the lookup hashes the room (see [change_room]). *)
Definition _join_room (self : t) (ws : conn) (room : dict_key) : t :=
  let self :=
    match room_connections self !! room with
    | Some _ => self
    | None =>
        let self := with_rooms self (<[room := []]> (room_connections self)) in
        with_stats self (count_room (stats self))
    end in
  with_rooms self
    (alter (set_add ws) room (room_connections self)).

Definition _associate_user (self : t) (ws : conn) (user_id : string) : t :=
  let self :=
    match user_connections self !! user_id with
    | Some _ => self
    | None => with_users self (<[user_id := []]> (user_connections self))
    end in
  with_users self
    (alter (set_add ws) user_id (user_connections self)).

(** [change_room]: the connection leaves the room recorded for it, then
    [_join_room] looks the new room up.  A new room that cannot be
    hashed raises there, after the old room has been left and before
    anything else is changed. *)
Definition change_room (self : t) (ws : conn) (new_room : json)
  : t * result unit :=
  let info := connection_info self !! ws in
  let old_room := recorded_room info in
  let self :=
    match named old_room with
    | Some r => with_rooms self (leave (room_connections self) r ws)
    | None => self
    end in
  match hash new_room with
  | Raise e => (self, Raise e)
  | Ok room =>
      let self := _join_room self ws room in
      (with_info self (alter (set_room room) ws (connection_info self)),
       Ok ())
  end.

Definition connection_established : json :=
  JDict [("type", JStr "connection_established");
         ("message", JStr "WebSocket连接已建立")].

(** The body of [connect] from [websocket.accept()] returning up to the
    statistics update. *)
Definition connect_bookkeeping (self : t) (ws : conn)
    (user_id room : option string) : t :=
  let self := with_active self (set_add ws (active_connections self)) in
  let self :=
    with_info self
      (<[ws := {| Info.user_id := user_id; Info.room := key_of room;
                  Info.messages_received := 0; Info.messages_sent := 0 |}]>
         (connection_info self)) in
  let self :=
    match nonempty room with
    | Some r => _join_room self ws (KStr r)
    | None => self
    end in
  let self :=
    match nonempty user_id with
    | Some u => _associate_user self ws u
    | None => self
    end in
  with_stats self
    (count_connection (stats self) (length (active_connections self))).

(** [connect]: the bookkeeping, then the welcome frame. *)
Definition connect (self : t) (ws : conn) (user_id room : option string)
  : t :=
  let self := connect_bookkeeping self ws user_id room in
  (send_personal_message self ws connection_established).1.

End Sending.

End ConnectionManager.

Module WebSocketService.

Definition room_left : json := JDict [("type", JStr "room_left")].

Definition pong : json := JDict [("type", JStr "pong")].

Definition _handle_ping (net : conn → socket) (manager : ConnectionManager.t)
    (ws : conn) (message : json) : ConnectionManager.t :=
  (ConnectionManager.send_personal_message net manager ws pong).1.

(** The handlers below return the manager as they leave it; an
    exception that ends a handler is caught and logged by
    [_handle_message], which calls them. *)
Definition _handle_leave_room (net : conn → socket)
    (manager : ConnectionManager.t) (ws : conn) (message : json)
  : ConnectionManager.t :=
  match ConnectionManager.change_room manager ws (JStr "default") with
  | (manager, Raise _) => manager
  | (manager, Ok _) =>
      (ConnectionManager.send_personal_message net manager ws room_left).1
  end.

Definition room_name_missing : json :=
  JDict [("type", JStr "error"); ("message", JStr "房间名不能为空")].

Definition room_joined (room : json) : json :=
  JDict [("type", JStr "room_joined"); ("room", room)].

(** [_handle_join_room]: the room is whatever the frame carries under
    ["room"]. *)
Definition _handle_join_room (net : conn → socket)
    (manager : ConnectionManager.t) (ws : conn) (message : json)
  : ConnectionManager.t :=
  match py_get message "room" JNull with
  | Raise _ => manager
  | Ok room =>
      if negb (truthy room) then
        (ConnectionManager.send_personal_message net manager ws
           room_name_missing).1
      else
        match ConnectionManager.change_room manager ws room with
        | (manager, Raise _) => manager
        | (manager, Ok _) =>
            (ConnectionManager.send_personal_message net manager ws
               (room_joined room)).1
        end
  end.

(** [handle_connection] is given the room of the endpoint: the [/ws]
    endpoint declares [room = Query("default")], so a request without the
    parameter ([None] below) arrives here with the room ["default"]. *)
Definition websocket_endpoint (net : conn → socket)
    (manager : ConnectionManager.t) (ws : conn)
    (user_id : option string) (room : option string)
  : ConnectionManager.t :=
  ConnectionManager.connect net manager ws user_id
    (Some (default "default" room)).

End WebSocketService.

(** ** app/models/gateway.py *)

Module Gateway.

Record t : Type := {
  id : Z;
  device_id : string;
  status : json;
  last_seen : option Z;
  uptime : json;
  total_sensors : nat;
  active_sensors : nat
}.

Definition update_status (now : Z) (self : t) (st : json) : t :=
  {| id := id self; device_id := device_id self; status := st;
     last_seen := if str_is st "online" then Some now else last_seen self;
     uptime := uptime self; total_sensors := total_sensors self;
     active_sensors := active_sensors self |}.

(** [self.sensors] is the relationship to the sensors whose [gateway_id]
    is this gateway. *)
Definition update_statistics (self : t) (sensors : list Sensor.t) : t :=
  let mine := filter (λ s, Sensor.gateway_id s = id self) sensors in
  {| id := id self; device_id := device_id self; status := status self;
     last_seen := last_seen self; uptime := uptime self;
     total_sensors := length mine;
     active_sensors :=
       length (filter (λ s, Sensor.is_active s = true
                            ∧ str_is (Sensor.status s) "online" = true) mine) |}.

(** The assignments [_handle_heartbeat] makes to the gateway it found:
    status, last-seen time, and the uptime when the payload has one. *)
Definition heartbeat (now : Z) (self : t) (data : list (string * json)) : t :=
  {| id := id self; device_id := device_id self; status := JStr "online";
     last_seen := Some now;
     uptime := default (uptime self) (assoc "uptime" data);
     total_sensors := total_sensors self;
     active_sensors := active_sensors self |}.

End Gateway.

(** ** app/services/mqtt_service.py *)

(** [sub in s] on strings. *)
Fixpoint contains (sub s : string) : bool :=
  String.prefix sub s
  || match s with
     | EmptyString => false
     | String _ s' => contains sub s'
     end.

(** [s.split(sep)] for a one-character separator. *)
Fixpoint split (sep : Ascii.ascii) (s : string) : list string :=
  match s with
  | EmptyString => [EmptyString]
  | String c s' =>
      if Ascii.eqb c sep then EmptyString :: split sep s'
      else match split sep s' with
           | [] => [String c EmptyString]
           | h :: t => String c h :: t
           end
  end.

(** [topic.split('/')[1]] *)
Definition topic_device_id (topic : string) : result string :=
  match split "/"%char topic !! 1 with
  | Some d => Ok d
  | None => Raise IndexError
  end.

(** The outcome of [payload.decode('utf-8')] followed by [json.loads]. *)
Inductive payload : Type :=
| UnicodeDecodeError
| JSONDecodeError
| Loaded (message_data : json).

(** The entry written to the cache, before [json.dumps]. *)
Record cache_data : Type := {
  cd_value : json;
  cd_timestamp : Z;
  cd_sensor_id : Z;
  cd_device_id : string
}.

(** The two families of keys the service uses, both indexed by the
    sensor's id: [sensor:{id}:latest] holds one value, [sensor:{id}:series]
    a list; each with its time to live in seconds. *)
Module Redis.

Record t : Type := {
  latest : gmap Z (cache_data * N);
  series : gmap Z (list cache_data * option N)
}.

Definition init : t := {| latest := ∅; series := ∅ |}.

Definition setex (r : t) (sensor_id : Z) (ttl : N) (v : cache_data) : t :=
  {| latest := <[sensor_id := (v, ttl)]> (latest r); series := series r |}.

(** [LPUSH]: the new element becomes the head; an absent key starts
    from the empty list, without expiry. *)
Definition lpush (r : t) (sensor_id : Z) (v : cache_data) : t :=
  let '(items, ttl) := default ([], None) (series r !! sensor_id) in
  {| latest := latest r;
     series := <[sensor_id := (v :: items, ttl)]> (series r) |}.

(** [LTRIM key start stop] with non-negative indices: the elements at
    positions [start] to [stop], both included, are kept; a list that
    becomes empty is removed. *)
Definition ltrim (r : t) (sensor_id : Z) (start stop : nat) : t :=
  match series r !! sensor_id with
  | None => r
  | Some (items, ttl) =>
      match take (S stop - start) (drop start items) with
      | [] => {| latest := latest r; series := delete sensor_id (series r) |}
      | kept =>
          {| latest := latest r;
             series := <[sensor_id := (kept, ttl)]> (series r) |}
      end
  end.

Definition expire (r : t) (sensor_id : Z) (ttl : N) : t :=
  {| latest := latest r;
     series := alter (λ e, (e.1, Some ttl)) sensor_id (series r) |}.

Definition items (r : t) (sensor_id : Z) : list cache_data :=
  (default ([], None) (series r !! sensor_id)).1.

End Redis.

(** A point of the [sensor_data] measurement. *)
Record point : Type := {
  tag_sensor_id : Z;
  tag_device_id : string;
  tag_sensor_type : string;
  tag_gateway_id : Z;
  tag_location : string;
  tag_unit : option string;
  field_value : json;
  field_quality : json;
  time : Z
}.

Module MStats.
Record t : Type := {
  messages_received : nat;
  messages_processed : nat;
  messages_failed : nat
}.
End MStats.

(** What the reconnect logic does to the outside: it sleeps, asks the
    client library to connect, or schedules [_reconnect] as a new task. *)
Inductive event : Type :=
| Sleep (seconds : nat)
| ConnectAsync
| CreateTaskReconnect.

#[global] Instance event_eq_dec : EqDecision event.
Proof. solve_decision. Defined.

(** What the client library and the broker do at one connection attempt:
    the value [connect_async] returns ([None] when it returns nothing or
    raises),
    and the number of one-second waits after which the connect callback
    has set [is_connected] ([None] when it never does; a callback that
    comes after the thirtieth wait is not seen by [_connect]). *)
Record attempt : Type := {
  returned : option Z;
  acknowledged : option nat
}.

Definition MQTT_ERR_SUCCESS : Z := 0.

Module MQTTService.

(** The service object together with the stores its handlers reach
    through [get_db], [get_write_api] and [get_redis]. *)
Record t : Type := {
  is_connected : bool;
  is_running : bool;
  reconnect_attempts : nat;
  stats : MStats.t;
  websocket_service : ConnectionManager.t;
  sensors : list Sensor.t;
  gateways : list Gateway.t;
  influx : list point;
  redis : Redis.t
}.

Definition reconnect_interval : nat := 5.
Definition max_reconnect_attempts : nat := 10.

Definition with_connection (self : t) (connected : bool) (attempts : nat) : t :=
  {| is_connected := connected; is_running := is_running self;
     reconnect_attempts := attempts; stats := stats self;
     websocket_service := websocket_service self;
     sensors := sensors self; gateways := gateways self;
     influx := influx self; redis := redis self |}.

Definition with_stats (self : t) (st : MStats.t) : t :=
  {| is_connected := is_connected self; is_running := is_running self;
     reconnect_attempts := reconnect_attempts self; stats := st;
     websocket_service := websocket_service self;
     sensors := sensors self; gateways := gateways self;
     influx := influx self; redis := redis self |}.

Definition with_websocket (self : t) (m : ConnectionManager.t) : t :=
  {| is_connected := is_connected self; is_running := is_running self;
     reconnect_attempts := reconnect_attempts self; stats := stats self;
     websocket_service := m;
     sensors := sensors self; gateways := gateways self;
     influx := influx self; redis := redis self |}.

Definition with_sensors (self : t) (l : list Sensor.t) : t :=
  {| is_connected := is_connected self; is_running := is_running self;
     reconnect_attempts := reconnect_attempts self; stats := stats self;
     websocket_service := websocket_service self;
     sensors := l; gateways := gateways self;
     influx := influx self; redis := redis self |}.

Definition with_gateways (self : t) (l : list Gateway.t) : t :=
  {| is_connected := is_connected self; is_running := is_running self;
     reconnect_attempts := reconnect_attempts self; stats := stats self;
     websocket_service := websocket_service self;
     sensors := sensors self; gateways := l;
     influx := influx self; redis := redis self |}.

Definition with_influx (self : t) (l : list point) : t :=
  {| is_connected := is_connected self; is_running := is_running self;
     reconnect_attempts := reconnect_attempts self; stats := stats self;
     websocket_service := websocket_service self;
     sensors := sensors self; gateways := gateways self;
     influx := l; redis := redis self |}.

Definition with_redis (self : t) (r : Redis.t) : t :=
  {| is_connected := is_connected self; is_running := is_running self;
     reconnect_attempts := reconnect_attempts self; stats := stats self;
     websocket_service := websocket_service self;
     sensors := sensors self; gateways := gateways self;
     influx := influx self; redis := r |}.

Definition count_received (st : MStats.t) : MStats.t :=
  {| MStats.messages_received := S (MStats.messages_received st);
     MStats.messages_processed := MStats.messages_processed st;
     MStats.messages_failed := MStats.messages_failed st |}.

Definition count_processed (st : MStats.t) : MStats.t :=
  {| MStats.messages_received := MStats.messages_received st;
     MStats.messages_processed := S (MStats.messages_processed st);
     MStats.messages_failed := MStats.messages_failed st |}.

Definition count_failed (st : MStats.t) : MStats.t :=
  {| MStats.messages_received := MStats.messages_received st;
     MStats.messages_processed := MStats.messages_processed st;
     MStats.messages_failed := S (MStats.messages_failed st) |}.

(** *** The reconnect logic *)

(** [_connect]: the request to the client library, whose answer must be
    [MQTT_ERR_SUCCESS]; then [is_connected] is looked at before each of up
    to thirty one-second waits and once more after the last of them. *)
Definition _connect (self : t) (a : attempt) : t * list event * result unit :=
  if decide (returned a ≠ Some MQTT_ERR_SUCCESS) then
    (self, [ConnectAsync], Raise ConnectError)
  else
    let waits := if is_connected self then Some 0 else acknowledged a in
    match waits with
    | Some delay =>
        if decide (delay ≤ 30) then
          (with_connection self true 0,
           ConnectAsync :: replicate delay (Sleep 1), Ok ())
        else
          (self, ConnectAsync :: replicate 30 (Sleep 1), Raise TimeoutError)
    | None =>
        (self, ConnectAsync :: replicate 30 (Sleep 1), Raise TimeoutError)
    end.

(** [_on_disconnect(client, userdata, rc)] *)
Definition _on_disconnect (self : t) (rc : Z) : t * list event :=
  let self := with_connection self false (reconnect_attempts self) in
  if decide (rc ≠ 0%Z) then
    if is_running self
       && bool_decide (reconnect_attempts self < max_reconnect_attempts)
    then
      (with_connection self false (S (reconnect_attempts self)),
       [CreateTaskReconnect])
    else (self, [])
  else (self, []).

(** [_reconnect]: the sleep, then a connection attempt whose failure is
    logged and dropped. *)
Definition _reconnect (self : t) (a : attempt) : t * list event :=
  if is_running self && negb (is_connected self) then
    let '(self, events, _) := _connect self a in
    (self, Sleep reconnect_interval :: events)
  else (self, [Sleep reconnect_interval]).

(** One turn of the [while self.is_running] loop of [_message_loop]. *)
Definition _message_loop_turn (self : t) (a : attempt) : t * list event :=
  if negb (is_connected self) && is_running self then
    let '(self, events) := _reconnect self a in
    (self, Sleep 1 :: events)
  else (self, [Sleep 1]).

(** [_message_loop] for as many turns as [attempts] has entries; the
    [k]-th entry is what a connection attempt meets at the [k]-th turn.
    The loop ends earlier only when [is_running] is cleared. *)
Fixpoint _message_loop (self : t) (attempts : list attempt)
  : t * list event :=
  match attempts with
  | [] => (self, [])
  | a :: rest =>
      if is_running self then
        let '(self, events) := _message_loop_turn self a in
        let '(self, later) := _message_loop self rest in
        (self, events ++ later)
      else (self, [])
  end.

(** *** Message handling *)

Section Handlers.

(** The sockets of the connected clients, the clock, the two library
    functions that read a time stamp ([None] when they raise), and the
    text [str] gives to a value that is not a string.  The stores accept
    every write. *)
Variable net : conn → socket.
Variable now : Z.
Variable fromisoformat : string → option Z.
Variable fromtimestamp : Q → option Z.
Variable str : json → string.

(** [db.query(Sensor).filter(Sensor.device_id == device_id).first()] *)
Definition find_sensor (table : list Sensor.t) (device_id : string)
  : option Sensor.t :=
  head (filter (λ s, Sensor.device_id s = device_id) table).

Definition find_gateway (table : list Gateway.t) (device_id : string)
  : option Gateway.t :=
  head (filter (λ g, Gateway.device_id g = device_id) table).

(** [db.commit()] after the row object has been changed. *)
Definition commit_sensor (table : list Sensor.t) (row : Sensor.t)
  : list Sensor.t :=
  map (λ s, if decide (Sensor.id s = Sensor.id row) then row else s) table.

Definition commit_gateway (table : list Gateway.t) (row : Gateway.t)
  : list Gateway.t :=
  map (λ g, if decide (Gateway.id g = Gateway.id row) then row else g) table.

(** The time stamp of a reading: a truthy [timestamp] is read as ISO
    text when it is a string and as seconds since the epoch otherwise;
    whenever that raises, and when it is absent, the clock is used. *)
Definition reading_time (timestamp : json) : Z :=
  if truthy timestamp then
    match timestamp with
    | JStr text => default now (fromisoformat text)
    | _ =>
        match as_number timestamp with
        | Some seconds => default now (fromtimestamp seconds)
        | None => now
        end
    end
  else now.

(** [_write_to_influxdb]: the field is [float(value)] for a number and
    [str(value)] for everything else; an exception, the one of [float]
    included, is caught at the end of the function and no point is
    written. *)
Definition _write_to_influxdb (self : t) (sensor : Sensor.t) (value : json)
    (timestamp : Z) (quality : json) : t :=
  let field :=
    match as_number value with
    | Some number =>
        match py_float number with
        | Ok f => Ok (JNum f)
        | Raise e => Raise e
        end
    | None => Ok (JStr (py_str str value))
    end in
  match field with
  | Raise _ => self
  | Ok field =>
  let p :=
    {| tag_sensor_id := Sensor.id sensor;
       tag_device_id := Sensor.device_id sensor;
       tag_sensor_type :=
         match Sensor.sensor_type sensor with
         | Some ty => Sensor.type_name ty
         | None => "unknown"
         end;
       tag_gateway_id := Sensor.gateway_id sensor;
       tag_location :=
         match nonempty (Sensor.location sensor) with
         | Some l => l
         | None => "unknown"
         end;
       tag_unit := Sensor.sensor_type sensor ≫= λ ty, nonempty (Sensor.unit ty);
       field_value := field;
       field_quality := quality;
       time := timestamp |} in
  with_influx self (influx self ++ [p])
  end.

Definition _cache_sensor_data (self : t) (sensor : Sensor.t) (value : json)
    (timestamp : Z) : t :=
  let redis_client := redis self in
  let cache_data :=
    {| cd_value := value; cd_timestamp := timestamp;
       cd_sensor_id := Sensor.id sensor;
       cd_device_id := Sensor.device_id sensor |} in
  let redis_client :=
    Redis.setex redis_client (Sensor.id sensor) 3600%N cache_data in
  let redis_client := Redis.lpush redis_client (Sensor.id sensor) cache_data in
  let redis_client := Redis.ltrim redis_client (Sensor.id sensor) 0 99 in
  let redis_client := Redis.expire redis_client (Sensor.id sensor) 86400%N in
  with_redis self redis_client.

(** [self.websocket_service.broadcast(message)] *)
Definition broadcast (self : t) (message : json) : t * result unit :=
  let '(manager, r) :=
    ConnectionManager.broadcast net (websocket_service self) message None in
  (with_websocket self manager, r).

(** The alarm as it travels in a frame; the text of ["condition"] is
    kept as the three parts it is rendered from. *)
Definition alarm_json (a : Sensor.alarm) : json :=
  JDict [("rule_name", Sensor.rule_name a);
         ("condition",
          JList [JNum (Sensor.value a); Sensor.condition a;
                 Sensor.threshold a]);
         ("severity", Sensor.severity a);
         ("message", Sensor.message a);
         ("sensor_id", JNum (inject_Z (Sensor.sensor_id a)));
         ("sensor_name", JStr (Sensor.sensor_name a));
         ("value", JNum (Sensor.value a));
         ("threshold", Sensor.threshold a)].

(** [_handle_alarms]: one broadcast per alarm; an exception ends the
    loop. *)
Fixpoint _handle_alarms (self : t) (alarms : list Sensor.alarm) : t :=
  match alarms with
  | [] => self
  | alarm :: rest =>
      let '(self, r) :=
        broadcast self
          (JDict [("type", JStr "alarm"); ("data", alarm_json alarm)]) in
      match r with
      | Ok _ => _handle_alarms self rest
      | Raise _ => self
      end
  end.

Definition _broadcast_sensor_data (self : t) (sensor : Sensor.t)
    (value : json) (timestamp : Z) : t :=
  (broadcast self
     (JDict [("type", JStr "sensor_data");
             ("sensor_id", JNum (inject_Z (Sensor.id sensor)));
             ("device_id", JStr (Sensor.device_id sensor));
             ("value", value);
             ("timestamp", JNum (inject_Z timestamp));
             ("sensor_name", JStr (Sensor.name sensor));
             ("unit",
              match Sensor.sensor_type sensor ≫= Sensor.unit with
              | Some u => JStr u
              | None => JNull
              end)])).1.

(** [_handle_sensor_data]: every exception is caught at the end of the
    function, so what was written before it stays written. *)
Definition _handle_sensor_data (self : t) (topic : string) (data : json) : t :=
  match topic_device_id topic with
  | Raise _ => self
  | Ok device_id =>
  match find_sensor (sensors self) device_id with
  | None => self
  | Some sensor =>
  match py_get data "value" JNull with
  | Raise _ => self
  | Ok value =>
  let timestamp := default JNull (data_get data "timestamp") in
  let quality := default (JStr "good") (data_get data "quality") in
  if is_none value then self else
  let dt := reading_time timestamp in
  let sensor :=
    Sensor.set_status
      (Sensor.update_data_stats str sensor (JStr (py_str str value)))
      (JStr "online") in
  let self := with_sensors self (commit_sensor (sensors self) sensor) in
  let self := _write_to_influxdb self sensor value dt quality in
  let self := _cache_sensor_data self sensor value dt in
  match as_number value with
  | Some number =>
      match py_float number with
      | Raise _ => self
      | Ok number =>
      match Sensor.check_alarm_conditions sensor number with
      | Raise _ => self
      | Ok alarms =>
          let self :=
            match alarms with
            | [] => self
            | _ => _handle_alarms self alarms
            end in
          _broadcast_sensor_data self sensor value dt
      end
      end
  | None => _broadcast_sensor_data self sensor value dt
  end
  end end end.

Definition _handle_status_message (self : t) (topic : string) (data : json)
  : t :=
  match topic_device_id topic with
  | Raise _ => self
  | Ok device_id =>
  match py_get data "status" (JStr "unknown") with
  | Raise _ => self
  | Ok status =>
  if contains "sensors" topic then
    match find_sensor (sensors self) device_id with
    | None => self
    | Some sensor =>
        let error_message := default JNull (data_get data "error") in
        let sensor := Sensor.update_status sensor status error_message in
        let self := with_sensors self (commit_sensor (sensors self) sensor) in
        (broadcast self
           (JDict [("type", JStr "sensor_status");
                   ("sensor_id", JNum (inject_Z (Sensor.id sensor)));
                   ("device_id", JStr device_id);
                   ("status", status);
                   ("error", error_message)])).1
    end
  else if contains "gateways" topic then
    match find_gateway (gateways self) device_id with
    | None => self
    | Some gateway =>
        let gateway := Gateway.update_status now gateway status in
        let self :=
          with_gateways self (commit_gateway (gateways self) gateway) in
        (broadcast self
           (JDict [("type", JStr "gateway_status");
                   ("gateway_id", JNum (inject_Z (Gateway.id gateway)));
                   ("device_id", JStr device_id);
                   ("status", status)])).1
    end
  else self
  end end.

(** [_handle_heartbeat]: only a dictionary payload gets as far as the
    commit (['uptime' in data] followed by [data['uptime']] raises on
    the other kinds of payload that contain it, and the uncommitted
    changes are dropped with the session). *)
Definition _handle_heartbeat (self : t) (topic : string) (data : json) : t :=
  match topic_device_id topic with
  | Raise _ => self
  | Ok device_id =>
  match find_gateway (gateways self) device_id with
  | None => self
  | Some gateway =>
      let fields :=
        match data with
        | JDict d => Some d
        | JList l => if existsb (λ x, str_is x "uptime") l then None else Some []
        | JStr text => if contains "uptime" text then None else Some []
        | _ => None
        end in
      match fields with
      | None => self
      | Some d =>
          let gateway := Gateway.heartbeat now gateway d in
          let gateway := Gateway.update_statistics gateway (sensors self) in
          with_gateways self (commit_gateway (gateways self) gateway)
      end
  end end.

Definition _handle_alert (self : t) (topic : string) (data : json) : t :=
  (broadcast self (JDict [("type", JStr "alert"); ("data", data)])).1.

(** [_process_message(topic, payload)] *)
Definition _process_message (self : t) (topic : string) (body : payload) : t :=
  match body with
  | Loaded message_data =>
      let self :=
        if contains "/data" topic then
          _handle_sensor_data self topic message_data
        else if contains "/status" topic then
          _handle_status_message self topic message_data
        else if contains "/heartbeat" topic then
          _handle_heartbeat self topic message_data
        else if contains "/alert" topic then
          _handle_alert self topic message_data
        else self in
      with_stats self (count_processed (stats self))
  | JSONDecodeError => with_stats self (count_failed (stats self))
  | UnicodeDecodeError => with_stats self (count_failed (stats self))
  end.

(** [_on_message]: the frame is counted and handed to
    [asyncio.create_task], which runs [_process_message] as a task of
    its own.  [scheduled] tells whether the hand-over returns: it raises
    when the calling thread has no running event loop, and the frame is
    then counted as failed without being processed. *)
Definition _on_message (self : t) (scheduled : bool) (topic : string)
    (body : payload) : t :=
  let self := with_stats self (count_received (stats self)) in
  if scheduled then _process_message self topic body
  else with_stats self (count_failed (stats self)).

End Handlers.

End MQTTService.

(** * Specification vocabulary *)

(** The six operators an alarm rule may carry, and what each one means
    on numbers. *)
Inductive operator : Type := Gt | Lt | Ge | Le | Eq | Ne.

Definition symbol (o : operator) : string :=
  match o with
  | Gt => ">" | Lt => "<" | Ge => ">=" | Le => "<=" | Eq => "==" | Ne => "!="
  end.

Definition meaning (o : operator) (value threshold : Q) : Prop :=
  match o with
  | Gt => (threshold < value)%Q
  | Lt => (value < threshold)%Q
  | Ge => (threshold <= value)%Q
  | Le => (value <= threshold)%Q
  | Eq => (value == threshold)%Q
  | Ne => ¬ (value == threshold)%Q
  end.

(** A rule dictionary that is switched on and carries operator [o] and
    the numeric threshold [t]. *)
Definition rule_of (d : list (string * json)) (o : operator) (t : Q) : Prop :=
  truthy (default (JBool true) (assoc "enabled" d)) = true
  ∧ assoc "condition" d = Some (JStr (symbol o))
  ∧ assoc "threshold" d = Some (JNum t).

(** A sensor with alarms switched on whose rule list is exactly [rules]. *)
Definition sensor_with (rules : list json) : Sensor.t :=
  {| Sensor.id := 1; Sensor.name := "t1"; Sensor.device_id := "dev-1";
     Sensor.sensor_type := None; Sensor.gateway_id := 1;
     Sensor.location := None; Sensor.alarm_enabled := Some true;
     Sensor.alarm_rules := JDict [("rules", JList rules)];
     Sensor.status := JStr "online"; Sensor.last_value := None;
     Sensor.data_points_count := 0; Sensor.error_count := 0;
     Sensor.last_error := None; Sensor.is_active := true |}.

Definition rule (op : string) (t : Q) : json :=
  JDict [("condition", JStr op); ("threshold", JNum t)].

Definition alarm_count (r : result (list Sensor.alarm)) : option nat :=
  match r with
  | Ok l => Some (length l)
  | Raise _ => None
  end.

(** ** The connection registry *)

(** The members of a room (or the connections of a user): an absent key
    has none. *)
Definition members `{Countable K} (index : gmap K (list conn)) (key : K)
  : list conn :=
  default [] (index !! key).

Definition registered (self : ConnectionManager.t) (ws : conn) : Prop :=
  is_Some (ConnectionManager.connection_info self !! ws).

Definition in_room (self : ConnectionManager.t) (room : dict_key) (ws : conn)
  : Prop :=
  ws ∈ members (ConnectionManager.room_connections self) room.

Definition of_user (self : ConnectionManager.t) (user : string) (ws : conn)
  : Prop :=
  ws ∈ members (ConnectionManager.user_connections self) user.

(** The connection appears in none of the registry's structures. *)
Definition absent (self : ConnectionManager.t) (ws : conn) : Prop :=
  (ws ∉ ConnectionManager.active_connections self)
  ∧ ConnectionManager.connection_info self !! ws = None
  ∧ (∀ room, ¬ in_room self room ws)
  ∧ (∀ user, ¬ of_user self user ws).

(** The primary structures and the two indices agree: the active set
    and the connection-info table hold the same connections, a
    connection is listed under a room exactly when that room is the
    (non-empty) one recorded for it, and likewise for users. *)
Definition consistent (self : ConnectionManager.t) : Prop :=
  (∀ ws, ws ∈ ConnectionManager.active_connections self ↔ registered self ws)
  ∧ (∀ room ws,
       in_room self room ws ↔
       ∃ i, ConnectionManager.connection_info self !! ws = Some i
            ∧ named (Info.room i) = Some room)
  ∧ (∀ user ws,
       of_user self user ws ↔
       ∃ i, ConnectionManager.connection_info self !! ws = Some i
            ∧ nonempty (Info.user_id i) = Some user).

(** Every registered connection has a truthy room recorded. *)
Definition all_roomed (self : ConnectionManager.t) : Prop :=
  ∀ ws i, ConnectionManager.connection_info self !! ws = Some i →
          is_Some (named (Info.room i)).

Definition exactly_one_room (self : ConnectionManager.t) (ws : conn) : Prop :=
  ∃ room, in_room self room ws
          ∧ (∀ room', in_room self room' ws → room' = room)
          ∧ (∃ i, ConnectionManager.connection_info self !! ws = Some i
                  ∧ Info.room i = room).

(** Two registry states with the same active set and indices, whose info
    tables record the same room and user for every connection. *)
Definition same_index (self self' : ConnectionManager.t) : Prop :=
  ConnectionManager.active_connections self'
  = ConnectionManager.active_connections self
  ∧ ConnectionManager.room_connections self'
    = ConnectionManager.room_connections self
  ∧ ConnectionManager.user_connections self'
    = ConnectionManager.user_connections self
  ∧ (∀ ws, Info.room <$> ConnectionManager.connection_info self' !! ws
           = Info.room <$> ConnectionManager.connection_info self !! ws)
  ∧ (∀ ws, Info.user_id <$> ConnectionManager.connection_info self' !! ws
           = Info.user_id <$> ConnectionManager.connection_info self !! ws).

(** The registry states the service can be in: from the empty registry,
    by any handshake, any change of room (whatever the connection and
    whatever the frame names as the room), any disconnect, and any
    personal message or fan-out, whatever the sockets do. *)
Inductive reachable : ConnectionManager.t → Prop :=
| reach_init : reachable ConnectionManager.init
| reach_connect net self ws user room :
    reachable self →
    reachable (ConnectionManager.connect net self ws user room)
| reach_change_room self ws new_room :
    reachable self →
    reachable (ConnectionManager.change_room self ws new_room).1
| reach_disconnect self ws :
    reachable self → reachable (ConnectionManager.disconnect self ws)
| reach_send net self ws message :
    reachable self →
    reachable (ConnectionManager.send_personal_message net self ws message).1
| reach_broadcast net self message exclude :
    reachable self →
    reachable (ConnectionManager.broadcast net self message exclude).1
| reach_broadcast_to_room net self room message exclude :
    reachable self →
    reachable
      (ConnectionManager.broadcast_to_room net self room message exclude).1
| reach_send_to_user net self user message :
    reachable self →
    reachable (ConnectionManager.send_to_user net self user message).1.

(** The states among them in which every handshake was that of a new
    connection and named a non-empty room, and every change of room was
    that of a registered connection to a room with a non-empty name. *)
Inductive orderly : ConnectionManager.t → Prop :=
| orderly_init : orderly ConnectionManager.init
| orderly_connect net self ws user room :
    orderly self → ¬ registered self ws → room ≠ "" →
    orderly (ConnectionManager.connect net self ws user (Some room))
| orderly_change_room self ws (new_room : string) :
    orderly self → registered self ws → new_room ≠ "" →
    orderly (ConnectionManager.change_room self ws (JStr new_room)).1
| orderly_disconnect self ws :
    orderly self → orderly (ConnectionManager.disconnect self ws)
| orderly_send net self ws message :
    orderly self →
    orderly (ConnectionManager.send_personal_message net self ws message).1
| orderly_broadcast net self message exclude :
    orderly self →
    orderly (ConnectionManager.broadcast net self message exclude).1
| orderly_broadcast_to_room net self room message exclude :
    orderly self →
    orderly
      (ConnectionManager.broadcast_to_room net self room message exclude).1
| orderly_send_to_user net self user message :
    orderly self →
    orderly (ConnectionManager.send_to_user net self user message).1.

(** ** Fan-out *)

(** What a send to the connection returns or raises. *)
Definition outcome (net : conn → socket) (ws : conn) : result bool :=
  match net ws with
  | Live => Ok true
  | Closed => Ok false
  | Broken => Raise SendError
  end.

(** The members of a snapshot whose send raises. *)
Definition failing (net : conn → socket) (snapshot : list conn) (ws : conn)
  : Prop :=
  ws ∈ snapshot ∧ net ws = Broken.

(** The frames a fan-out over the snapshot delivers. *)
Definition deliveries (net : conn → socket) (snapshot : list conn)
    (message : json) : list (conn * json) :=
  map (λ ws, (ws, message)) (filter (λ ws, net ws = Live) snapshot).

(** The state after a fan-out over [snapshot]: exactly the failing
    members have left the registry, every live member has got the frame,
    and every failing member has been counted. *)
Definition fanned_out (net : conn → socket) (snapshot : list conn)
    (message : json) (self self' : ConnectionManager.t) : Prop :=
  (∀ ws, registered self' ws
         ↔ registered self ws ∧ ¬ failing net snapshot ws)
  ∧ (∀ ws, ws ∈ ConnectionManager.active_connections self'
           ↔ ws ∈ ConnectionManager.active_connections self
             ∧ ¬ failing net snapshot ws)
  ∧ ConnectionManager.wire self'
    = ConnectionManager.wire self ++ deliveries net snapshot message
  ∧ Stats.messages_failed (ConnectionManager.stats self')
    = Stats.messages_failed (ConnectionManager.stats self)
      + length (filter (λ ws, net ws = Broken) snapshot).

(** The failures collected when the results are read against the very
    list the tasks were made from. *)
Definition failures_of (net : conn → socket) (failed rest : list conn)
  : list conn :=
  foldl (λ f ws, if decide (net ws = Broken) then set_add ws f else f)
    failed rest.

(** ** Sample states *)

Definition sensor_switched_off : Sensor.t :=
  {| Sensor.id := 7; Sensor.name := "boiler"; Sensor.device_id := "dev-7";
     Sensor.sensor_type := None; Sensor.gateway_id := 1;
     Sensor.location := None; Sensor.alarm_enabled := Some false;
     Sensor.alarm_rules :=
       JDict [("rules", JList [JDict [("condition", JStr ">");
                                       ("threshold", JNum 35);
                                       ("enabled", JBool true)]])];
     Sensor.status := JStr "online"; Sensor.last_value := None;
     Sensor.data_points_count := 0; Sensor.error_count := 0;
     Sensor.last_error := None; Sensor.is_active := true |}.

(** Every client socket accepts what is written to it. *)
Definition all_live : conn → socket := λ _, Live.

(** Two clients registered in the room ["default"]. *)
Definition two_clients : ConnectionManager.t :=
  ConnectionManager.connect all_live
    (ConnectionManager.connect all_live ConnectionManager.init 1 None
       (Some "default"))
    2 None (Some "default").

(** The socket of client 2 raises on every write. *)
Definition second_broken : conn → socket :=
  λ ws, if decide (ws = 2) then Broken else Live.

Definition ping_frame : json := JDict [("type", JStr "ping")].

(** A running service that has lost its connection and has used up its
    ten reconnect attempts. *)
Definition capped : MQTTService.t :=
  {| MQTTService.is_connected := false;
     MQTTService.is_running := true;
     MQTTService.reconnect_attempts := 10;
     MQTTService.stats :=
       {| MStats.messages_received := 0; MStats.messages_processed := 0;
          MStats.messages_failed := 0 |};
     MQTTService.websocket_service := ConnectionManager.init;
     MQTTService.sensors := []; MQTTService.gateways := [];
     MQTTService.influx := []; MQTTService.redis := Redis.init |}.

(** The library takes the request and the broker never answers it. *)
Definition silent : attempt :=
  {| returned := Some MQTT_ERR_SUCCESS; acknowledged := None |}.

(** The library does not answer the request with [MQTT_ERR_SUCCESS]. *)
Definition refused : attempt :=
  {| returned := None; acknowledged := None |}.

(** The library takes the request and the broker answers after [delay]
    seconds. *)
Definition answered (delay : nat) : attempt :=
  {| returned := Some MQTT_ERR_SUCCESS; acknowledged := Some delay |}.

(** What one turn of the message loop does while the broker stays
    silent: the loop's sleep, the reconnect interval, the request, and
    the thirty seconds of waiting. *)
Definition silent_turn : list event :=
  Sleep 1 :: Sleep 5 :: ConnectAsync :: replicate 30 (Sleep 1).

(** The same turn when the library refuses the request: there is no
    waiting. *)
Definition refused_turn : list event :=
  [Sleep 1; Sleep 5; ConnectAsync].

Definition connect_requests (events : list event) : nat :=
  length (filter (λ e, e = ConnectAsync) events).

(** ** Ingestion *)

(** A connected, running service over the given sensor table, with
    empty stores, no clients and all counters at zero. *)
Definition service_of (table : list Sensor.t) : MQTTService.t :=
  {| MQTTService.is_connected := true;
     MQTTService.is_running := true;
     MQTTService.reconnect_attempts := 0;
     MQTTService.stats :=
       {| MStats.messages_received := 0; MStats.messages_processed := 0;
          MStats.messages_failed := 0 |};
     MQTTService.websocket_service := ConnectionManager.init;
     MQTTService.sensors := table; MQTTService.gateways := [];
     MQTTService.influx := []; MQTTService.redis := Redis.init |}.

(** A clock at zero and time-stamp readers that accept nothing. *)
Definition no_iso : string → option Z := λ _, None.
Definition no_epoch : Q → option Z := λ _, None.

(** The text of a value, for the sample runs: whole numbers in decimal
    digits, [None] and the truth values by their names. *)
Definition decimal (value : json) : string :=
  match value with
  | JNull => "None"
  | JBool true => "True"
  | JBool false => "False"
  | JNum q => pretty (Qnum q)
  | _ => ""
  end.

(** The persistent stores and the client side are the same in both
    states: nothing was written and nothing was sent. *)
Definition no_side_effects (self self' : MQTTService.t) : Prop :=
  MQTTService.sensors self' = MQTTService.sensors self
  ∧ MQTTService.gateways self' = MQTTService.gateways self
  ∧ MQTTService.influx self' = MQTTService.influx self
  ∧ MQTTService.redis self' = MQTTService.redis self
  ∧ MQTTService.websocket_service self' = MQTTService.websocket_service self.

(** The payload has no usable ["value"]: the key is missing, or null. *)
Definition lacks_value (data : json) : Prop :=
  data_get data "value" = None ∨ data_get data "value" = Some JNull.

(** A reading handed to the cache. *)
Record reading : Type := {
  of_sensor : Sensor.t;
  reading_value : json;
  reading_time : Z
}.

Definition entry_of (r : reading) : cache_data :=
  {| cd_value := reading_value r; cd_timestamp := reading_time r;
     cd_sensor_id := Sensor.id (of_sensor r);
     cd_device_id := Sensor.device_id (of_sensor r) |}.

(** The cache after the readings have been written one after the
    other, the head of the list first. *)
Definition cache_readings (self : MQTTService.t) (readings : list reading)
  : MQTTService.t :=
  foldl (λ s r,
           MQTTService._cache_sensor_data s (of_sensor r) (reading_value r)
             (reading_time r))
    self readings.

(** The entries of the readings of one sensor, newest first. *)
Definition newest_first (sensor_id : Z) (readings : list reading)
  : list cache_data :=
  rev (map entry_of
         (filter (λ r, Sensor.id (of_sensor r) = sensor_id) readings)).

(** No history list in the cache is longer than a hundred entries. *)
Definition capped_history (r : Redis.t) : Prop :=
  ∀ sensor_id, length (Redis.items r sensor_id) ≤ 100.

(** Readings number 0 to [n - 1] of one sensor. *)
Definition numbered_readings (sensor : Sensor.t) (n : nat) : list reading :=
  map (λ k, {| of_sensor := sensor;
               reading_value := JNum (inject_Z (Z.of_nat k));
               reading_time := Z.of_nat k |})
      (seq 0 n).

(** * Further parts of the code *)

(** ** app/models/sensor.py: the default rules *)

(** [get_default_alarm_rules]: by the name of the sensor's type. *)
Definition get_default_alarm_rules (self : Sensor.t) : json :=
  match Sensor.sensor_type self with
  | None => JDict []
  | Some ty =>
      let rules :=
        if String.eqb (Sensor.type_name ty) "温度传感器" then
          [JDict [("name", JStr "高温报警"); ("condition", JStr ">");
                  ("threshold", JNum 35); ("severity", JStr "warning");
                  ("enabled", JBool true)];
           JDict [("name", JStr "低温报警"); ("condition", JStr "<");
                  ("threshold", JNum 5); ("severity", JStr "warning");
                  ("enabled", JBool true)]]
        else if String.eqb (Sensor.type_name ty) "湿度传感器" then
          [JDict [("name", JStr "高湿报警"); ("condition", JStr ">");
                  ("threshold", JNum 80); ("severity", JStr "warning");
                  ("enabled", JBool true)];
           JDict [("name", JStr "低湿报警"); ("condition", JStr "<");
                  ("threshold", JNum 20); ("severity", JStr "info");
                  ("enabled", JBool true)]]
        else [] in
      JDict [("enabled", JBool true); ("rules", JList rules)]
  end.

(** The sensor after [self.alarm_rules = rules]. *)
Definition with_alarm_rules (self : Sensor.t) (rules : json) : Sensor.t :=
  {| Sensor.id := Sensor.id self; Sensor.name := Sensor.name self;
     Sensor.device_id := Sensor.device_id self;
     Sensor.sensor_type := Sensor.sensor_type self;
     Sensor.gateway_id := Sensor.gateway_id self;
     Sensor.location := Sensor.location self;
     Sensor.alarm_enabled := Sensor.alarm_enabled self;
     Sensor.alarm_rules := rules;
     Sensor.status := Sensor.status self;
     Sensor.last_value := Sensor.last_value self;
     Sensor.data_points_count := Sensor.data_points_count self;
     Sensor.error_count := Sensor.error_count self;
     Sensor.last_error := Sensor.last_error self;
     Sensor.is_active := Sensor.is_active self |}.

(** ** Vocabulary for the alarm rules *)

(** The rule passes the [enabled] test of the loop; what is not a
    dictionary never gets as far as the test. *)
Definition switched_on (rule : json) : Prop :=
  match rule with
  | JDict d => truthy (default (JBool true) (assoc "enabled" d)) = true
  | _ => True
  end.

#[global] Instance switched_on_dec (rule : json) : Decision (switched_on rule).
Proof. destruct rule; cbn; apply _. Defined.

Definition names_of (r : result (list Sensor.alarm)) : option (list json) :=
  match r with
  | Ok l => Some (map Sensor.rule_name l)
  | Raise _ => None
  end.

(** A temperature sensor with alarms switched on and no rules yet. *)
Definition thermometer : Sensor.t :=
  {| Sensor.id := 3; Sensor.name := "hall"; Sensor.device_id := "dev-3";
     Sensor.sensor_type :=
       Some {| Sensor.type_name := "温度传感器"; Sensor.unit := Some "C" |};
     Sensor.gateway_id := 1; Sensor.location := None;
     Sensor.alarm_enabled := Some true; Sensor.alarm_rules := JNull;
     Sensor.status := JStr "online"; Sensor.last_value := None;
     Sensor.data_points_count := 0; Sensor.error_count := 0;
     Sensor.last_error := None; Sensor.is_active := true |}.

(** The operators that order their operands. *)
Definition ordering (o : operator) : Prop :=
  o = Gt ∨ o = Lt ∨ o = Ge ∨ o = Le.

(** A threshold that is there but is not a number. *)
Definition not_a_number (threshold : json) : Prop :=
  as_number threshold = None ∧ is_none threshold = false.

(** ** app/services/websocket_service.py: probes and views of the manager *)

Module ManagerViews.

(** [ping_all]: the ping frame goes out as a broadcast to everyone. *)
Definition ping_all (net : conn → socket) (self : ConnectionManager.t)
  : ConnectionManager.t * result unit :=
  ConnectionManager.broadcast net self ping_frame None.



(** The three numbers [get_stats] computes afresh: active connections,
    active rooms, active users. *)
Definition get_stats (self : ConnectionManager.t) : nat * nat * nat :=
  (length (ConnectionManager.active_connections self),
   size (ConnectionManager.room_connections self),
   size (ConnectionManager.user_connections self)).

End ManagerViews.

(** ** Vocabulary for the registry *)


(** The counter of sent messages is the number of frames delivered. *)
Definition sent_is_counted (self : ConnectionManager.t) : Prop :=
  Stats.messages_sent (ConnectionManager.stats self)
  = length (ConnectionManager.wire self).

(** The record [connect] enters for a new connection. *)
Definition fresh_info (user room : option string) (sent : nat) : Info.t :=
  {| Info.user_id := user; Info.room := key_of room;
     Info.messages_received := 0; Info.messages_sent := sent |}.

(** Some member of the snapshot has a live socket. *)
Definition some_live (net : conn → socket) (snapshot : list conn) : bool :=
  bool_decide (Exists (λ ws, net ws = Live) snapshot).

(** ** app/services/mqtt_service.py: start, stop and the connect callback *)

Module Lifecycle.

Definition with_running (self : MQTTService.t) (running : bool)
  : MQTTService.t :=
  {| MQTTService.is_connected := MQTTService.is_connected self;
     MQTTService.is_running := running;
     MQTTService.reconnect_attempts := MQTTService.reconnect_attempts self;
     MQTTService.stats := MQTTService.stats self;
     MQTTService.websocket_service := MQTTService.websocket_service self;
     MQTTService.sensors := MQTTService.sensors self;
     MQTTService.gateways := MQTTService.gateways self;
     MQTTService.influx := MQTTService.influx self;
     MQTTService.redis := MQTTService.redis self |}.

(** [_on_connect(client, userdata, flags, rc)]: only the flag changes. *)
Definition _on_connect (self : MQTTService.t) (rc : Z) : MQTTService.t :=
  MQTTService.with_connection self (bool_decide (rc = 0%Z))
    (MQTTService.reconnect_attempts self).

(** [start]: nothing when already running; otherwise the service runs
    from the first connection on, and a failed first connection clears
    [is_running] again and is raised to the caller. *)
Definition start (self : MQTTService.t) (a : attempt)
  : MQTTService.t * list event * result unit :=
  if MQTTService.is_running self then (self, [], Ok ())
  else
    let self := with_running self true in
    match MQTTService._connect self a with
    | (self, events, Ok _) => (self, events, Ok ())
    | (self, events, Raise e) => (with_running self false, events, Raise e)
    end.

(** [stop]: nothing when not running; otherwise both flags are
    cleared. *)
Definition stop (self : MQTTService.t) : MQTTService.t :=
  if MQTTService.is_running self then
    let self := with_running self false in
    MQTTService.with_connection self false
      (MQTTService.reconnect_attempts self)
  else self.

(** [publish]: [sent] is what the client library answers, its return
    code or an exception. *)
Definition publish (self : MQTTService.t) (sent : result Z) : bool :=
  if MQTTService.is_connected self then
    match sent with
    | Ok rc => bool_decide (rc = 0%Z)
    | Raise _ => false
    end
  else false.

End Lifecycle.

(** ** Vocabulary for the service's life cycle *)

(** The attempt counter is within the configured maximum. *)
Definition within_cap (self : MQTTService.t) : Prop :=
  MQTTService.reconnect_attempts self ≤ MQTTService.max_reconnect_attempts.


(** ** Vocabulary for message handling *)

(** Everything but the client side of the two service states agrees. *)
Definition only_clients (self self' : MQTTService.t) : Prop :=
  MQTTService.is_connected self' = MQTTService.is_connected self
  ∧ MQTTService.is_running self' = MQTTService.is_running self
  ∧ MQTTService.reconnect_attempts self'
    = MQTTService.reconnect_attempts self
  ∧ MQTTService.stats self' = MQTTService.stats self
  ∧ MQTTService.sensors self' = MQTTService.sensors self
  ∧ MQTTService.gateways self' = MQTTService.gateways self
  ∧ MQTTService.influx self' = MQTTService.influx self
  ∧ MQTTService.redis self' = MQTTService.redis self.

(** A frame arrives: whether its hand-over to the event loop returns,
    its topic, and what became of its payload. *)
Definition frame : Type := bool * string * payload.

(** The frame reached [_process_message] and its payload could be
    decoded and parsed. *)
Definition processable (f : frame) : Prop :=
  f.1.1 = true
  ∧ match f.2 with
    | Loaded _ => True
    | _ => False
    end.

#[global] Instance processable_dec (f : frame) : Decision (processable f).
Proof. unfold processable. destruct (f.2); apply _. Defined.

(** The service after the frames have come in, one after the other. *)
Definition receive_all (net : conn → socket) (now : Z)
    (fromisoformat : string → option Z) (fromtimestamp : Q → option Z)
    (str : json → string)
    (self : MQTTService.t) (frames : list frame) : MQTTService.t :=
  foldl (λ s f,
           MQTTService._on_message net now fromisoformat fromtimestamp str s
             f.1.1 f.1.2 f.2)
    self frames.

(** Every frame received has been counted as processed or as failed. *)
Definition counters_add_up (self : MQTTService.t) : Prop :=
  MStats.messages_received (MQTTService.stats self)
  = MStats.messages_processed (MQTTService.stats self)
    + MStats.messages_failed (MQTTService.stats self).

(** The string has no slash in it. *)
Definition no_slash (s : string) : Prop :=
  ¬ In "/"%char (String.list_ascii_of_string s).

(** The sensor row after a reading with the given value. *)
Definition stored_reading (str : json → string) (sensor : Sensor.t)
    (value : json) : Sensor.t :=
  Sensor.set_status
    (Sensor.update_data_stats str sensor (JStr (py_str str value)))
    (JStr "online").

(** The type of a frame sent to a client. *)
Definition frame_type (message : json) : option json :=
  data_get message "type".

(** A sensor whose only rule compares with a text. *)
Definition sensor_with_text_rule : Sensor.t :=
  sensor_with [JDict [("condition", JStr ">"); ("threshold", JStr "hot")]].


(** A gateway that has not been heard of yet, and a service that knows
    it together with two of its sensors. *)
Definition quiet_gateway : Gateway.t :=
  {| Gateway.id := 1; Gateway.device_id := "gw-1";
     Gateway.status := JStr "offline"; Gateway.last_seen := None;
     Gateway.uptime := JNum 0; Gateway.total_sensors := 0;
     Gateway.active_sensors := 0 |}.

Definition service_with_gateway : MQTTService.t :=
  MQTTService.with_gateways
    (MQTTService.with_websocket (service_of [sensor_with []; thermometer])
       two_clients)
    [quiet_gateway].

(** ** The handler tables of both services *)

(** [add_message_handler] and [remove_message_handler] are the same in
    [MQTTService] (keyed by topic pattern) and in [WebSocketService]
    (keyed by message type).  A handler is identified by a number. *)
Module HandlerTable.

(** [l.remove(x)]: the first occurrence goes; [ValueError], raised when
    there is none, is caught by the caller. *)
Fixpoint remove_first (x : nat) (l : list nat) : list nat :=
  match l with
  | [] => []
  | y :: rest => if decide (y = x) then rest else y :: remove_first x rest
  end.

Definition add_message_handler (message_handlers : gmap string (list nat))
    (key : string) (handler : nat) : gmap string (list nat) :=
  let message_handlers :=
    match message_handlers !! key with
    | Some _ => message_handlers
    | None => <[key := []]> message_handlers
    end in
  alter (λ l, l ++ [handler]) key message_handlers.

Definition remove_message_handler (message_handlers : gmap string (list nat))
    (key : string) (handler : nat) : gmap string (list nat) :=
  match message_handlers !! key with
  | Some _ => alter (remove_first handler) key message_handlers
  | None => message_handlers
  end.

(** [self.message_handlers.get(message_type, [])] *)
Definition handlers_for (message_handlers : gmap string (list nat))
    (key : string) : list nat :=
  default [] (message_handlers !! key).

End HandlerTable.

(** * Theorems *)

(** ** Alarm evaluation *)

Lemma Qltb_lt (x y : Q) : Qltb x y = true ↔ (x < y)%Q.
Proof.
  unfold Qltb. rewrite negb_true_iff. split.
  - intros H. apply Qnot_le_lt. intros Hle.
    apply Qle_bool_iff in Hle. congruence.
  - intros H. destruct (Qle_bool y x) eqn:E; [|done].
    apply Qle_bool_iff in E. exfalso. by apply (Qlt_not_le x y).
Qed.

Lemma Qle_bool_false (x y : Q) : Qle_bool x y = false ↔ ¬ (x <= y)%Q.
Proof.
  rewrite <- Qle_bool_iff. destruct (Qle_bool x y); naive_solver.
Qed.

Lemma Qeq_bool_false (x y : Q) : Qeq_bool x y = false ↔ ¬ (x == y)%Q.
Proof.
  rewrite <- Qeq_bool_iff. destruct (Qeq_bool x y); naive_solver.
Qed.

(** The comparison chain computes the operator's meaning. *)
Lemma triggered_meaning (o : operator) (v t : Q) :
  (meaning o v t → Sensor.triggered (JStr (symbol o)) v (JNum t) = Ok true)
  ∧ (¬ meaning o v t →
     Sensor.triggered (JStr (symbol o)) v (JNum t) = Ok false).
Proof.
  destruct o; cbn [meaning symbol]; unfold Sensor.triggered; cbn;
    unfold py_ne, py_eq; cbn; split; intros H.
  - apply Qltb_lt in H. by rewrite H.
  - destruct (Qltb t v) eqn:E; [|done]. apply Qltb_lt in E. done.
  - apply Qltb_lt in H. by rewrite H.
  - destruct (Qltb v t) eqn:E; [|done]. apply Qltb_lt in E. done.
  - apply Qle_bool_iff in H. by rewrite H.
  - apply Qle_bool_false in H. by rewrite H.
  - apply Qle_bool_iff in H. by rewrite H.
  - apply Qle_bool_false in H. by rewrite H.
  - apply Qeq_bool_iff in H. by rewrite H.
  - apply Qeq_bool_false in H. by rewrite H.
  - apply Qeq_bool_false in H. by rewrite H.
  - destruct (Qeq_bool v t) eqn:E; [done|].
    apply Qeq_bool_false in E. done.
Qed.

Lemma truthy_symbol (o : operator) : truthy (JStr (symbol o)) = true.
Proof. by destruct o. Qed.


Lemma check_rule_of (self : Sensor.t) (v : Q) (d : list (string * json))
    (o : operator) (t : Q) :
  rule_of d o t →
  Sensor.check_rule self v (JDict d) =
    (b ← Sensor.triggered (JStr (symbol o)) v (JNum t);
     if b : bool then
       a ← Sensor.make_alarm self (JDict d) (JStr (symbol o)) v (JNum t);
       Ok [a]
     else Ok []).
Proof.
  intros (He & Hc & Ht). unfold Sensor.check_rule, py_get.
  cbn [mbind result_bind]. rewrite He, Hc, Ht.
  cbn [negb default from_option id is_none andb].
  by rewrite truthy_symbol.
Qed.

Lemma check_alarm_conditions_rules (self : Sensor.t) (v : Q)
    (rd : list (string * json)) (rules : list json) :
  Sensor.alarm_enabled self = Some true →
  Sensor.alarm_rules self = JDict rd →
  assoc "rules" rd = Some (JList rules) →
  Sensor.check_alarm_conditions self v = Sensor.check_rules self v rules.
Proof.
  intros He Hr Hl. unfold Sensor.check_alarm_conditions.
  rewrite He, Hr. destruct rd as [|kv rd']; [done|].
  cbn [default from_option id negb orb truthy py_get mbind result_bind].
  by rewrite Hl.
Qed.

(** The alarms of a rule list are those of its parts, in order. *)
Lemma check_rules_app (self : Sensor.t) (v : Q) (l1 l2 : list json)
    (a1 : list Sensor.alarm) :
  Sensor.check_rules self v l1 = Ok a1 →
  Sensor.check_rules self v (l1 ++ l2)
  = (a2 ← Sensor.check_rules self v l2; Ok (a1 ++ a2)).
Proof.
  revert a1. induction l1 as [|r l1 IH]; intros a1.
  - intros [= <-]. cbn. by destruct (Sensor.check_rules self v l2).
  - cbn [Sensor.check_rules app].
    destruct (Sensor.check_rule self v r) as [here|]; [|done]. cbn.
    destruct (Sensor.check_rules self v l1) as [later|] eqn:E; [|done].
    cbn. intros [= <-]. rewrite (IH later eq_refl).
    destruct (Sensor.check_rules self v l2) as [a2|]; [|done]. cbn.
    by rewrite app_assoc.
Qed.

(** C1. An enabled rule with operator [o] and numeric threshold [t],
    wherever it stands in the rule list, adds exactly one alarm, carrying
    the value and the threshold, when [value o t] holds in the
    mathematical sense, and adds none when it does not; the alarms of the
    rules before and after it are not affected.  [>] is strict: with
    threshold 35 the values 40, 30 and 35 give one, zero and zero alarms,
    while [>=] at 35 gives one. *)
Theorem alarm_respects_operator :
  (∀ (self : Sensor.t) (v : Q) (rd d : list (string * json))
     (before after : list json) (o : operator) (t : Q)
     (alarms_before alarms_after : list Sensor.alarm),
     Sensor.alarm_enabled self = Some true →
     Sensor.alarm_rules self = JDict rd →
     assoc "rules" rd = Some (JList (before ++ JDict d :: after)) →
     rule_of d o t →
     Sensor.check_rules self v before = Ok alarms_before →
     Sensor.check_rules self v after = Ok alarms_after →
     (meaning o v t →
        ∃ a, Sensor.check_alarm_conditions self v
             = Ok (alarms_before ++ a :: alarms_after)
             ∧ Sensor.value a = v ∧ Sensor.threshold a = JNum t)
     ∧ (¬ meaning o v t →
        Sensor.check_alarm_conditions self v
        = Ok (alarms_before ++ alarms_after)))
  ∧ alarm_count
      (Sensor.check_alarm_conditions (sensor_with [rule ">" 35]) 40) = Some 1
  ∧ alarm_count
      (Sensor.check_alarm_conditions (sensor_with [rule ">" 35]) 30) = Some 0
  ∧ alarm_count
      (Sensor.check_alarm_conditions (sensor_with [rule ">" 35]) 35) = Some 0
  ∧ alarm_count
      (Sensor.check_alarm_conditions (sensor_with [rule ">=" 35]) 35) = Some 1.
Proof.
  split; [|by vm_compute].
  intros self v rd d before after o t ab aa He Hrd Hl Hr Hb Ha.
  rewrite (check_alarm_conditions_rules self v rd _ He Hrd Hl).
  rewrite (check_rules_app self v before _ ab Hb).
  cbn [Sensor.check_rules]. rewrite (check_rule_of self v d o t Hr), Ha.
  pose proof (triggered_meaning o v t) as [Hyes Hno].
  split; intros Hm.
  - rewrite (Hyes Hm). cbn. eexists. split; [reflexivity|]. done.
  - by rewrite (Hno Hm).
Qed.

Lemma alarm_respects_operator_witness :
  ∃ a, Sensor.check_alarm_conditions
         (sensor_with [rule ">" 35; rule "<=" 5]) 5
       = Ok ([] ++ a :: [])
       ∧ Sensor.value a = 5%Q ∧ Sensor.threshold a = JNum 5.
Proof.
  refine (proj1 (proj1 alarm_respects_operator
    (sensor_with [rule ">" 35; rule "<=" 5]) 5%Q
    [("rules", JList [rule ">" 35; rule "<=" 5])]
    [("condition", JStr "<="); ("threshold", JNum 5)]
    [rule ">" 35] [] Le 5%Q [] [] _ _ _ _ _ _) _).
  - reflexivity.
  - reflexivity.
  - reflexivity.
  - repeat split; reflexivity.
  - reflexivity.
  - reflexivity.
  - simpl. apply Qle_refl.
Defined.

(** C9. When the device-level alarm switch is off (or unset), or the
    rule structure is missing or empty, evaluation returns the empty list
    whatever the value and whatever the rules' own [enabled] flags say. *)
Theorem alarm_switch_off_no_alarms (self : Sensor.t) (v : Q) :
  Sensor.alarm_enabled self = Some false
  ∨ Sensor.alarm_enabled self = None
  ∨ Sensor.alarm_rules self = JNull
  ∨ Sensor.alarm_rules self = JDict []
  ∨ (Sensor.alarm_enabled self = Some true
     ∧ ∃ rd, Sensor.alarm_rules self = JDict rd
             ∧ (assoc "rules" rd = None ∨ assoc "rules" rd = Some (JList []))) →
  Sensor.check_alarm_conditions self v = Ok [].
Proof.
  unfold Sensor.check_alarm_conditions.
  intros [H|[H|[H|[H|(He & rd & Hrd & H)]]]]; try (by rewrite H).
  - rewrite H. by destruct (Sensor.alarm_enabled self) as [[]|].
  - rewrite H. by destruct (Sensor.alarm_enabled self) as [[]|].
  - rewrite He, Hrd. destruct rd as [|kv rd']; [done|].
    cbn [default from_option id negb orb truthy py_get mbind result_bind].
    by destruct H as [-> | ->].
Qed.

Lemma alarm_switch_off_no_alarms_witness :
  Sensor.check_alarm_conditions sensor_switched_off 40 = Ok [].
Proof.
  apply (alarm_switch_off_no_alarms sensor_switched_off 40%Q).
  left. reflexivity.
Defined.

(** ** The connection registry *)

Lemma elem_of_set_discard (x y : conn) (s : list conn) :
  y ∈ set_discard x s ↔ y ∈ s ∧ y ≠ x.
Proof. unfold set_discard. rewrite list_elem_of_filter. tauto. Qed.

Lemma elem_of_set_add (x y : conn) (s : list conn) :
  y ∈ set_add x s ↔ y = x ∨ y ∈ s.
Proof.
  unfold set_add. case_decide.
  - naive_solver.
  - rewrite elem_of_app, list_elem_of_singleton. tauto.
Qed.

Lemma set_discard_twice (x : conn) (s : list conn) :
  set_discard x (set_discard x s) = set_discard x s.
Proof.
  unfold set_discard. induction s as [|y s IH]; [done|].
  rewrite (filter_cons _ y s). case_decide.
  - rewrite filter_cons. case_decide; [|done]. by rewrite IH.
  - done.
Qed.

Lemma nonempty_Some (o : option string) (s : string) :
  nonempty o = Some s ↔ o = Some s ∧ s ≠ "".
Proof.
  destruct o as [s'|]; cbn; [|naive_solver].
  destruct (String.eqb_spec s' ""); naive_solver.
Qed.

Lemma named_Some (k r : dict_key) :
  named k = Some r ↔ k = r ∧ key_truthy r = true.
Proof.
  unfold named. split.
  - destruct (key_truthy k) eqn:E; [|done]. by intros [= <-].
  - intros [-> Hr]. by rewrite Hr.
Qed.

Lemma named_str (s : string) : s ≠ "" → named (KStr s) = Some (KStr s).
Proof.
  intros Hs. apply named_Some. split; [done|]. cbn.
  by destruct (String.eqb_spec s "").
Qed.

Lemma members_leave `{Countable K} (index : gmap K (list conn)) (key k : K)
    (ws : conn) :
  members (ConnectionManager.leave index key ws) k =
    if decide (k = key) then set_discard ws (members index key)
    else members index k.
Proof.
  unfold ConnectionManager.leave, members.
  destruct (index !! key) as [l|] eqn:E.
  - destruct (set_discard ws l) as [|x rest] eqn:D.
    + case_decide as Hk.
      * subst k. by rewrite lookup_delete_eq.
      * by rewrite lookup_delete_ne.
    + case_decide as Hk.
      * subst k. by rewrite lookup_insert_eq.
      * by rewrite lookup_insert_ne.
  - case_decide as Hk; [|done]. subst k. by rewrite E.
Qed.

Lemma members_join_room (self : ConnectionManager.t) (ws : conn)
    (room k : dict_key) :
  members (ConnectionManager.room_connections
             (ConnectionManager._join_room self ws room)) k =
    if decide (k = room)
    then set_add ws (members (ConnectionManager.room_connections self) room)
    else members (ConnectionManager.room_connections self) k.
Proof.
  unfold ConnectionManager._join_room, members.
  destruct (ConnectionManager.room_connections self !! room) as [l|] eqn:E;
    cbn; case_decide as Hk; subst.
  - by rewrite lookup_alter_eq, E.
  - by rewrite lookup_alter_ne.
  - by rewrite lookup_alter_eq, lookup_insert_eq.
  - by rewrite lookup_alter_ne, lookup_insert_ne.
Qed.

Lemma members_associate_user (self : ConnectionManager.t) (ws : conn)
    (user k : string) :
  members (ConnectionManager.user_connections
             (ConnectionManager._associate_user self ws user)) k =
    if decide (k = user)
    then set_add ws (members (ConnectionManager.user_connections self) user)
    else members (ConnectionManager.user_connections self) k.
Proof.
  unfold ConnectionManager._associate_user, members.
  destruct (ConnectionManager.user_connections self !! user) as [l|] eqn:E;
    cbn; case_decide as Hk; subst.
  - by rewrite lookup_alter_eq, E.
  - by rewrite lookup_alter_ne.
  - by rewrite lookup_alter_eq, lookup_insert_eq.
  - by rewrite lookup_alter_ne, lookup_insert_ne.
Qed.

Lemma set_discard_id (x : conn) (s : list conn) :
  x ∉ s → set_discard x s = s.
Proof.
  unfold set_discard. induction s as [|y s IH]; [done|].
  intros Hx. rewrite filter_cons. apply not_elem_of_cons in Hx as [Hxy Hs].
  case_decide; [|congruence]. by rewrite IH.
Qed.

Lemma disconnect_active (self : ConnectionManager.t) (ws : conn) :
  ConnectionManager.active_connections (ConnectionManager.disconnect self ws)
  = set_discard ws (ConnectionManager.active_connections self).
Proof.
  unfold ConnectionManager.disconnect.
  by destruct (named _), (nonempty _).
Qed.

Lemma disconnect_info (self : ConnectionManager.t) (ws : conn) :
  ConnectionManager.connection_info (ConnectionManager.disconnect self ws)
  = delete ws (ConnectionManager.connection_info self).
Proof.
  unfold ConnectionManager.disconnect.
  by destruct (named _), (nonempty _).
Qed.

Lemma disconnect_rooms (self : ConnectionManager.t) (ws : conn) :
  ConnectionManager.room_connections (ConnectionManager.disconnect self ws)
  = match named (recorded_room
                    (ConnectionManager.connection_info self !! ws)) with
    | Some r =>
        ConnectionManager.leave (ConnectionManager.room_connections self) r ws
    | None => ConnectionManager.room_connections self
    end.
Proof.
  unfold ConnectionManager.disconnect.
  by destruct (named _), (nonempty _).
Qed.

Lemma disconnect_users (self : ConnectionManager.t) (ws : conn) :
  ConnectionManager.user_connections (ConnectionManager.disconnect self ws)
  = match nonempty (ConnectionManager.connection_info self !! ws
                      ≫= Info.user_id) with
    | Some u =>
        ConnectionManager.leave (ConnectionManager.user_connections self) u ws
    | None => ConnectionManager.user_connections self
    end.
Proof.
  unfold ConnectionManager.disconnect.
  by destruct (named _), (nonempty _).
Qed.

Lemma disconnect_active_count (self : ConnectionManager.t) (ws : conn) :
  Stats.active_connections
    (ConnectionManager.stats (ConnectionManager.disconnect self ws))
  = length (ConnectionManager.active_connections
              (ConnectionManager.disconnect self ws)).
Proof.
  unfold ConnectionManager.disconnect.
  by destruct (named _), (nonempty _).
Qed.

(** Disconnecting a connection the registry does not know changes
    nothing. *)
Lemma disconnect_unknown (self : ConnectionManager.t) (ws : conn) :
  ConnectionManager.connection_info self !! ws = None →
  ws ∉ ConnectionManager.active_connections self →
  Stats.active_connections (ConnectionManager.stats self)
  = length (ConnectionManager.active_connections self) →
  ConnectionManager.disconnect self ws = self.
Proof.
  destruct self as [a i r u [tc ac ms mf rc] w]. cbn. intros Hi Ha Hc.
  unfold ConnectionManager.disconnect. cbn -[set_discard]. rewrite Hi.
  cbn -[set_discard].
  unfold ConnectionManager.with_stats, ConnectionManager.set_active_count.
  cbn -[set_discard].
  rewrite (set_discard_id ws a Ha), (delete_id i ws Hi). by subst ac.
Qed.

Lemma disconnect_twice (self : ConnectionManager.t) (ws : conn) :
  ConnectionManager.disconnect (ConnectionManager.disconnect self ws) ws
  = ConnectionManager.disconnect self ws.
Proof.
  apply disconnect_unknown.
  - rewrite disconnect_info. apply lookup_delete_eq.
  - rewrite disconnect_active, elem_of_set_discard. naive_solver.
  - apply disconnect_active_count.
Qed.

Lemma disconnect_in_room (self : ConnectionManager.t) (ws ws' : conn)
    (room : dict_key) :
  consistent self →
  in_room (ConnectionManager.disconnect self ws) room ws'
  ↔ in_room self room ws' ∧ ws' ≠ ws.
Proof.
  intros (_ & Hroom & _). unfold in_room at 1. rewrite disconnect_rooms.
  destruct (named _) as [r|] eqn:E.
  - rewrite members_leave. case_decide as Hk.
    + subst. rewrite elem_of_set_discard. done.
    + split; [|tauto]. intros Hin. split; [done|]. intros ->.
      apply Hroom in Hin as (i & Hi & Hr). rewrite Hi in E.
      cbn [recorded_room] in E. congruence.
  - split; [|tauto]. intros Hin. split; [done|]. intros ->.
    apply Hroom in Hin as (i & Hi & Hr). rewrite Hi in E.
    cbn [recorded_room] in E. congruence.
Qed.

Lemma disconnect_of_user (self : ConnectionManager.t) (ws ws' : conn)
    (user : string) :
  consistent self →
  of_user (ConnectionManager.disconnect self ws) user ws'
  ↔ of_user self user ws' ∧ ws' ≠ ws.
Proof.
  intros (_ & _ & Huser). unfold of_user at 1. rewrite disconnect_users.
  destruct (nonempty _) as [u|] eqn:E.
  - rewrite members_leave. case_decide as Hk.
    + subst. rewrite elem_of_set_discard. done.
    + split; [|tauto]. intros Hin. split; [done|]. intros ->.
      apply Huser in Hin as (i & Hi & Hr). rewrite Hi in E. cbn in E.
      congruence.
  - split; [|tauto]. intros Hin. split; [done|]. intros ->.
    apply Huser in Hin as (i & Hi & Hr). rewrite Hi in E. cbn in E.
    congruence.
Qed.

Lemma disconnect_consistent (self : ConnectionManager.t) (ws : conn) :
  consistent self → consistent (ConnectionManager.disconnect self ws).
Proof.
  intros Hc. pose proof Hc as (Hact & Hroom & Huser).
  split; [|split].
  - intros ws'. unfold registered.
    rewrite disconnect_active, disconnect_info, elem_of_set_discard.
    rewrite Hact. unfold registered.
    destruct (decide (ws' = ws)) as [->|Hne].
    + rewrite lookup_delete_eq. split; [tauto|]. by intros [? ?].
    + rewrite lookup_delete_ne by done. tauto.
  - intros room ws'. rewrite disconnect_in_room by done.
    rewrite disconnect_info, Hroom.
    destruct (decide (ws' = ws)) as [->|Hne].
    + rewrite lookup_delete_eq. naive_solver.
    + rewrite lookup_delete_ne by done. naive_solver.
  - intros user ws'. rewrite disconnect_of_user by done.
    rewrite disconnect_info, Huser.
    destruct (decide (ws' = ws)) as [->|Hne].
    + rewrite lookup_delete_eq. naive_solver.
    + rewrite lookup_delete_ne by done. naive_solver.
Qed.

(** C7. Disconnecting is idempotent.  [disconnect] is a total function
    (no exception leaves it); a second call on the same connection
    changes nothing; and after disconnecting from a consistent registry
    the connection is absent from the active set, the info table, every
    room and every user, with the registry still consistent. *)
Theorem disconnect_idempotent (self : ConnectionManager.t) (ws : conn) :
  ConnectionManager.disconnect (ConnectionManager.disconnect self ws) ws
  = ConnectionManager.disconnect self ws
  ∧ (consistent self →
     absent (ConnectionManager.disconnect self ws) ws
     ∧ absent (ConnectionManager.disconnect
                 (ConnectionManager.disconnect self ws) ws) ws
     ∧ consistent (ConnectionManager.disconnect self ws)
     ∧ consistent (ConnectionManager.disconnect
                     (ConnectionManager.disconnect self ws) ws)).
Proof.
  split; [apply disconnect_twice|]. intros Hc. rewrite disconnect_twice.
  assert (absent (ConnectionManager.disconnect self ws) ws) as Ha.
  { split; [|split; [|split]].
    - rewrite disconnect_active, elem_of_set_discard. naive_solver.
    - rewrite disconnect_info. apply lookup_delete_eq.
    - intros room. rewrite disconnect_in_room by done. naive_solver.
    - intros user. rewrite disconnect_of_user by done. naive_solver. }
  pose proof (disconnect_consistent self ws Hc). done.
Qed.

(** Leaving the recorded room takes a connection out of every room. *)
Lemma leave_recorded_room (self : ConnectionManager.t) (ws ws' : conn)
    (k : dict_key) :
  consistent self →
  ws' ∈ members
          match named (recorded_room
                         (ConnectionManager.connection_info self !! ws)) with
          | Some r =>
              ConnectionManager.leave
                (ConnectionManager.room_connections self) r ws
          | None => ConnectionManager.room_connections self
          end k
  ↔ in_room self k ws' ∧ ws' ≠ ws.
Proof.
  intros Hc. rewrite <- disconnect_rooms.
  apply (disconnect_in_room self ws ws' k Hc).
Qed.

Lemma change_room_active (self : ConnectionManager.t) (ws : conn)
    (new_room : json) :
  ConnectionManager.active_connections
    (ConnectionManager.change_room self ws new_room).1
  = ConnectionManager.active_connections self.
Proof.
  unfold ConnectionManager.change_room, ConnectionManager._join_room.
  destruct (named _), (hash new_room) as [k|e]; cbn; try done;
    by destruct (_ !! k).
Qed.

Lemma change_room_users (self : ConnectionManager.t) (ws : conn)
    (new_room : json) :
  ConnectionManager.user_connections
    (ConnectionManager.change_room self ws new_room).1
  = ConnectionManager.user_connections self.
Proof.
  unfold ConnectionManager.change_room, ConnectionManager._join_room.
  destruct (named _), (hash new_room) as [k|e]; cbn; try done;
    by destruct (_ !! k).
Qed.

Lemma change_room_info (self : ConnectionManager.t) (ws : conn)
    (new_room : json) (k : dict_key) :
  hash new_room = Ok k →
  ConnectionManager.connection_info
    (ConnectionManager.change_room self ws new_room).1
  = alter (ConnectionManager.set_room k) ws
      (ConnectionManager.connection_info self).
Proof.
  intros Hk.
  unfold ConnectionManager.change_room, ConnectionManager._join_room.
  rewrite Hk. destruct (named _); cbn; by destruct (_ !! k).
Qed.

(** A new room that cannot be hashed: [change_room] raises, the info
    table is as it was, and the connection has left the room recorded
    for it. *)
Lemma change_room_unhashable (self : ConnectionManager.t) (ws : conn)
    (new_room : json) (e : exn) :
  hash new_room = Raise e →
  (ConnectionManager.change_room self ws new_room).2 = Raise e
  ∧ ConnectionManager.connection_info
      (ConnectionManager.change_room self ws new_room).1
    = ConnectionManager.connection_info self
  ∧ ConnectionManager.room_connections
      (ConnectionManager.change_room self ws new_room).1
    = ConnectionManager.room_connections (ConnectionManager.disconnect self ws).
Proof.
  intros Hk. unfold ConnectionManager.change_room. rewrite Hk.
  rewrite disconnect_rooms. by destruct (named _).
Qed.

Lemma change_room_hashable (self : ConnectionManager.t) (ws : conn)
    (new_room : json) (k : dict_key) :
  hash new_room = Ok k →
  (ConnectionManager.change_room self ws new_room).2 = Ok ().
Proof.
  intros Hk. unfold ConnectionManager.change_room. by rewrite Hk.
Qed.

Lemma change_room_in_room (self : ConnectionManager.t) (ws ws' : conn)
    (new_room : json) (room k : dict_key) :
  consistent self → hash new_room = Ok room →
  in_room (ConnectionManager.change_room self ws new_room).1 k ws'
  ↔ (ws' = ws ∧ k = room) ∨ (ws' ≠ ws ∧ in_room self k ws').
Proof.
  intros Hc Hh. unfold in_room at 1, ConnectionManager.change_room.
  rewrite Hh.
  cbn [fst ConnectionManager.room_connections ConnectionManager.with_info].
  rewrite members_join_room.
  pose proof (leave_recorded_room self ws ws' room Hc) as Hnew.
  pose proof (leave_recorded_room self ws ws' k Hc) as Hk.
  case_decide as Hd.
  - subst k. rewrite elem_of_set_add.
    destruct (named _); cbn in *; rewrite Hnew;
      destruct (decide (ws' = ws)); naive_solver.
  - destruct (named _); cbn in *; rewrite Hk;
      destruct (decide (ws' = ws)); naive_solver.
Qed.

Lemma change_room_consistent (self : ConnectionManager.t) (ws : conn)
    (new_room : json) (room : dict_key) :
  consistent self → registered self ws →
  hash new_room = Ok room → key_truthy room = true →
  consistent (ConnectionManager.change_room self ws new_room).1.
Proof.
  intros Hc [i0 Hi0] Hh Hne. pose proof Hc as (Hact & Hroom & Huser).
  split; [|split].
  - intros ws'. unfold registered.
    rewrite change_room_active, (change_room_info _ _ _ room Hh), Hact.
    unfold registered.
    rewrite lookup_alter. case_decide; [|done]. subst.
    rewrite Hi0. cbn. split; eauto.
  - intros k ws'. rewrite (change_room_in_room _ _ _ _ room) by done.
    rewrite (change_room_info _ _ _ room Hh), lookup_alter, Hroom.
    case_decide as Hd.
    + subst ws'. rewrite Hi0. cbn. split.
      * intros [[_ ->]|[? _]]; [|congruence]. eexists. split; [done|].
        apply named_Some. by split.
      * intros (i & [= <-] & Hr). left. split; [done|].
        apply named_Some in Hr as [Hr _]. done.
    + naive_solver.
  - intros u ws'. unfold of_user. rewrite change_room_users.
    rewrite (change_room_info _ _ _ room Hh), lookup_alter.
    fold (of_user self u ws').
    rewrite Huser. case_decide as Hd; [|done]. subst ws'.
    rewrite Hi0. cbn. split.
    + intros (i & [= <-] & Hu). eauto.
    + intros (i & [= <-] & Hu). eauto.
Qed.

Lemma change_room_all_roomed (self : ConnectionManager.t) (ws : conn)
    (new_room : json) (room : dict_key) :
  all_roomed self → hash new_room = Ok room → key_truthy room = true →
  all_roomed (ConnectionManager.change_room self ws new_room).1.
Proof.
  intros Hall Hh Hne ws' i.
  rewrite (change_room_info _ _ _ room Hh), lookup_alter.
  case_decide as Hd; [|apply Hall]. subst ws'.
  destruct (ConnectionManager.connection_info self !! ws) as [i0|]; [|done].
  cbn. intros [= <-]. exists room. apply named_Some. by split.
Qed.

Lemma disconnect_all_roomed (self : ConnectionManager.t) (ws : conn) :
  all_roomed self → all_roomed (ConnectionManager.disconnect self ws).
Proof.
  intros Hall ws' i. rewrite disconnect_info.
  intros Hl. apply lookup_delete_Some in Hl as [_ Hl]. by apply (Hall ws').
Qed.

(** Consistency only reads the four containers, and of the info table
    only the recorded room and user. *)
Lemma consistent_same_index (self self' : ConnectionManager.t) :
  ConnectionManager.active_connections self'
  = ConnectionManager.active_connections self →
  ConnectionManager.room_connections self'
  = ConnectionManager.room_connections self →
  ConnectionManager.user_connections self'
  = ConnectionManager.user_connections self →
  (∀ ws, Info.room <$> ConnectionManager.connection_info self' !! ws
         = Info.room <$> ConnectionManager.connection_info self !! ws) →
  (∀ ws, Info.user_id <$> ConnectionManager.connection_info self' !! ws
         = Info.user_id <$> ConnectionManager.connection_info self !! ws) →
  consistent self → consistent self'.
Proof.
  intros Ha Hr Hu Hir Hiu (Hact & Hroom & Huser).
  assert (∀ ws, is_Some (ConnectionManager.connection_info self' !! ws)
                ↔ is_Some (ConnectionManager.connection_info self !! ws))
    as Hsome.
  { intros ws. specialize (Hir ws).
    destruct (ConnectionManager.connection_info self' !! ws),
      (ConnectionManager.connection_info self !! ws); cbn in Hir;
      try done; split; eauto. }
  split; [|split].
  - intros ws. unfold registered. rewrite Ha, Hsome. apply Hact.
  - intros room ws. unfold in_room. rewrite Hr.
    fold (in_room self room ws). rewrite Hroom. specialize (Hir ws).
    destruct (ConnectionManager.connection_info self' !! ws) as [i'|],
      (ConnectionManager.connection_info self !! ws) as [i|]; cbn in Hir;
      try done.
    injection Hir as Hir. split; intros (j & [= <-] & Hj); eexists;
      (split; [done|]); congruence.
  - intros user ws. unfold of_user. rewrite Hu.
    fold (of_user self user ws). rewrite Huser. specialize (Hiu ws).
    destruct (ConnectionManager.connection_info self' !! ws) as [i'|],
      (ConnectionManager.connection_info self !! ws) as [i|]; cbn in Hiu;
      try done.
    injection Hiu as Hiu. split; intros (j & [= <-] & Hj); eexists;
      (split; [done|]); congruence.
Qed.

Lemma all_roomed_same_index (self self' : ConnectionManager.t) :
  (∀ ws, Info.room <$> ConnectionManager.connection_info self' !! ws
         = Info.room <$> ConnectionManager.connection_info self !! ws) →
  all_roomed self → all_roomed self'.
Proof.
  intros Hir Hall ws i' Hi'. specialize (Hir ws). rewrite Hi' in Hir.
  destruct (ConnectionManager.connection_info self !! ws) as [i|] eqn:E;
    [|done].
  injection Hir as ->. by apply (Hall ws i).
Qed.

Lemma delivered_room (self : ConnectionManager.t) (ws ws' : conn) (m : json) :
  Info.room <$> ConnectionManager.connection_info
                  (ConnectionManager.delivered self ws m) !! ws'
  = Info.room <$> ConnectionManager.connection_info self !! ws'.
Proof.
  cbn. rewrite lookup_alter. case_decide; [|done]. subst.
  by destruct (ConnectionManager.connection_info self !! ws').
Qed.

Lemma delivered_user (self : ConnectionManager.t) (ws ws' : conn) (m : json) :
  Info.user_id <$> ConnectionManager.connection_info
                     (ConnectionManager.delivered self ws m) !! ws'
  = Info.user_id <$> ConnectionManager.connection_info self !! ws'.
Proof.
  cbn. rewrite lookup_alter. case_decide; [|done]. subst.
  by destruct (ConnectionManager.connection_info self !! ws').
Qed.

Lemma delivered_consistent (self : ConnectionManager.t) (ws : conn)
    (m : json) :
  consistent self → consistent (ConnectionManager.delivered self ws m).
Proof.
  apply consistent_same_index; try done.
  - intros ws'. apply delivered_room.
  - intros ws'. apply delivered_user.
Qed.

Lemma counted_failure_consistent (self : ConnectionManager.t) :
  consistent self →
  consistent (ConnectionManager.with_stats self
                (ConnectionManager.count_failed
                   (ConnectionManager.stats self))).
Proof. by apply consistent_same_index. Qed.

Lemma send_personal_message_consistent (net : conn → socket)
    (self : ConnectionManager.t) (ws : conn) (m : json) :
  consistent self →
  consistent (ConnectionManager.send_personal_message net self ws m).1.
Proof.
  intros Hc. unfold ConnectionManager.send_personal_message.
  destruct (net ws); cbn [fst].
  - by apply delivered_consistent.
  - by apply disconnect_consistent, counted_failure_consistent.
  - done.
Qed.

Lemma send_personal_message_all_roomed (net : conn → socket)
    (self : ConnectionManager.t) (ws : conn) (m : json) :
  all_roomed self →
  all_roomed (ConnectionManager.send_personal_message net self ws m).1.
Proof.
  intros Hc. unfold ConnectionManager.send_personal_message.
  destruct (net ws); cbn [fst].
  - revert Hc. apply all_roomed_same_index. intros ws'.
    apply delivered_room.
  - apply disconnect_all_roomed. revert Hc.
    by apply all_roomed_same_index.
  - done.
Qed.

Lemma bookkeeping_active (self : ConnectionManager.t) (ws : conn)
    (user room : option string) :
  ConnectionManager.active_connections
    (ConnectionManager.connect_bookkeeping self ws user room)
  = set_add ws (ConnectionManager.active_connections self).
Proof.
  unfold ConnectionManager.connect_bookkeeping,
    ConnectionManager._join_room, ConnectionManager._associate_user.
  destruct (nonempty room), (nonempty user); cbn;
    repeat (destruct (_ !! _); cbn); done.
Qed.

Lemma bookkeeping_info (self : ConnectionManager.t) (ws : conn)
    (user room : option string) :
  ConnectionManager.connection_info
    (ConnectionManager.connect_bookkeeping self ws user room)
  = <[ws := {| Info.user_id := user; Info.room := key_of room;
               Info.messages_received := 0; Info.messages_sent := 0 |}]>
      (ConnectionManager.connection_info self).
Proof.
  unfold ConnectionManager.connect_bookkeeping,
    ConnectionManager._join_room, ConnectionManager._associate_user.
  destruct (nonempty room), (nonempty user); cbn;
    repeat (destruct (_ !! _); cbn); done.
Qed.

Lemma associate_user_rooms (self : ConnectionManager.t) (ws : conn)
    (user : string) :
  ConnectionManager.room_connections
    (ConnectionManager._associate_user self ws user)
  = ConnectionManager.room_connections self.
Proof.
  unfold ConnectionManager._associate_user. by destruct (_ !! _).
Qed.

Lemma join_room_users (self : ConnectionManager.t) (ws : conn)
    (room : dict_key) :
  ConnectionManager.user_connections
    (ConnectionManager._join_room self ws room)
  = ConnectionManager.user_connections self.
Proof.
  unfold ConnectionManager._join_room. by destruct (_ !! _).
Qed.

Lemma named_key_of (room : option string) :
  named (key_of room) = KStr <$> nonempty room.
Proof.
  destruct room as [r|]; [|done]. unfold named. cbn.
  by destruct (String.eqb r "").
Qed.

Lemma bookkeeping_in_room (self : ConnectionManager.t) (ws ws' : conn)
    (user room : option string) (k : dict_key) :
  in_room (ConnectionManager.connect_bookkeeping self ws user room) k ws'
  ↔ (ws' = ws ∧ named (key_of room) = Some k) ∨ in_room self k ws'.
Proof.
  rewrite named_key_of.
  unfold in_room, ConnectionManager.connect_bookkeeping.
  cbn [ConnectionManager.room_connections ConnectionManager.with_stats].
  destruct (nonempty user) as [u|]; [rewrite associate_user_rooms|];
    (destruct (nonempty room) as [r|];
     [ rewrite members_join_room; case_decide as Hk;
       [ subst k; rewrite elem_of_set_add; cbn; naive_solver
       | cbn; naive_solver ]
     | cbn; naive_solver ]).
Qed.

Lemma bookkeeping_of_user (self : ConnectionManager.t) (ws ws' : conn)
    (user room : option string) (k : string) :
  of_user (ConnectionManager.connect_bookkeeping self ws user room) k ws'
  ↔ (ws' = ws ∧ nonempty user = Some k) ∨ of_user self k ws'.
Proof.
  unfold of_user, ConnectionManager.connect_bookkeeping.
  cbn [ConnectionManager.user_connections ConnectionManager.with_stats].
  destruct (nonempty user) as [u|].
  - rewrite members_associate_user. case_decide as Hk.
    + subst k. rewrite elem_of_set_add.
      destruct (nonempty room); [rewrite join_room_users|]; cbn;
        naive_solver.
    + destruct (nonempty room); [rewrite join_room_users|]; cbn;
        naive_solver.
  - destruct (nonempty room); [rewrite join_room_users|]; cbn;
      naive_solver.
Qed.

Lemma bookkeeping_consistent (self : ConnectionManager.t) (ws : conn)
    (user room : option string) :
  consistent self → ¬ registered self ws →
  consistent (ConnectionManager.connect_bookkeeping self ws user room).
Proof.
  intros (Hact & Hroom & Huser) Hfresh. unfold registered in Hfresh.
  assert (ConnectionManager.connection_info self !! ws = None) as Hnone.
  { by apply eq_None_not_Some. }
  split; [|split].
  - intros ws'. unfold registered.
    rewrite bookkeeping_active, bookkeeping_info, elem_of_set_add, Hact.
    unfold registered. destruct (decide (ws' = ws)) as [->|Hne].
    + rewrite lookup_insert_eq. split; eauto.
    + rewrite lookup_insert_ne by done. naive_solver.
  - intros k ws'. rewrite bookkeeping_in_room, bookkeeping_info, Hroom.
    destruct (decide (ws' = ws)) as [->|Hne].
    + rewrite lookup_insert_eq, Hnone. split.
      * intros [[_ Hk]|(i & ? & _)]; [|done]. eauto.
      * intros (i & [= <-] & Hk). left. done.
    + rewrite lookup_insert_ne by done. naive_solver.
  - intros k ws'. rewrite bookkeeping_of_user, bookkeeping_info, Huser.
    destruct (decide (ws' = ws)) as [->|Hne].
    + rewrite lookup_insert_eq, Hnone. split.
      * intros [[_ Hk]|(i & ? & _)]; [|done]. eauto.
      * intros (i & [= <-] & Hk). left. done.
    + rewrite lookup_insert_ne by done. naive_solver.
Qed.

Lemma connect_consistent (net : conn → socket) (self : ConnectionManager.t)
    (ws : conn) (user room : option string) :
  consistent self → ¬ registered self ws →
  consistent (ConnectionManager.connect net self ws user room).
Proof.
  intros Hc Hfresh. unfold ConnectionManager.connect.
  by apply send_personal_message_consistent, bookkeeping_consistent.
Qed.

Lemma connect_all_roomed (net : conn → socket) (self : ConnectionManager.t)
    (ws : conn) (user : option string) (room : string) :
  all_roomed self → room ≠ "" →
  all_roomed (ConnectionManager.connect net self ws user (Some room)).
Proof.
  intros Hall Hne. unfold ConnectionManager.connect.
  apply send_personal_message_all_roomed.
  intros ws' i. rewrite bookkeeping_info.
  destruct (decide (ws' = ws)) as [->|Hd].
  - rewrite lookup_insert_eq. intros [= <-]. exists (KStr room).
    by apply named_str.
  - rewrite lookup_insert_ne by done. apply Hall.
Qed.

Lemma init_consistent : consistent ConnectionManager.init.
Proof.
  split; [|split].
  - intros ws. unfold registered. cbn. rewrite lookup_empty, elem_of_nil.
    split; [done|]. by intros [? ?].
  - intros room ws. unfold in_room, members. cbn.
    rewrite !lookup_empty. cbn. rewrite elem_of_nil. naive_solver.
  - intros user ws. unfold of_user, members. cbn.
    rewrite !lookup_empty. cbn. rewrite elem_of_nil. naive_solver.
Qed.

Lemma init_all_roomed : all_roomed ConnectionManager.init.
Proof. intros ws i. cbn. by rewrite lookup_empty. Qed.

(** In a consistent registry where every recorded room is non-empty, a
    registered connection is in its recorded room and in no other. *)
Lemma registered_exactly_one_room (self : ConnectionManager.t) (ws : conn) :
  consistent self → all_roomed self → registered self ws →
  exactly_one_room self ws.
Proof.
  intros (_ & Hroom & _) Hall [i Hi].
  destruct (Hall ws i Hi) as [room Hr]. exists room. split; [|split].
  - apply Hroom. eauto.
  - intros room' Hin. apply Hroom in Hin as (i' & Hi' & Hr'). congruence.
  - exists i. split; [done|]. by apply named_Some in Hr as [? _].
Qed.

Lemma same_index_refl (self : ConnectionManager.t) : same_index self self.
Proof. by repeat split. Qed.

Lemma same_index_trans (a b c : ConnectionManager.t) :
  same_index a b → same_index b c → same_index a c.
Proof.
  intros (H1 & H2 & H3 & H4 & H5) (K1 & K2 & K3 & K4 & K5).
  split; [congruence|]. split; [congruence|]. split; [congruence|].
  split; intros ws; [by rewrite K4|by rewrite K5].
Qed.

Lemma same_index_consistent (self self' : ConnectionManager.t) :
  same_index self self' → consistent self → consistent self'.
Proof.
  intros (H1 & H2 & H3 & H4 & H5). by apply consistent_same_index.
Qed.

Lemma same_index_all_roomed (self self' : ConnectionManager.t) :
  same_index self self' → all_roomed self → all_roomed self'.
Proof.
  intros (H1 & H2 & H3 & H4 & H5). by apply all_roomed_same_index.
Qed.

Lemma send_with_error_handling_same_index (net : conn → socket)
    (self : ConnectionManager.t) (ws : conn) (m : json) :
  same_index self (ConnectionManager._send_with_error_handling net self ws m).1.
Proof.
  unfold ConnectionManager._send_with_error_handling.
  destruct (net ws); cbn [fst].
  - repeat split; try done.
    + intros ws'. apply delivered_room.
    + intros ws'. apply delivered_user.
  - by repeat split.
  - apply same_index_refl.
Qed.

Lemma gather_cons (net : conn → socket) (self : ConnectionManager.t)
    (ws : conn) (rest : list conn) (m : json) :
  ConnectionManager.gather net self (ws :: rest) m
  = let sr := ConnectionManager._send_with_error_handling net self ws m in
    let srs := ConnectionManager.gather net sr.1 rest m in
    (srs.1, sr.2 :: srs.2).
Proof.
  cbn. destruct (ConnectionManager._send_with_error_handling net self ws m)
    as [s r]. cbn. by destruct (ConnectionManager.gather net s rest m).
Qed.

Lemma gather_same_index (net : conn → socket) (tasks : list conn)
    (self : ConnectionManager.t) (m : json) :
  same_index self (ConnectionManager.gather net self tasks m).1.
Proof.
  revert self. induction tasks as [|ws rest IH]; intros self.
  - apply same_index_refl.
  - rewrite gather_cons. cbn [fst].
    eapply same_index_trans; [|apply IH].
    apply send_with_error_handling_same_index.
Qed.

Lemma disconnect_all_consistent (failed : list conn)
    (self : ConnectionManager.t) :
  consistent self → consistent (ConnectionManager.disconnect_all self failed).
Proof.
  revert self. induction failed as [|ws rest IH]; intros self Hc; [done|].
  cbn. by apply IH, disconnect_consistent.
Qed.

Lemma disconnect_all_all_roomed (failed : list conn)
    (self : ConnectionManager.t) :
  all_roomed self → all_roomed (ConnectionManager.disconnect_all self failed).
Proof.
  revert self. induction failed as [|ws rest IH]; intros self Hc; [done|].
  cbn. by apply IH, disconnect_all_roomed.
Qed.

(** What the three fan-out functions share: gather over some tasks, then
    disconnect the collected failures or stop on an exception. *)
Lemma fanout_invariant (P : ConnectionManager.t → Prop)
    (net : conn → socket) (self : ConnectionManager.t)
    (tasks positions : list conn) (m : json) :
  (∀ a b, same_index a b → P a → P b) →
  (∀ a ws, P a → P (ConnectionManager.disconnect a ws)) →
  P self →
  ∀ s results,
    ConnectionManager.gather net self tasks m = (s, results) →
    P s ∧ ∀ failed, P (ConnectionManager.disconnect_all s failed).
Proof.
  intros Hsame Hdis HP s results Hg.
  assert (P s) as Hs.
  { apply (Hsame self); [|done].
    pose proof (gather_same_index net tasks self m) as H.
    by rewrite Hg in H. }
  split; [done|]. intros failed. clear Hg. revert s Hs.
  induction failed as [|ws rest IH]; intros s Hs; [done|].
  cbn. apply IH, Hdis, Hs.
Qed.

Lemma broadcast_invariant (P : ConnectionManager.t → Prop)
    (net : conn → socket) (self : ConnectionManager.t) (m : json)
    (exclude : option (list conn)) :
  (∀ a b, same_index a b → P a → P b) →
  (∀ a ws, P a → P (ConnectionManager.disconnect a ws)) →
  P self → P (ConnectionManager.broadcast net self m exclude).1.
Proof.
  intros Hsame Hdis HP. unfold ConnectionManager.broadcast.
  destruct (ConnectionManager.active_connections self) as [|c cs] eqn:Ea;
    [done|].
  destruct (ConnectionManager.gather _ _ _ _) as [s results] eqn:Hg.
  destruct (fanout_invariant P net self _ [] m Hsame Hdis HP s results Hg)
    as [Hs Hall].
  destruct (ConnectionManager.collect _ _ _ _ _) as [[failed n]|e];
    cbn [fst]; [apply Hall|done].
Qed.

Lemma broadcast_to_room_invariant (P : ConnectionManager.t → Prop)
    (net : conn → socket) (self : ConnectionManager.t) (room : dict_key)
    (m : json) (exclude : option (list conn)) :
  (∀ a b, same_index a b → P a → P b) →
  (∀ a ws, P a → P (ConnectionManager.disconnect a ws)) →
  P self →
  P (ConnectionManager.broadcast_to_room net self room m exclude).1.
Proof.
  intros Hsame Hdis HP. unfold ConnectionManager.broadcast_to_room.
  destruct (ConnectionManager.room_connections self !! room) as [l|];
    [|done].
  destruct (list_difference l (default [] exclude)) as [|c cs] eqn:El;
    [done|].
  destruct (ConnectionManager.gather _ _ _ _) as [s results] eqn:Hg.
  destruct (fanout_invariant P net self _ [] m Hsame Hdis HP s results Hg)
    as [Hs Hall].
  destruct (ConnectionManager.collect _ _ _ _ _) as [[failed n]|e];
    cbn [fst]; [apply Hall|done].
Qed.

Lemma send_to_user_invariant (P : ConnectionManager.t → Prop)
    (net : conn → socket) (self : ConnectionManager.t) (user : string)
    (m : json) :
  (∀ a b, same_index a b → P a → P b) →
  (∀ a ws, P a → P (ConnectionManager.disconnect a ws)) →
  P self →
  P (ConnectionManager.send_to_user net self user m).1.
Proof.
  intros Hsame Hdis HP. unfold ConnectionManager.send_to_user.
  destruct (ConnectionManager.user_connections self !! user) as [l|];
    [|done].
  destruct (ConnectionManager.gather _ _ _ _) as [s results] eqn:Hg.
  destruct (fanout_invariant P net self _ [] m Hsame Hdis HP s results Hg)
    as [Hs Hall].
  destruct (ConnectionManager.collect _ _ _ _ _) as [[failed n]|e];
    cbn [fst]; [apply Hall|done].
Qed.

Lemma orderly_consistent (self : ConnectionManager.t) :
  orderly self → consistent self ∧ all_roomed self.
Proof.
  induction 1 as [ | net self ws user room _ [Hc Ha] Hf Hne
                   | self ws new_room _ [Hc Ha] Hr Hne
                   | self ws _ [Hc Ha]
                   | net self ws m _ [Hc Ha]
                   | net self m exclude _ [Hc Ha]
                   | net self room m exclude _ [Hc Ha]
                   | net self user m _ [Hc Ha] ].
  - split; [apply init_consistent|apply init_all_roomed].
  - split; [by apply connect_consistent|by apply connect_all_roomed].
  - assert (key_truthy (KStr new_room) = true) as Ht.
    { cbn. by destruct (String.eqb_spec new_room ""). }
    split; [by apply (change_room_consistent _ _ _ (KStr new_room))
           |by apply (change_room_all_roomed _ _ _ (KStr new_room))].
  - split; [by apply disconnect_consistent|by apply disconnect_all_roomed].
  - split; [by apply send_personal_message_consistent
           |by apply send_personal_message_all_roomed].
  - split.
    + apply broadcast_invariant; [apply same_index_consistent
                                 |apply disconnect_consistent|done].
    + apply broadcast_invariant; [apply same_index_all_roomed
                                 |apply disconnect_all_roomed|done].
  - split.
    + apply broadcast_to_room_invariant; [apply same_index_consistent
                                 |apply disconnect_consistent|done].
    + apply broadcast_to_room_invariant; [apply same_index_all_roomed
                                 |apply disconnect_all_roomed|done].
  - split.
    + apply send_to_user_invariant; [apply same_index_consistent
                                 |apply disconnect_consistent|done].
    + apply send_to_user_invariant; [apply same_index_all_roomed
                                 |apply disconnect_all_roomed|done].
Qed.

Lemma connect_info_room (net : conn → socket) (self : ConnectionManager.t)
    (ws : conn) (user room : option string) (i : Info.t) :
  ConnectionManager.connection_info
    (ConnectionManager.connect net self ws user room) !! ws = Some i →
  Info.room i = key_of room.
Proof.
  unfold ConnectionManager.connect, ConnectionManager.send_personal_message.
  destruct (net ws); cbn [fst].
  - cbn [ConnectionManager.delivered ConnectionManager.connection_info
         ConnectionManager.with_stats ConnectionManager.with_info].
    rewrite lookup_alter_eq.
    change (ConnectionManager.connection_info
              (ConnectionManager.with_wire ?s ?w))
      with (ConnectionManager.connection_info s).
    rewrite bookkeeping_info, lookup_insert_eq. by intros [= <-].
  - rewrite disconnect_info, lookup_delete_eq. done.
  - rewrite bookkeeping_info, lookup_insert_eq. by intros [= <-].
Qed.

(** Where the rule of one room does hold.  In every orderly state the
    structures are consistent and every registered connection is in
    exactly one room, the one recorded for it in the info table; a
    handshake through the [/ws] endpoint without a room parameter puts
    the connection into ["default"]; and [change_room] to a non-empty
    name leaves the connection in the new room and in no other. *)
Lemma one_room_when_room_named (self : ConnectionManager.t) :
  orderly self →
  consistent self
  ∧ (∀ ws, registered self ws → exactly_one_room self ws)
  ∧ (∀ net ws user,
       ¬ registered self ws →
       let self' := WebSocketService.websocket_endpoint net self ws user None in
       registered self' ws →
       in_room self' "default" ws
       ∧ ∀ room, in_room self' room ws → room = KStr "default")
  ∧ (∀ ws (new_room : string),
       registered self ws → new_room ≠ "" →
       let self' :=
         (ConnectionManager.change_room self ws (JStr new_room)).1 in
       in_room self' new_room ws
       ∧ (∀ room, in_room self' room ws → room = KStr new_room)
       ∧ ∃ i, ConnectionManager.connection_info self' !! ws = Some i
              ∧ Info.room i = KStr new_room).
Proof.
  intros Hreach. pose proof (orderly_consistent self Hreach) as [Hc Ha].
  split; [done|]. split; [|split].
  - intros ws Hr. by apply registered_exactly_one_room.
  - intros net ws user Hfresh self' Hreg.
    assert (orderly self') as Hreach'.
    { apply orderly_connect; done. }
    apply orderly_consistent in Hreach' as [Hc' Ha'].
    destruct (registered_exactly_one_room self' ws Hc' Ha' Hreg)
      as (room & Hin & Huniq & i & Hi & Hroom).
    apply connect_info_room in Hi. cbn in Hi.
    assert (room = KStr "default") as -> by congruence.
    split; [done|]. exact Huniq.
  - intros ws new_room Hreg Hne self'.
    assert (orderly self') as Hreach'.
    { by apply orderly_change_room. }
    apply orderly_consistent in Hreach' as [Hc' Ha'].
    assert (hash (JStr new_room) = Ok (KStr new_room)) as Hh by done.
    assert (in_room self' new_room ws) as Hin.
    { apply (change_room_in_room _ _ _ _ (KStr new_room)); [done|done|].
      by left. }
    split; [done|]. split.
    + intros room Hr.
      apply (change_room_in_room _ _ _ _ (KStr new_room)) in Hr; [|done|done].
      destruct Hr as [[_ ->]|[? _]]; [done|congruence].
    + destruct Hreg as [i0 Hi0].
      exists (ConnectionManager.set_room (KStr new_room) i0).
      split; [|done]. unfold self'.
      by rewrite (change_room_info _ _ _ _ Hh), lookup_alter_eq, Hi0.
Qed.

Lemma change_room_wire (self : ConnectionManager.t) (ws : conn)
    (new_room : json) :
  ConnectionManager.wire (ConnectionManager.change_room self ws new_room).1
  = ConnectionManager.wire self.
Proof.
  unfold ConnectionManager.change_room, ConnectionManager._join_room.
  destruct (named _), (hash new_room) as [k|e]; cbn; try done;
    by destruct (_ !! k).
Qed.

(** A [join_room] frame whose room is truthy and cannot be hashed, sent
    by a registered connection of a consistent registry: the handler
    ends with the exception of [change_room], no reply is written, the
    connection stays registered and active with its old room still
    recorded, and it is a member of no room at all. *)
Lemma join_room_unhashable (net : conn → socket)
    (self : ConnectionManager.t) (ws : conn) (fields : list (string * json))
    (room : json) (e : exn) :
  consistent self → registered self ws →
  assoc "room" fields = Some room → truthy room = true →
  hash room = Raise e →
  let self' :=
    WebSocketService._handle_join_room net self ws (JDict fields) in
  self' = (ConnectionManager.change_room self ws room).1
  ∧ (ConnectionManager.change_room self ws room).2 = Raise e
  ∧ registered self' ws
  ∧ ws ∈ ConnectionManager.active_connections self'
  ∧ (∀ k, ¬ in_room self' k ws)
  ∧ ConnectionManager.connection_info self'
    = ConnectionManager.connection_info self
  ∧ ConnectionManager.wire self' = ConnectionManager.wire self.
Proof.
  intros Hc Hreg Hroom Htruthy Hh self'.
  destruct (change_room_unhashable self ws room e Hh) as (Hr & Hi & Hrooms).
  assert (self' = (ConnectionManager.change_room self ws room).1) as ->.
  { unfold self', WebSocketService._handle_join_room. cbn [py_get].
    rewrite Hroom. cbn [default from_option id]. rewrite Htruthy.
    cbn [negb]. destruct (ConnectionManager.change_room self ws room)
      as [m r]. cbn in Hr. by subst r. }
  split; [done|]. split; [done|]. split; [|split; [|split; [|split]]].
  - unfold registered. by rewrite Hi.
  - rewrite change_room_active. by apply Hc.
  - intros k Hin. unfold in_room in Hin. rewrite Hrooms in Hin.
    fold (in_room (ConnectionManager.disconnect self ws) k ws) in Hin.
    apply disconnect_in_room in Hin; [|done]. by destruct Hin.
  - done.
  - apply change_room_wire.
Qed.

(** C8 at the inputs where the code departs from it.  Client 1 has gone
    through the handshake of the [/ws] endpoint and is in ["default"],
    its one room.  It then sends a [join_room] frame whose room is the
    list [["lab"]]: [change_room] takes the client out of ["default"]
    and raises [TypeError] when the new room is looked up.  The handler
    ends there, no reply is written, and the client is left registered
    and active, with ["default"] still recorded for it, as a member of
    no room; the registry is no longer consistent.  A handshake with an
    empty room parameter likewise registers the client in no room. *)
Theorem join_room_frame_leaves_no_room :
  let joined :=
    WebSocketService.websocket_endpoint all_live ConnectionManager.init 1
      None None in
  let frame :=
    JDict [("type", JStr "join_room"); ("room", JList [JStr "lab"])] in
  let after := WebSocketService._handle_join_room all_live joined 1 frame in
  let unnamed :=
    WebSocketService.websocket_endpoint all_live ConnectionManager.init 1
      None (Some "") in
  (exactly_one_room joined 1 ∧ in_room joined "default" 1)
  ∧ (ConnectionManager.change_room joined 1 (JList [JStr "lab"])).2
    = Raise TypeError
  ∧ registered after 1
  ∧ 1 ∈ ConnectionManager.active_connections after
  ∧ (∀ room, ¬ in_room after room 1)
  ∧ (∃ i, ConnectionManager.connection_info after !! 1 = Some i
          ∧ Info.room i = KStr "default")
  ∧ ConnectionManager.wire after = ConnectionManager.wire joined
  ∧ ¬ consistent after
  ∧ registered unnamed 1
  ∧ 1 ∈ ConnectionManager.active_connections unnamed
  ∧ (∀ room, ¬ in_room unnamed room 1).
Proof.
  cbn zeta.
  set (joined := WebSocketService.websocket_endpoint all_live
                   ConnectionManager.init 1 None None).
  set (after := WebSocketService._handle_join_room all_live joined 1 _).
  set (unnamed := WebSocketService.websocket_endpoint all_live
                    ConnectionManager.init 1 None (Some "")).
  assert (¬ registered ConnectionManager.init 1) as Hfresh.
  { unfold registered. cbn. rewrite lookup_empty. by intros [? ?]. }
  assert (orderly joined) as Ho.
  { apply orderly_connect; [apply orderly_init|done|done]. }
  assert (registered joined 1) as Hreg.
  { unfold registered. vm_compute. eauto. }
  destruct (one_room_when_room_named joined Ho) as (Hc & Hone & _).
  assert (in_room joined "default" 1) as Hin.
  { destruct (Hone 1 Hreg) as (room & Hroom & _ & i & Hi & Hrec).
    apply connect_info_room in Hi. cbn in Hi. congruence. }
  destruct (join_room_unhashable all_live joined 1
              [("type", JStr "join_room"); ("room", JList [JStr "lab"])]
              (JList [JStr "lab"]) TypeError Hc Hreg eq_refl eq_refl eq_refl)
    as (_ & Hraise & Hreg' & Hact' & Hnone & Hinfo & Hwire).
  fold after in Hreg', Hact', Hnone, Hinfo, Hwire.
  assert (∃ i, ConnectionManager.connection_info after !! 1 = Some i
               ∧ Info.room i = KStr "default") as Hrec.
  { rewrite Hinfo. destruct Hreg as [i Hi]. exists i. split; [done|].
    by apply connect_info_room in Hi. }
  split; [by split; [apply Hone|]|]. split; [exact Hraise|].
  split; [exact Hreg'|]. split; [exact Hact'|]. split; [exact Hnone|].
  split; [exact Hrec|]. split; [exact Hwire|]. split.
  { intros (_ & Hroom & _). apply (Hnone (KStr "default")), Hroom.
    destruct Hrec as (i & Hi & Hr). exists i. split; [done|].
    rewrite Hr. by apply named_str. }
  split; [unfold registered; vm_compute; eauto|].
  split; [vm_compute; apply list_elem_of_here|].
  intros room. unfold in_room, members.
  assert (ConnectionManager.room_connections unnamed = ∅) as ->
    by reflexivity.
  rewrite lookup_empty. apply not_elem_of_nil.
Qed.

Lemma disconnect_idempotent_witness :
  let self :=
    ConnectionManager.connect all_live ConnectionManager.init 1
      (Some "alice") (Some "default") in
  absent (ConnectionManager.disconnect self 1) 1
  ∧ consistent (ConnectionManager.disconnect
                  (ConnectionManager.disconnect self 1) 1).
Proof.
  cbn zeta.
  assert (consistent
            (ConnectionManager.connect all_live ConnectionManager.init 1
               (Some "alice") (Some "default"))) as Hc.
  { apply connect_consistent; [apply init_consistent|].
    unfold registered. cbn. rewrite lookup_empty. by intros [? ?]. }
  pose proof (proj2 (disconnect_idempotent _ 1) Hc) as (H1 & _ & _ & H4).
  split; [exact H1|exact H4].
Defined.

(** C10. Handling a [leave_room] frame of a registered connection whose
    socket accepts the reply moves the connection into ["default"] and
    into no other room, records ["default"] for it, and writes exactly
    one frame, of type [room_left], to that connection.  Whatever the
    socket does, a connection that is still registered afterwards is a
    member of ["default"], and the registry stays consistent. *)
Theorem leave_room_moves_to_default (net : conn → socket)
    (self : ConnectionManager.t) (ws : conn) (message : json) :
  consistent self → registered self ws →
  let self' := WebSocketService._handle_leave_room net self ws message in
  (net ws = Live →
     in_room self' "default" ws
     ∧ (∀ room, in_room self' room ws → room = KStr "default")
     ∧ (∃ i, ConnectionManager.connection_info self' !! ws = Some i
             ∧ Info.room i = KStr "default")
     ∧ ConnectionManager.wire self'
       = (ConnectionManager.wire self
          ++ [(ws, WebSocketService.room_left)]))
  ∧ (registered self' ws → in_room self' "default" ws)
  ∧ consistent self'.
Proof.
  intros Hc Hreg self'.
  assert (hash (JStr "default") = Ok (KStr "default")) as Hh by done.
  assert (key_truthy (KStr "default") = true) as Hne by done.
  set (moved := (ConnectionManager.change_room self ws (JStr "default")).1).
  assert (self'
          = (ConnectionManager.send_personal_message net moved ws
               WebSocketService.room_left).1) as Hstep.
  { unfold self', WebSocketService._handle_leave_room, moved.
    pose proof (change_room_hashable self ws _ _ Hh) as Hok.
    destruct (ConnectionManager.change_room self ws (JStr "default"))
      as [m r]. cbn in Hok. by subst r. }
  pose proof (change_room_consistent self ws _ _ Hc Hreg Hh Hne) as Hc1.
  fold moved in Hc1.
  assert (∀ room, in_room moved room ws ↔ room = KStr "default") as Hin1.
  { intros room. unfold moved.
    rewrite (change_room_in_room _ _ _ _ (KStr "default")) by done.
    naive_solver. }
  assert (ConnectionManager.connection_info moved
          = alter (ConnectionManager.set_room (KStr "default")) ws
              (ConnectionManager.connection_info self)) as Hinfo1.
  { by apply change_room_info. }
  assert (consistent self') as Hc'.
  { rewrite Hstep. by apply send_personal_message_consistent. }
  split; [|split; [|done]].
  - intros Hlive. rewrite Hstep.
    unfold ConnectionManager.send_personal_message. rewrite Hlive.
    cbn [fst]. split; [|split; [|split]].
    + apply (Hin1 (KStr "default")). done.
    + intros room Hr. by apply (Hin1 room).
    + destruct Hreg as [i0 Hi0].
      exists (ConnectionManager.sent_one
                (ConnectionManager.set_room (KStr "default") i0)).
      split; [|done].
      cbn [ConnectionManager.delivered ConnectionManager.connection_info
           ConnectionManager.with_stats ConnectionManager.with_info].
      rewrite lookup_alter_eq.
      change (ConnectionManager.connection_info
                (ConnectionManager.with_wire ?s ?w))
        with (ConnectionManager.connection_info s).
      by rewrite Hinfo1, lookup_alter_eq, Hi0.
    + cbn [ConnectionManager.delivered ConnectionManager.wire
           ConnectionManager.with_stats ConnectionManager.with_info
           ConnectionManager.with_wire].
      unfold moved. by rewrite change_room_wire.
  - intros Hreg'. destruct Hc' as (_ & Hroom' & _). apply Hroom'.
    destruct Hreg' as [i Hi]. exists i. split; [done|].
    revert Hi. rewrite Hstep.
    unfold ConnectionManager.send_personal_message.
    destruct Hreg as [i0 Hi0].
    destruct (net ws); cbn [fst].
    + cbn [ConnectionManager.delivered ConnectionManager.connection_info
           ConnectionManager.with_stats ConnectionManager.with_info].
      rewrite lookup_alter_eq.
      change (ConnectionManager.connection_info
                (ConnectionManager.with_wire ?s ?w))
        with (ConnectionManager.connection_info s).
      rewrite Hinfo1, lookup_alter_eq, Hi0. by intros [= <-].
    + by rewrite disconnect_info, lookup_delete_eq.
    + rewrite Hinfo1, lookup_alter_eq, Hi0. by intros [= <-].
Qed.

Lemma leave_room_moves_to_default_witness :
  let self :=
    ConnectionManager.connect all_live ConnectionManager.init 1 None
      (Some "sensor_7") in
  let self' :=
    WebSocketService._handle_leave_room all_live self 1
      (JDict [("type", JStr "leave_room")]) in
  in_room self' "default" 1
  ∧ (∀ room, in_room self' room 1 → room = KStr "default")
  ∧ ConnectionManager.wire self'
    = ConnectionManager.wire self ++ [(1, WebSocketService.room_left)].
Proof.
  cbn zeta.
  assert (consistent
            (ConnectionManager.connect all_live ConnectionManager.init 1 None
               (Some "sensor_7"))) as Hc.
  { apply connect_consistent; [apply init_consistent|].
    unfold registered. cbn. rewrite lookup_empty. by intros [? ?]. }
  assert (registered
            (ConnectionManager.connect all_live ConnectionManager.init 1 None
               (Some "sensor_7")) 1) as Hreg.
  { unfold registered. vm_compute. eauto. }
  destruct (proj1 (leave_room_moves_to_default all_live _ 1
                     (JDict [("type", JStr "leave_room")]) Hc Hreg)
              eq_refl) as (H1 & H2 & _ & H4).
  split; [exact H1|]. split; [exact H2|exact H4].
Defined.

(** ** Fan-out *)

(** C6 at the input where the code departs from it.  Clients 1 and 2
    are registered, the broadcast excludes client 1, and the socket of
    client 2 fails.  The only task is the send to client 2; its failure,
    found at position 0 of the results, is charged to position 0 of the
    active set, which is client 1.  So the excluded, healthy client 1 is
    removed from the registry and the failing client 2 stays in it. *)
Theorem broadcast_with_exclusion_removes_wrong_connection :
  let self' :=
    (ConnectionManager.broadcast second_broken two_clients ping_frame
       (Some [1])).1 in
  ConnectionManager.active_connections two_clients = [1; 2]
  ∧ ConnectionManager.active_connections self' = [2]
  ∧ ConnectionManager.connection_info self' !! 1 = None
  ∧ is_Some (ConnectionManager.connection_info self' !! 2)
  ∧ members (ConnectionManager.room_connections self') "default" = [2]
  ∧ Stats.messages_failed (ConnectionManager.stats self')
    = S (Stats.messages_failed (ConnectionManager.stats two_clients)).
Proof.
  cbn zeta. split; [by vm_compute|]. split; [by vm_compute|].
  split; [by vm_compute|]. split; [vm_compute; eauto|].
  split; by vm_compute.
Qed.

(** ** The reconnect logic *)

(** The disconnect callback keeps to the cap: below it the counter goes
    up by one and one reconnect task is scheduled, at it nothing is
    scheduled. *)
Lemma on_disconnect_respects_cap (self : MQTTService.t) (rc : Z) :
  rc ≠ 0%Z → MQTTService.is_running self = true →
  let '(self', events) := MQTTService._on_disconnect self rc in
  MQTTService.is_connected self' = false
  ∧ ((MQTTService.reconnect_attempts self < 10)%nat →
     MQTTService.reconnect_attempts self'
     = S (MQTTService.reconnect_attempts self)
     ∧ events = [CreateTaskReconnect])
  ∧ ((10 ≤ MQTTService.reconnect_attempts self)%nat →
     MQTTService.reconnect_attempts self'
     = MQTTService.reconnect_attempts self
     ∧ events = []).
Proof.
  intros Hrc Hrun. unfold MQTTService._on_disconnect.
  case_decide; [|done]. cbn. rewrite Hrun. cbn.
  unfold MQTTService.max_reconnect_attempts.
  case_bool_decide; cbn; (split; [done|]); split; intros; (done || lia).
Qed.

Lemma message_loop_turn_capped :
  MQTTService._message_loop_turn capped silent = (capped, silent_turn).
Proof. reflexivity. Qed.

Lemma message_loop_turn_refused :
  MQTTService._message_loop_turn capped refused = (capped, refused_turn).
Proof. reflexivity. Qed.

(** The message loop over [turns] attempts that all fail in the same
    way: the service stays as it is, and every turn asks for a
    connection. *)
Lemma message_loop_failing_turns (a : attempt) (turn : list event)
    (turns : nat) :
  MQTTService._message_loop_turn capped a = (capped, turn) →
  connect_requests turn = 1 →
  MQTTService._message_loop capped (replicate turns a)
  = (capped, concat (replicate turns turn))
  ∧ connect_requests (concat (replicate turns turn)) = turns.
Proof.
  intros Hturn Hone. split.
  - induction turns as [|n IH]; [reflexivity|].
    cbn [replicate MQTTService._message_loop].
    change (MQTTService.is_running capped) with true. cbn iota.
    rewrite Hturn, IH. reflexivity.
  - unfold connect_requests in *. induction turns as [|n IH]; [reflexivity|].
    cbn [replicate concat]. rewrite filter_app, length_app, IH, Hone.
    reflexivity.
Qed.

(** C4 at the input where the code departs from it.  With the attempt
    counter at its maximum the disconnect callback schedules nothing
    more, but the message loop does not look at the counter: at every
    turn it sleeps, waits the reconnect interval and asks for a new
    connection, for as many turns as the broker stays silent, and the
    service never leaves this state.  It is the same when the client
    library refuses every request. *)
Theorem message_loop_retries_past_cap (turns : nat) :
  MQTTService._on_disconnect capped 1 = (capped, [])
  ∧ MQTTService._message_loop capped (replicate turns silent)
    = (capped, concat (replicate turns silent_turn))
  ∧ connect_requests
      (MQTTService._message_loop capped (replicate turns silent)).2 = turns
  ∧ MQTTService._message_loop capped (replicate turns refused)
    = (capped, concat (replicate turns refused_turn))
  ∧ connect_requests
      (MQTTService._message_loop capped (replicate turns refused)).2 = turns.
Proof.
  split; [reflexivity|].
  destruct (message_loop_failing_turns silent silent_turn turns
              message_loop_turn_capped eq_refl) as [Hloop Hcount].
  destruct (message_loop_failing_turns refused refused_turn turns
              message_loop_turn_refused eq_refl) as [Hloop' Hcount'].
  rewrite Hloop, Hloop'. cbn [snd]. done.
Qed.

(** ** Ingestion *)

Section Ingestion.

Variable net : conn → socket.
Variable now : Z.
Variable fromisoformat : string → option Z.
Variable fromtimestamp : Q → option Z.
Variable str : json → string.

#[local] Abbreviation process_message :=
  (MQTTService._process_message net now fromisoformat fromtimestamp str).
#[local] Abbreviation handle_sensor_data :=
  (MQTTService._handle_sensor_data net now fromisoformat fromtimestamp str).

Lemma handle_sensor_data_unknown (self : MQTTService.t) (topic : string)
    (data : json) (device_id : string) :
  topic_device_id topic = Ok device_id →
  MQTTService.find_sensor (MQTTService.sensors self) device_id = None →
  handle_sensor_data self topic data = self.
Proof.
  intros Ht Hf. unfold MQTTService._handle_sensor_data. by rewrite Ht, Hf.
Qed.

Lemma handle_sensor_data_lacks_value (self : MQTTService.t) (topic : string)
    (data : json) :
  lacks_value data → handle_sensor_data self topic data = self.
Proof.
  intros Hv. unfold MQTTService._handle_sensor_data.
  destruct (topic_device_id topic) as [device_id|]; [|done].
  destruct (MQTTService.find_sensor _ _) as [sensor|]; [|done].
  destruct data as [| | | | |d]; try done.
  unfold lacks_value in Hv. cbn in Hv. cbn [py_get].
  by destruct Hv as [-> | ->].
Qed.

(** C2, as the code has it.  A data message for a device that is not
    in the sensor table writes to no store and sends nothing to any
    client; of the message counters only [messages_processed] moves, by
    one, and [messages_failed] stays as it was. *)
Theorem unknown_device_is_dropped (self : MQTTService.t) (topic : string)
    (data : json) (device_id : string) :
  contains "/data" topic = true →
  topic_device_id topic = Ok device_id →
  MQTTService.find_sensor (MQTTService.sensors self) device_id = None →
  let self' := process_message self topic (Loaded data) in
  no_side_effects self self'
  ∧ MStats.messages_failed (MQTTService.stats self')
    = MStats.messages_failed (MQTTService.stats self)
  ∧ MStats.messages_processed (MQTTService.stats self')
    = S (MStats.messages_processed (MQTTService.stats self))
  ∧ MStats.messages_received (MQTTService.stats self')
    = MStats.messages_received (MQTTService.stats self).
Proof.
  intros Hd Ht Hf self'. unfold self', MQTTService._process_message.
  rewrite Hd, (handle_sensor_data_unknown self topic data device_id Ht Hf).
  by repeat split.
Qed.

(** C5, as the code has it.  A payload that cannot be decoded or parsed
    changes nothing but [messages_failed], which goes up by one.  A data
    message without a ["value"] is dropped as well, with no write and no
    frame sent, but it counts as processed: [messages_processed] goes up
    by one and [messages_failed] stays.  Nothing is tried twice. *)
Theorem malformed_message_is_dropped (self : MQTTService.t) (topic : string) :
  (∀ body, body = JSONDecodeError ∨ body = UnicodeDecodeError →
     let self' := process_message self topic body in
     no_side_effects self self'
     ∧ MStats.messages_failed (MQTTService.stats self')
       = S (MStats.messages_failed (MQTTService.stats self))
     ∧ MStats.messages_processed (MQTTService.stats self')
       = MStats.messages_processed (MQTTService.stats self))
  ∧ (∀ data, contains "/data" topic = true → lacks_value data →
     let self' := process_message self topic (Loaded data) in
     no_side_effects self self'
     ∧ MStats.messages_failed (MQTTService.stats self')
       = MStats.messages_failed (MQTTService.stats self)
     ∧ MStats.messages_processed (MQTTService.stats self')
       = S (MStats.messages_processed (MQTTService.stats self))).
Proof.
  split.
  - intros body [-> | ->]; by repeat split.
  - intros data Hd Hv self'. unfold self', MQTTService._process_message.
    rewrite Hd, (handle_sensor_data_lacks_value self topic data Hv).
    by repeat split.
Qed.

End Ingestion.

Lemma unknown_device_is_dropped_witness :
  let self := service_of [sensor_with []] in
  let self' :=
    MQTTService._process_message all_live 0 no_iso no_epoch decimal self
      "sensors/ghost/data" (Loaded (JDict [("value", JNum 21)])) in
  no_side_effects self self'
  ∧ MStats.messages_failed (MQTTService.stats self') = 0
  ∧ MStats.messages_processed (MQTTService.stats self') = 1.
Proof.
  cbn zeta.
  destruct (unknown_device_is_dropped all_live 0%Z no_iso no_epoch decimal
              (service_of [sensor_with []]) "sensors/ghost/data"
              (JDict [("value", JNum 21)]) "ghost"
              eq_refl eq_refl eq_refl) as (H1 & H2 & H3 & _).
  split; [exact H1|]. split; [exact H2|exact H3].
Defined.

(** C2 as stated fails: the message for the unknown device ["ghost"]
    leaves [messages_failed] at zero and is counted as processed. *)
Lemma unknown_device_not_counted_as_failed :
  let self := service_of [sensor_with []] in
  let self' :=
    MQTTService._process_message all_live 0 no_iso no_epoch decimal self
      "sensors/ghost/data" (Loaded (JDict [("value", JNum 21)])) in
  MQTTService.find_sensor (MQTTService.sensors self) "ghost" = None
  ∧ ¬ (MStats.messages_failed (MQTTService.stats self')
       = S (MStats.messages_failed (MQTTService.stats self))
       ∧ MStats.messages_processed (MQTTService.stats self')
         = MStats.messages_processed (MQTTService.stats self)).
Proof.
  cbn zeta. split; [reflexivity|]. vm_compute. intros [H _]. discriminate H.
Qed.

Lemma malformed_message_is_dropped_witness :
  let self := service_of [sensor_with []] in
  let self' :=
    MQTTService._process_message all_live 0 no_iso no_epoch decimal self
      "sensors/dev-1/data" JSONDecodeError in
  let self'' :=
    MQTTService._process_message all_live 0 no_iso no_epoch decimal self
      "sensors/dev-1/data" (Loaded (JDict [("quality", JStr "good")])) in
  (no_side_effects self self'
   ∧ MStats.messages_failed (MQTTService.stats self') = 1)
  ∧ (no_side_effects self self''
     ∧ MStats.messages_processed (MQTTService.stats self'') = 1).
Proof.
  cbn zeta.
  pose proof (malformed_message_is_dropped all_live 0%Z no_iso no_epoch decimal
                (service_of [sensor_with []]) "sensors/dev-1/data")
    as [Hbad Hlack].
  destruct (Hbad JSONDecodeError (or_introl eq_refl)) as (H1 & H2 & _).
  destruct (Hlack (JDict [("quality", JStr "good")]) eq_refl
              (or_introl eq_refl)) as (K1 & _ & K3).
  split; split; assumption.
Defined.

(** C5 as stated fails: a data message of the known device ["dev-1"]
    whose payload has no ["value"] leaves [messages_failed] as it was
    and is counted as processed. *)
Lemma missing_value_not_counted_as_failed :
  let self := service_of [sensor_with []] in
  let self' :=
    MQTTService._process_message all_live 0 no_iso no_epoch decimal self
      "sensors/dev-1/data" (Loaded (JDict [("quality", JStr "good")])) in
  is_Some (MQTTService.find_sensor (MQTTService.sensors self) "dev-1")
  ∧ ¬ (MStats.messages_failed (MQTTService.stats self')
       = S (MStats.messages_failed (MQTTService.stats self))
       ∧ MStats.messages_processed (MQTTService.stats self')
         = MStats.messages_processed (MQTTService.stats self)).
Proof.
  cbn zeta. split; [vm_compute; eauto|].
  vm_compute. intros [H _]. discriminate H.
Qed.

(** ** The cached history *)

Lemma take_app_take {A : Type} (a b : list A) (n m : nat) :
  n ≤ m → take n (a ++ take m b) = take n (a ++ b).
Proof.
  revert n. induction a as [|x a IH]; intros n Hn.
  - cbn. rewrite take_take. f_equal. lia.
  - destruct n as [|n]; [done|]. cbn. f_equal. apply IH. lia.
Qed.

(** One cache write: the history of the sensor written to gets the new
    entry at its head and is cut to a hundred entries; the other
    histories stay. *)
Lemma cache_sensor_data_items (self : MQTTService.t) (sensor : Sensor.t)
    (value : json) (timestamp : Z) (sensor_id : Z) :
  Redis.items
    (MQTTService.redis
       (MQTTService._cache_sensor_data self sensor value timestamp))
    sensor_id
  = if decide (sensor_id = Sensor.id sensor)
    then take 100
           ({| cd_value := value; cd_timestamp := timestamp;
               cd_sensor_id := Sensor.id sensor;
               cd_device_id := Sensor.device_id sensor |}
            :: Redis.items (MQTTService.redis self) sensor_id)
    else Redis.items (MQTTService.redis self) sensor_id.
Proof.
  unfold MQTTService._cache_sensor_data, Redis.items.
  cbn [MQTTService.redis MQTTService.with_redis].
  unfold Redis.expire, Redis.ltrim, Redis.lpush, Redis.setex.
  cbn [Redis.series Redis.latest].
  destruct (default ([], None) (Redis.series (MQTTService.redis self)
                                  !! Sensor.id sensor))
    as [old ttl] eqn:Eold.
  cbn [Redis.series Redis.latest]. rewrite lookup_insert_eq.
  cbn [Redis.series Redis.latest drop take Nat.sub].
  rewrite lookup_alter. case_decide as Hd.
  - subst sensor_id. rewrite decide_True by done.
    rewrite lookup_insert_eq. cbn. by rewrite Eold.
  - rewrite decide_False by done. rewrite !lookup_insert_ne by done. done.
Qed.

Lemma cache_sensor_data_capped (self : MQTTService.t) (sensor : Sensor.t)
    (value : json) (timestamp : Z) :
  capped_history (MQTTService.redis self) →
  capped_history
    (MQTTService.redis
       (MQTTService._cache_sensor_data self sensor value timestamp)).
Proof.
  intros Hc sensor_id. rewrite cache_sensor_data_items.
  case_decide; [|apply Hc]. rewrite length_take. lia.
Qed.

Lemma cache_readings_items (readings : list reading) (self : MQTTService.t)
    (sensor_id : Z) :
  capped_history (MQTTService.redis self) →
  Redis.items (MQTTService.redis (cache_readings self readings)) sensor_id
  = take 100 (newest_first sensor_id readings
              ++ Redis.items (MQTTService.redis self) sensor_id).
Proof.
  revert self. induction readings as [|r rest IH]; intros self Hc.
  - cbn. symmetry. apply take_ge, Hc.
  - cbn [cache_readings foldl]. fold (cache_readings
      (MQTTService._cache_sensor_data self (of_sensor r) (reading_value r)
         (reading_time r)) rest).
    rewrite IH by by apply cache_sensor_data_capped.
    rewrite cache_sensor_data_items. unfold newest_first.
    rewrite filter_cons. case_decide as Hd.
    + rewrite decide_True by done. rewrite take_app_take by done.
      cbn [map rev]. by rewrite <- app_assoc.
    + rewrite decide_False by done. done.
Qed.

Lemma cache_readings_capped (readings : list reading)
    (self : MQTTService.t) :
  capped_history (MQTTService.redis self) →
  capped_history (MQTTService.redis (cache_readings self readings)).
Proof.
  intros Hc sensor_id. rewrite cache_readings_items by done.
  rewrite length_take. lia.
Qed.

(** Writing to the time series changes the time series at most. *)
Lemma write_to_influxdb_others (str : json → string) (self : MQTTService.t)
    (sensor : Sensor.t) (value : json) (timestamp : Z) (quality : json) :
  let self' :=
    MQTTService._write_to_influxdb str self sensor value timestamp quality in
  MQTTService.is_connected self' = MQTTService.is_connected self
  ∧ MQTTService.is_running self' = MQTTService.is_running self
  ∧ MQTTService.reconnect_attempts self'
    = MQTTService.reconnect_attempts self
  ∧ MQTTService.stats self' = MQTTService.stats self
  ∧ MQTTService.websocket_service self' = MQTTService.websocket_service self
  ∧ MQTTService.sensors self' = MQTTService.sensors self
  ∧ MQTTService.gateways self' = MQTTService.gateways self
  ∧ MQTTService.redis self' = MQTTService.redis self.
Proof.
  cbn zeta. unfold MQTTService._write_to_influxdb.
  destruct (as_number value) as [number|]; [|done].
  by destruct (py_float number).
Qed.

Section CachePipeline.

Variable net : conn → socket.
Variable now : Z.
Variable fromisoformat : string → option Z.
Variable fromtimestamp : Q → option Z.
Variable str : json → string.

Lemma broadcast_redis (self : MQTTService.t) (m : json) :
  MQTTService.redis (MQTTService.broadcast net self m).1
  = MQTTService.redis self.
Proof.
  unfold MQTTService.broadcast. by destruct (ConnectionManager.broadcast _ _ _ _).
Qed.

Lemma handle_alarms_redis (alarms : list Sensor.alarm)
    (self : MQTTService.t) :
  MQTTService.redis (MQTTService._handle_alarms net self alarms)
  = MQTTService.redis self.
Proof.
  revert self. induction alarms as [|a rest IH]; intros self; [done|].
  cbn [MQTTService._handle_alarms].
  destruct (MQTTService.broadcast net self _) as [s r] eqn:Eb.
  assert (MQTTService.redis s = MQTTService.redis self) as Hs.
  { pose proof (broadcast_redis self
      (JDict [("type", JStr "alarm"); ("data", MQTTService.alarm_json a)]))
      as H. by rewrite Eb in H. }
  destruct r; [by rewrite IH|done].
Qed.

Lemma handle_sensor_data_capped (self : MQTTService.t) (topic : string)
    (data : json) :
  capped_history (MQTTService.redis self) →
  capped_history
    (MQTTService.redis
       (MQTTService._handle_sensor_data net now fromisoformat fromtimestamp str
          self topic data)).
Proof.
  intros Hc. unfold MQTTService._handle_sensor_data.
  destruct (topic_device_id topic) as [device_id|]; [|done].
  destruct (MQTTService.find_sensor _ _) as [sensor|]; [|done].
  destruct (py_get data "value" JNull) as [value|]; [|done].
  destruct (is_none value); [done|].
  match goal with
  | |- context [MQTTService._cache_sensor_data ?s ?x ?v ?t] =>
      assert (capped_history (MQTTService.redis s)) as Hw;
      [ match s with
        | MQTTService._write_to_influxdb ?f ?s0 ?x0 ?v0 ?t0 ?q0 =>
            destruct (write_to_influxdb_others f s0 x0 v0 t0 q0)
              as (_ & _ & _ & _ & _ & _ & _ & ->)
        end; exact Hc
      | pose proof (cache_sensor_data_capped s x v t Hw) as Hc';
        set (cached := MQTTService._cache_sensor_data s x v t) in * ]
  end.
  unfold MQTTService._broadcast_sensor_data.
  destruct (as_number value) as [number|].
  - destruct (py_float number) as [number'|]; [|done].
    destruct (Sensor.check_alarm_conditions _ _) as [alarms|]; [|done].
    rewrite broadcast_redis.
    destruct alarms; [done|]. by rewrite handle_alarms_redis.
  - by rewrite broadcast_redis.
Qed.

Lemma process_message_capped (self : MQTTService.t) (scheduled : bool)
    (topic : string) (body : payload) :
  capped_history (MQTTService.redis self) →
  capped_history
    (MQTTService.redis
       (MQTTService._on_message net now fromisoformat fromtimestamp str
          self scheduled topic body)).
Proof.
  intros Hc. unfold MQTTService._on_message, MQTTService._process_message.
  destruct scheduled; [|done].
  destruct body as [| |data]; [done|done|].
  cbn [MQTTService.redis MQTTService.with_stats].
  destruct (contains "/data" topic).
  { by apply handle_sensor_data_capped. }
  destruct (contains "/status" topic).
  { unfold MQTTService._handle_status_message.
    destruct (topic_device_id topic); [|done].
    destruct (py_get data "status" _); [|done].
    destruct (contains "sensors" topic).
    - destruct (MQTTService.find_sensor _ _); [|done].
      by rewrite broadcast_redis.
    - destruct (contains "gateways" topic); [|done].
      destruct (MQTTService.find_gateway _ _); [|done].
      by rewrite broadcast_redis. }
  destruct (contains "/heartbeat" topic).
  { unfold MQTTService._handle_heartbeat.
    destruct (topic_device_id topic); [|done].
    destruct (MQTTService.find_gateway _ _); [|done].
    by destruct (match data with JDict d => _ | _ => _ end). }
  destruct (contains "/alert" topic); [|done].
  unfold MQTTService._handle_alert. by rewrite broadcast_redis.
Qed.

End CachePipeline.

Lemma newest_first_numbered (sensor : Sensor.t) (n : nat) :
  newest_first (Sensor.id sensor) (numbered_readings sensor n)
  = rev (map entry_of (numbered_readings sensor n)).
Proof.
  unfold newest_first. f_equal. f_equal.
  unfold numbered_readings. induction (seq 0 n) as [|k l IH]; [done|].
  cbn [map]. rewrite filter_cons. cbn. rewrite decide_True by done.
  by rewrite IH.
Qed.

(** C3. Whatever is written to the cache, and however much of it, no
    history list exceeds a hundred entries: starting from a cache whose
    lists are within the bound (the empty cache is), the list of every
    sensor is the hundred newest of its entries, newest first, after any
    sequence of cache writes; handling any incoming message keeps the
    bound; and five hundred readings of one sensor written to the empty
    cache leave exactly the hundred readings 499 down to 400. *)
Theorem history_capped_at_100 :
  (∀ (self : MQTTService.t) (readings : list reading) (sensor_id : Z),
     capped_history (MQTTService.redis self) →
     let cache := MQTTService.redis (cache_readings self readings) in
     Redis.items cache sensor_id
     = take 100 (newest_first sensor_id readings
                 ++ Redis.items (MQTTService.redis self) sensor_id)
     ∧ length (Redis.items cache sensor_id) ≤ 100
     ∧ capped_history cache)
  ∧ (∀ net now fromisoformat fromtimestamp str (self : MQTTService.t)
       (scheduled : bool) (topic : string) (body : payload),
       capped_history (MQTTService.redis self) →
       capped_history
         (MQTTService.redis
            (MQTTService._on_message net now fromisoformat fromtimestamp str
               self scheduled topic body)))
  ∧ capped_history Redis.init
  ∧ (∀ sensor : Sensor.t,
       let cache :=
         MQTTService.redis
           (cache_readings (service_of [sensor])
              (numbered_readings sensor 500)) in
       length (Redis.items cache (Sensor.id sensor)) = 100
       ∧ Redis.items cache (Sensor.id sensor)
         = take 100 (rev (map entry_of (numbered_readings sensor 500)))
       ∧ map cd_timestamp (Redis.items cache (Sensor.id sensor))
         = map Z.of_nat (rev (seq 400 100))).
Proof.
  assert (capped_history Redis.init) as Hinit.
  { intros sensor_id. unfold Redis.items. cbn. rewrite lookup_empty.
    cbn. lia. }
  split; [|split; [|split; [done|]]].
  - intros self readings sensor_id Hc cache.
    pose proof (cache_readings_items readings self sensor_id Hc) as Hitems.
    split; [exact Hitems|]. split.
    + unfold cache. rewrite Hitems, length_take. lia.
    + by apply cache_readings_capped.
  - intros. by apply process_message_capped.
  - intros sensor cache.
    assert (Redis.items cache (Sensor.id sensor)
            = take 100 (rev (map entry_of (numbered_readings sensor 500))))
      as Hitems.
    { unfold cache. rewrite cache_readings_items by exact Hinit.
      rewrite newest_first_numbered.
      assert (Redis.items (MQTTService.redis (service_of [sensor]))
                (Sensor.id sensor) = []) as ->.
      { unfold Redis.items. cbn. by rewrite lookup_empty. }
      by rewrite app_nil_r. }
    split; [|split; [exact Hitems|]].
    + rewrite Hitems, length_take, length_rev, length_map.
      unfold numbered_readings. rewrite length_map, length_seq. lia.
    + rewrite Hitems. unfold numbered_readings.
      rewrite <- firstn_map, map_rev, !map_map. cbn [entry_of cd_timestamp
        reading_time]. by vm_compute.
Qed.

Lemma history_capped_at_100_witness :
  let cache :=
    MQTTService.redis
      (cache_readings (service_of [sensor_with []])
         (numbered_readings (sensor_with []) 150)) in
  length (Redis.items cache 1%Z) ≤ 100 ∧ capped_history cache.
Proof.
  cbn zeta.
  destruct (proj1 history_capped_at_100 (service_of [sensor_with []])
              (numbered_readings (sensor_with []) 150) 1%Z)
    as (_ & H2 & H3).
  - intros sensor_id. unfold Redis.items. cbn. rewrite lookup_empty.
    cbn. lia.
  - split; [exact H2|exact H3].
Defined.

(** ** Fan-out over a snapshot: what the room and user scopes do *)

Section FanOut.

Variable net : conn → socket.

Lemma gather_results (tasks : list conn) (self : ConnectionManager.t)
    (m : json) :
  (ConnectionManager.gather net self tasks m).2 = map (outcome net) tasks.
Proof.
  revert self. induction tasks as [|ws rest IH]; intros self; [done|].
  rewrite gather_cons. cbn [snd map]. rewrite IH. f_equal.
  unfold ConnectionManager._send_with_error_handling, outcome.
  by destruct (net ws).
Qed.

Lemma gather_wire (tasks : list conn) (self : ConnectionManager.t)
    (m : json) :
  ConnectionManager.wire (ConnectionManager.gather net self tasks m).1
  = ConnectionManager.wire self ++ deliveries net tasks m.
Proof.
  revert self. induction tasks as [|ws rest IH]; intros self.
  - cbn. by rewrite app_nil_r.
  - rewrite gather_cons. cbn [fst]. rewrite IH. unfold deliveries.
    rewrite filter_cons.
    unfold ConnectionManager._send_with_error_handling.
    destruct (net ws) eqn:E; cbn [fst].
    + rewrite decide_True by done. cbn. by rewrite <- app_assoc.
    + rewrite decide_False by done. done.
    + rewrite decide_False by done. done.
Qed.

Lemma gather_failed (tasks : list conn) (self : ConnectionManager.t)
    (m : json) :
  Stats.messages_failed
    (ConnectionManager.stats (ConnectionManager.gather net self tasks m).1)
  = Stats.messages_failed (ConnectionManager.stats self)
    + length (filter (λ ws, net ws = Broken) tasks).
Proof.
  revert self. induction tasks as [|ws rest IH]; intros self.
  - cbn. lia.
  - rewrite gather_cons. cbn [fst]. rewrite IH. rewrite filter_cons.
    unfold ConnectionManager._send_with_error_handling.
    destruct (net ws) eqn:E; cbn [fst].
    + rewrite decide_False by done. done.
    + rewrite decide_True by done. cbn. lia.
    + rewrite decide_False by done. done.
Qed.

Lemma elem_of_failures_of (rest failed : list conn) (ws : conn) :
  ws ∈ failures_of net failed rest ↔ ws ∈ failed ∨ failing net rest ws.
Proof.
  unfold failing. revert failed.
  induction rest as [|x rest IH]; intros failed.
  - cbn. rewrite elem_of_nil. tauto.
  - unfold failures_of at 1; cbn [foldl]. fold (failures_of net
      (if decide (net x = Broken) then set_add x failed else failed) rest).
    rewrite IH, elem_of_cons. case_decide as Hx.
    + rewrite elem_of_set_add. naive_solver.
    + naive_solver.
Qed.

Lemma collect_own_positions (tasks rest : list conn) (i : nat)
    (failed : list conn) (n : nat) :
  drop i tasks = rest →
  ∃ n', ConnectionManager.collect tasks i (map (outcome net) rest) failed n
        = Ok (failures_of net failed rest, n').
Proof.
  revert i failed n. induction rest as [|ws rest IH]; intros i failed n Hd.
  - by exists n.
  - assert (tasks !! i = Some ws) as Hi.
    { rewrite <- (Nat.add_0_r i), <- lookup_drop, Hd. done. }
    assert (drop (S i) tasks = rest) as Hd'.
    { rewrite (drop_S tasks ws i Hi) in Hd. by injection Hd. }
    cbn [map ConnectionManager.collect]; unfold failures_of at 1; cbn [foldl].
    fold (failures_of net
      (if decide (net ws = Broken) then set_add ws failed else failed) rest).
    unfold outcome at 1. destruct (net ws) eqn:E.
    + rewrite decide_False by done. apply IH, Hd'.
    + rewrite decide_True by done. rewrite Hi. apply IH, Hd'.
    + rewrite decide_False by done. apply IH, Hd'.
Qed.

Lemma disconnect_wire (self : ConnectionManager.t) (ws : conn) :
  ConnectionManager.wire (ConnectionManager.disconnect self ws)
  = ConnectionManager.wire self.
Proof.
  unfold ConnectionManager.disconnect.
  by destruct (named _), (nonempty _).
Qed.

Lemma disconnect_failed_count (self : ConnectionManager.t) (ws : conn) :
  Stats.messages_failed
    (ConnectionManager.stats (ConnectionManager.disconnect self ws))
  = Stats.messages_failed (ConnectionManager.stats self).
Proof.
  unfold ConnectionManager.disconnect.
  by destruct (named _), (nonempty _).
Qed.

Lemma disconnect_all_spec (failed : list conn) (self : ConnectionManager.t) :
  let self' := ConnectionManager.disconnect_all self failed in
  (∀ ws, registered self' ws ↔ registered self ws ∧ ws ∉ failed)
  ∧ (∀ ws, ws ∈ ConnectionManager.active_connections self'
           ↔ ws ∈ ConnectionManager.active_connections self ∧ ws ∉ failed)
  ∧ ConnectionManager.wire self' = ConnectionManager.wire self
  ∧ Stats.messages_failed (ConnectionManager.stats self')
    = Stats.messages_failed (ConnectionManager.stats self).
Proof.
  revert self. induction failed as [|x rest IH]; intros self.
  - cbn. setoid_rewrite elem_of_nil. naive_solver.
  - cbn [ConnectionManager.disconnect_all foldl].
    destruct (IH (ConnectionManager.disconnect self x))
      as (Hreg & Hact & Hwire & Hcount).
    split; [|split; [|split]].
    + intros ws. unfold ConnectionManager.disconnect_all in Hreg.
      rewrite Hreg. unfold registered. rewrite disconnect_info.
      rewrite not_elem_of_cons.
      destruct (decide (ws = x)) as [->|Hne].
      * rewrite lookup_delete_eq. split; [by intros [[? ?] _]|tauto].
      * rewrite lookup_delete_ne by done. tauto.
    + intros ws. unfold ConnectionManager.disconnect_all in Hact.
      rewrite Hact, disconnect_active, elem_of_set_discard.
      rewrite not_elem_of_cons. tauto.
    + unfold ConnectionManager.disconnect_all in Hwire.
      by rewrite Hwire, disconnect_wire.
    + unfold ConnectionManager.disconnect_all in Hcount.
      by rewrite Hcount, disconnect_failed_count.
Qed.

(** Gathering over a snapshot and reading the results against that same
    snapshot removes exactly the failing members. *)
Lemma fanout_own_snapshot (self : ConnectionManager.t)
    (snapshot : list conn) (m : json) :
  ∃ failed n,
    ConnectionManager.collect snapshot 0
      (ConnectionManager.gather net self snapshot m).2 [] 0
    = Ok (failed, n)
    ∧ fanned_out net snapshot m self
        (ConnectionManager.disconnect_all
           (ConnectionManager.gather net self snapshot m).1 failed).
Proof.
  rewrite gather_results.
  destruct (collect_own_positions snapshot snapshot 0 [] 0 eq_refl)
    as [n Hn].
  exists (failures_of net [] snapshot), n. split; [exact Hn|].
  pose proof (gather_same_index net snapshot self m)
    as (Ha & _ & _ & Hroom & _).
  destruct (disconnect_all_spec (failures_of net [] snapshot)
              (ConnectionManager.gather net self snapshot m).1)
    as (Hreg & Hact & Hwire & Hcount).
  assert (∀ ws, ws ∉ failures_of net [] snapshot ↔ ¬ failing net snapshot ws)
    as Hfail.
  { intros ws. rewrite elem_of_failures_of, elem_of_nil. tauto. }
  split; [|split; [|split]].
  - intros ws. rewrite Hreg, Hfail. unfold registered.
    specialize (Hroom ws).
    destruct (ConnectionManager.connection_info _ !! ws),
      (ConnectionManager.connection_info self !! ws); cbn in Hroom;
      try done; split; intros [[? ?] ?]; eauto.
  - intros ws. by rewrite Hact, Hfail, Ha.
  - by rewrite Hwire, gather_wire.
  - by rewrite Hcount, gather_failed.
Qed.

(** X23. A broadcast to a room is offered to the members of the room
    outside the exclusion set, as they are when the broadcast starts:
    the live ones get the frame, exactly the ones whose socket raises
    are removed from the registry, every failure is counted, and no
    exception leaves the broadcast. *)
Lemma broadcast_to_room_fans_out (self : ConnectionManager.t)
    (room : dict_key) (m : json) (exclude : option (list conn))
    (room_members : list conn) :
  ConnectionManager.room_connections self !! room = Some room_members →
  let snapshot := list_difference room_members (default [] exclude) in
  ConnectionManager.broadcast_to_room net self room m exclude
  = ((ConnectionManager.broadcast_to_room net self room m exclude).1, Ok ())
  ∧ fanned_out net snapshot m self
      (ConnectionManager.broadcast_to_room net self room m exclude).1.
Proof.
  intros Hroom snapshot. unfold ConnectionManager.broadcast_to_room.
  rewrite Hroom. fold snapshot.
  destruct snapshot as [|c cs] eqn:Es.
  - split; [done|]. cbn [fst]. unfold fanned_out, failing, deliveries.
    cbn. setoid_rewrite elem_of_nil. rewrite app_nil_r.
    split; [naive_solver|]. split; [naive_solver|]. split; [done|lia].
  - rewrite <- Es.
    destruct (fanout_own_snapshot self snapshot m)
      as (failed & n & Hcollect & Hfan).
    destruct (ConnectionManager.gather net self snapshot m)
      as [s results] eqn:Eg.
    cbn [fst snd] in *. rewrite Hcollect. by split.
Qed.

(** User scope: the snapshot is the user's connections. *)
Lemma send_to_user_fans_out (self : ConnectionManager.t) (user : string)
    (m : json) (user_members : list conn) :
  ConnectionManager.user_connections self !! user = Some user_members →
  fanned_out net user_members m self
    (ConnectionManager.send_to_user net self user m).1.
Proof.
  intros Huser. unfold ConnectionManager.send_to_user. rewrite Huser.
  destruct (fanout_own_snapshot self user_members m)
    as (failed & n & Hcollect & Hfan).
  destruct (ConnectionManager.gather net self user_members m)
    as [s results] eqn:Eg.
  cbn [fst snd] in *. by rewrite Hcollect.
Qed.

Lemma filter_excluding_none (l : list conn) :
  filter (λ connection, connection ∉ []) l = l.
Proof.
  induction l as [|x l IH]; [done|].
  rewrite filter_cons, decide_True by apply not_elem_of_nil. by rewrite IH.
Qed.

(** Global scope without an exclusion set: the snapshot is the active
    set, and the positions agree. *)
Lemma broadcast_to_all_fans_out (self : ConnectionManager.t) (m : json) :
  fanned_out net (ConnectionManager.active_connections self) m self
    (ConnectionManager.broadcast net self m None).1.
Proof.
  unfold ConnectionManager.broadcast.
  destruct (ConnectionManager.active_connections self) as [|c cs] eqn:Ea.
  - cbn [fst]. unfold fanned_out, failing, deliveries.
    cbn. setoid_rewrite elem_of_nil. rewrite app_nil_r, Ea.
    split; [naive_solver|]. split; [naive_solver|]. split; [done|lia].
  - rewrite <- Ea. cbn [default from_option id].
    rewrite filter_excluding_none.
    destruct (fanout_own_snapshot self
                (ConnectionManager.active_connections self) m)
      as (failed & n & Hcollect & Hfan).
    pose proof (gather_same_index net
                  (ConnectionManager.active_connections self) self m)
      as (Hact & _).
    destruct (ConnectionManager.gather net self
                (ConnectionManager.active_connections self) m)
      as [s results] eqn:Eg.
    cbn [fst snd] in *. rewrite Hact, Hcollect. done.
Qed.

End FanOut.

(** * Further properties *)

(** ** Alarm rules *)

Lemma check_rule_shape (self : Sensor.t) (v : Q) (r : json)
    (l : list Sensor.alarm) :
  Sensor.check_rule self v r = Ok l →
  l = []
  ∨ ∃ a, l = [a] ∧ Sensor.sensor_id a = Sensor.id self
         ∧ Sensor.sensor_name a = Sensor.name self
         ∧ Sensor.value a = v
         ∧ is_none (Sensor.threshold a) = false.
Proof.
  unfold Sensor.check_rule. destruct r as [| | | | |d]; try done.
  cbn [py_get mbind result_bind].
  destruct (negb (truthy _)); [intros [= <-]; by left|].
  destruct (truthy _); cbn [andb]; [|intros [= <-]; by left].
  destruct (is_none (default JNull (assoc "threshold" d))) eqn:En;
    cbn [negb]; [intros [= <-]; by left|].
  destruct (Sensor.triggered _ _ _) as [[|]|]; cbn; [|intros [= <-]; by left|done].
  intros [= <-]. right. eexists. split; [done|]. by cbn.
Qed.

(** X1. Every rule contributes at most one alarm, and every alarm that
    comes back carries the id and name of the sensor that was checked,
    the value that was checked, and a threshold that is not [None]. *)
Theorem alarms_bounded_and_labelled (self : Sensor.t) (v : Q) :
  (∀ rules alarms,
     Sensor.check_rules self v rules = Ok alarms →
     length alarms ≤ length rules
     ∧ Forall (λ a, Sensor.sensor_id a = Sensor.id self
                    ∧ Sensor.sensor_name a = Sensor.name self
                    ∧ Sensor.value a = v
                    ∧ is_none (Sensor.threshold a) = false) alarms)
  ∧ (∀ alarms,
       Sensor.check_alarm_conditions self v = Ok alarms →
       Forall (λ a, Sensor.sensor_id a = Sensor.id self
                    ∧ Sensor.sensor_name a = Sensor.name self
                    ∧ Sensor.value a = v
                    ∧ is_none (Sensor.threshold a) = false) alarms).
Proof.
  assert (∀ rules alarms,
     Sensor.check_rules self v rules = Ok alarms →
     length alarms ≤ length rules
     ∧ Forall (λ a, Sensor.sensor_id a = Sensor.id self
                    ∧ Sensor.sensor_name a = Sensor.name self
                    ∧ Sensor.value a = v
                    ∧ is_none (Sensor.threshold a) = false) alarms) as Hrules.
  { induction rules as [|r rest IH]; intros alarms.
    - intros [= <-]. split; [done|constructor].
    - cbn [Sensor.check_rules].
      destruct (Sensor.check_rule self v r) as [here|] eqn:Eh; [|done].
      cbn. destruct (Sensor.check_rules self v rest) as [later|]; [|done].
      cbn. intros [= <-]. destruct (IH later eq_refl) as [Hlen Hall].
      destruct (check_rule_shape self v r here Eh) as [->|(a & -> & Ha)].
      + cbn. split; [lia|done].
      + cbn. split; [lia|]. by constructor. }
  split; [exact Hrules|]. intros alarms.
  unfold Sensor.check_alarm_conditions.
  destruct (_ || _); [intros [= <-]; constructor|].
  destruct (py_get _ _ _) as [rules|]; [|done]. cbn.
  destruct (py_iter rules) as [items|]; [|done]. cbn.
  intros H. by apply (Hrules items).
Qed.

Lemma alarms_bounded_and_labelled_witness :
  ∃ alarms,
    Sensor.check_rules (sensor_with []) 40 [rule ">" 35; rule "<" 5]
    = Ok alarms
    ∧ length alarms ≤ 2.
Proof.
  eexists. split; [reflexivity|].
  exact (proj1 (proj1 (alarms_bounded_and_labelled (sensor_with []) 40%Q)
                  [rule ">" 35; rule "<" 5] _ eq_refl)).
Defined.

Lemma check_rule_switched_off (self : Sensor.t) (v : Q) (r : json) :
  ¬ switched_on r → Sensor.check_rule self v r = Ok [].
Proof.
  destruct r as [| | | | |d]; cbn; try tauto.
  intros H. unfold Sensor.check_rule. cbn [py_get mbind result_bind].
  by destruct (truthy _).
Qed.

(** X2. Rules that are switched off are not looked at: evaluating a
    rule list gives the same alarms, or the same exception, as
    evaluating it with the switched-off rules taken out, however
    malformed those rules are. *)
Theorem switched_off_rules_are_skipped (self : Sensor.t) (v : Q)
    (rules : list json) :
  Sensor.check_rules self v (filter switched_on rules)
  = Sensor.check_rules self v rules.
Proof.
  induction rules as [|r rest IH]; [done|].
  rewrite filter_cons. case_decide as Hon.
  - cbn [Sensor.check_rules]. by rewrite IH.
  - cbn [Sensor.check_rules]. rewrite IH.
    rewrite (check_rule_switched_off self v r Hon). cbn.
    by destruct (Sensor.check_rules self v rest).
Qed.

(** X3. The default rules at work.  A temperature sensor that carries
    its default rules raises the high-temperature alarm alone above 35,
    the low-temperature alarm alone below 5, and nothing from 5 to 35;
    a humidity sensor does the same with 80 and 20; a sensor of any
    other type, or of no type, gets no alarm at all. *)
Theorem default_rules_fire_outside_band (self : Sensor.t) (v : Q) :
  Sensor.alarm_enabled self = Some true →
  let checked :=
    names_of (Sensor.check_alarm_conditions
                (with_alarm_rules self (get_default_alarm_rules self)) v) in
  match Sensor.sensor_type self with
  | None => checked = Some []
  | Some ty =>
      if String.eqb (Sensor.type_name ty) "温度传感器" then
        ((35 < v)%Q → checked = Some [JStr "高温报警"])
        ∧ ((v < 5)%Q → checked = Some [JStr "低温报警"])
        ∧ ((5 <= v)%Q → (v <= 35)%Q → checked = Some [])
      else if String.eqb (Sensor.type_name ty) "湿度传感器" then
        ((80 < v)%Q → checked = Some [JStr "高湿报警"])
        ∧ ((v < 20)%Q → checked = Some [JStr "低湿报警"])
        ∧ ((20 <= v)%Q → (v <= 80)%Q → checked = Some [])
      else checked = Some []
  end.
Proof.
  intros He checked. unfold checked, Sensor.check_alarm_conditions,
    get_default_alarm_rules. cbn [with_alarm_rules Sensor.alarm_enabled
    Sensor.alarm_rules Sensor.sensor_type]. rewrite He.
  destruct (Sensor.sensor_type self) as [ty|]; [|done].
  assert (∀ hi lo : Q, (lo < hi)%Q →
            ((hi < v)%Q → Qltb hi v = true ∧ Qltb v lo = false)
            ∧ ((v < lo)%Q → Qltb hi v = false ∧ Qltb v lo = true)
            ∧ ((lo <= v)%Q → (v <= hi)%Q →
               Qltb hi v = false ∧ Qltb v lo = false)) as Hband.
  { intros hi lo Hlh. unfold Qltb. rewrite !negb_true_iff, !negb_false_iff.
    rewrite !Qle_bool_false, !Qle_bool_iff. split; [|split].
    - intros H. split; [by apply Qlt_not_le|].
      apply Qlt_le_weak. by apply (Qlt_trans _ hi).
    - intros H. split; [|by apply Qlt_not_le].
      apply Qlt_le_weak. by apply (Qlt_trans _ lo).
    - done. }
  destruct (String.eqb (Sensor.type_name ty) "温度传感器").
  { destruct (Hband 35%Q 5%Q eq_refl) as (Hhi & Hlo & Hmid).
    cbn. unfold Sensor.triggered. cbn.
    split; [|split].
    - intros H. destruct (Hhi H) as [-> ->]. done.
    - intros H. destruct (Hlo H) as [-> ->]. done.
    - intros H1 H2. destruct (Hmid H1 H2) as [-> ->]. done. }
  destruct (String.eqb (Sensor.type_name ty) "湿度传感器"); [|done].
  destruct (Hband 80%Q 20%Q eq_refl) as (Hhi & Hlo & Hmid).
  cbn. unfold Sensor.triggered. cbn.
  split; [|split].
  - intros H. destruct (Hhi H) as [-> ->]. done.
  - intros H. destruct (Hlo H) as [-> ->]. done.
  - intros H1 H2. destruct (Hmid H1 H2) as [-> ->]. done.
Qed.

Lemma default_rules_fire_outside_band_witness :
  names_of (Sensor.check_alarm_conditions
              (with_alarm_rules thermometer
                 (get_default_alarm_rules thermometer)) 40)
  = Some [JStr "高温报警"].
Proof.
  refine (proj1 (default_rules_fire_outside_band thermometer 40%Q eq_refl) _).
  reflexivity.
Defined.

(** X4. A rule whose threshold is present but is not a number.  With an
    ordering operator the comparison raises [TypeError], and the
    exception ends the whole evaluation: the alarms of the rules before
    it are lost and the rules after it are not looked at.  With [==] the
    rule never fires, and with [!=] it fires for every value. *)
Theorem non_numeric_threshold (self : Sensor.t) (v : Q)
    (d : list (string * json)) (o : operator) (threshold : json) :
  truthy (default (JBool true) (assoc "enabled" d)) = true →
  assoc "condition" d = Some (JStr (symbol o)) →
  assoc "threshold" d = Some threshold →
  not_a_number threshold →
  (ordering o →
     ∀ before after alarms,
       Sensor.check_rules self v before = Ok alarms →
       Sensor.check_rules self v (before ++ JDict d :: after)
       = Raise TypeError)
  ∧ (o = Eq → Sensor.check_rule self v (JDict d) = Ok [])
  ∧ (o = Ne → ∃ a, Sensor.check_rule self v (JDict d) = Ok [a]
                   ∧ Sensor.threshold a = threshold).
Proof.
  intros He Hc Ht [Hn Hnone].
  assert (Sensor.check_rule self v (JDict d)
          = (b ← Sensor.triggered (JStr (symbol o)) v threshold;
             if b : bool then
               a ← Sensor.make_alarm self (JDict d) (JStr (symbol o)) v
                    threshold;
               Ok [a]
             else Ok [])) as Hrule.
  { unfold Sensor.check_rule, py_get. cbn [mbind result_bind].
    rewrite He, Hc, Ht. cbn [negb default from_option id andb].
    by rewrite truthy_symbol, Hnone. }
  split; [|split].
  - intros Hord before after alarms Hb.
    rewrite (check_rules_app self v before _ alarms Hb).
    cbn [Sensor.check_rules]. rewrite Hrule.
    unfold Sensor.triggered, py_gt, py_lt, py_ge, py_le. rewrite Hn.
    by destruct Hord as [-> | [-> | [-> | ->]]].
  - intros ->. rewrite Hrule.
    unfold Sensor.triggered, py_eq, py_ne, py_eq. rewrite Hn. done.
  - intros ->. rewrite Hrule.
    unfold Sensor.triggered, py_eq, py_ne, py_eq. rewrite Hn. cbn.
    eexists. split; [reflexivity|]. done.
Qed.

Lemma non_numeric_threshold_witness :
  Sensor.check_rules (sensor_with []) 40
    ([rule ">" 35]
       ++ JDict [("condition", JStr "<"); ("threshold", JStr "cold")]
       :: [rule ">" 30])
  = Raise TypeError.
Proof.
  refine (proj1 (non_numeric_threshold (sensor_with []) 40%Q
                   [("condition", JStr "<"); ("threshold", JStr "cold")]
                   Lt (JStr "cold") eq_refl eq_refl eq_refl _) _
            [rule ">" 35] [rule ">" 30] _ eq_refl).
  - split; reflexivity.
  - right. left. reflexivity.
Defined.

(** ** The registry: handshake, fan-out and the views *)

Section Registry.

Variable net : conn → socket.

Lemma send_personal_message_in_room (self : ConnectionManager.t)
    (ws ws' : conn) (m : json) (k : dict_key) :
  consistent self →
  in_room (ConnectionManager.send_personal_message net self ws m).1 k ws'
  ↔ in_room self k ws' ∧ (ws' = ws → net ws ≠ Broken).
Proof.
  intros Hc. unfold ConnectionManager.send_personal_message.
  destruct (net ws) eqn:E; cbn [fst].
  - unfold in_room. cbn. naive_solver.
  - rewrite disconnect_in_room by by apply counted_failure_consistent.
    unfold in_room. cbn. naive_solver.
  - naive_solver.
Qed.

Lemma send_personal_message_of_user (self : ConnectionManager.t)
    (ws ws' : conn) (m : json) (k : string) :
  consistent self →
  of_user (ConnectionManager.send_personal_message net self ws m).1 k ws'
  ↔ of_user self k ws' ∧ (ws' = ws → net ws ≠ Broken).
Proof.
  intros Hc. unfold ConnectionManager.send_personal_message.
  destruct (net ws) eqn:E; cbn [fst].
  - unfold of_user. cbn. naive_solver.
  - rewrite disconnect_of_user by by apply counted_failure_consistent.
    unfold of_user. cbn. naive_solver.
  - naive_solver.
Qed.

Lemma send_personal_message_registered (self : ConnectionManager.t)
    (ws ws' : conn) (m : json) :
  registered (ConnectionManager.send_personal_message net self ws m).1 ws'
  ↔ registered self ws' ∧ (ws' = ws → net ws ≠ Broken).
Proof.
  unfold ConnectionManager.send_personal_message, registered.
  destruct (net ws) eqn:E; cbn [fst].
  - cbn. rewrite lookup_alter. case_decide; [|naive_solver]. subst.
    rewrite fmap_is_Some. naive_solver.
  - rewrite disconnect_info. cbn.
    destruct (decide (ws' = ws)) as [->|Hne].
    + rewrite lookup_delete_eq. split; [by intros [? ?]|naive_solver].
    + rewrite lookup_delete_ne by done. naive_solver.
  - naive_solver.
Qed.

Lemma send_personal_message_active (self : ConnectionManager.t)
    (ws ws' : conn) (m : json) :
  ws' ∈ ConnectionManager.active_connections
          (ConnectionManager.send_personal_message net self ws m).1
  ↔ ws' ∈ ConnectionManager.active_connections self
    ∧ (ws' = ws → net ws ≠ Broken).
Proof.
  unfold ConnectionManager.send_personal_message.
  destruct (net ws) eqn:E; cbn [fst].
  - cbn. naive_solver.
  - rewrite disconnect_active, elem_of_set_discard. cbn. naive_solver.
  - naive_solver.
Qed.

End Registry.

Section Handshake.

Variable net : conn → socket.

Lemma bookkeeping_wire (self : ConnectionManager.t) (ws : conn)
    (user room : option string) :
  ConnectionManager.wire
    (ConnectionManager.connect_bookkeeping self ws user room)
  = ConnectionManager.wire self.
Proof.
  unfold ConnectionManager.connect_bookkeeping,
    ConnectionManager._join_room, ConnectionManager._associate_user.
  destruct (nonempty room), (nonempty user); cbn;
    repeat (destruct (_ !! _); cbn); done.
Qed.

Lemma bookkeeping_total (self : ConnectionManager.t) (ws : conn)
    (user room : option string) :
  Stats.total_connections
    (ConnectionManager.stats
       (ConnectionManager.connect_bookkeeping self ws user room))
  = S (Stats.total_connections (ConnectionManager.stats self)).
Proof.
  unfold ConnectionManager.connect_bookkeeping,
    ConnectionManager._join_room, ConnectionManager._associate_user.
  destruct (nonempty room), (nonempty user); cbn;
    repeat (destruct (_ !! _); cbn); done.
Qed.

Lemma disconnect_total (self : ConnectionManager.t) (ws : conn) :
  Stats.total_connections
    (ConnectionManager.stats (ConnectionManager.disconnect self ws))
  = Stats.total_connections (ConnectionManager.stats self).
Proof.
  unfold ConnectionManager.disconnect.
  by destruct (named _), (nonempty _).
Qed.

Lemma fresh_in_no_room (self : ConnectionManager.t) (ws : conn) :
  consistent self → ¬ registered self ws →
  (∀ k, ¬ in_room self k ws) ∧ (∀ k, ¬ of_user self k ws)
  ∧ ws ∉ ConnectionManager.active_connections self.
Proof.
  intros (Hact & Hroom & Huser) Hfresh. unfold registered in *.
  split; [|split].
  - intros k Hin. apply Hroom in Hin as (i & Hi & _).
    apply Hfresh. by exists i.
  - intros k Hin. apply Huser in Hin as (i & Hi & _).
    apply Hfresh. by exists i.
  - intros Hin. by apply Hact in Hin.
Qed.

(** X5. What a handshake leaves behind.  For a connection the registry
    does not know yet, [connect] counts one more connection, leaves
    every other connection where it was, and keeps the registry
    consistent.  If the welcome frame is delivered, the connection is
    active, is recorded with its user and room and one sent message, is
    in exactly the room and user sets named by non-empty arguments, and
    the welcome frame is the one frame written.  If the socket is not
    connected any more the same holds without a frame.  If writing the
    welcome frame raises, the connection is taken out again and is
    absent from every structure. *)
Theorem connect_registers (self : ConnectionManager.t) (ws : conn)
    (user room : option string) :
  consistent self → ¬ registered self ws →
  let self' := ConnectionManager.connect net self ws user room in
  consistent self'
  ∧ Stats.total_connections (ConnectionManager.stats self')
    = S (Stats.total_connections (ConnectionManager.stats self))
  ∧ (∀ ws', ws' ≠ ws →
       (registered self' ws' ↔ registered self ws')
       ∧ (∀ k, in_room self' k ws' ↔ in_room self k ws')
       ∧ (∀ k, of_user self' k ws' ↔ of_user self k ws'))
  ∧ match net ws with
    | Live =>
        ConnectionManager.connection_info self' !! ws
        = Some (fresh_info user room 1)
        ∧ ws ∈ ConnectionManager.active_connections self'
        ∧ (∀ k, in_room self' k ws ↔ KStr <$> nonempty room = Some k)
        ∧ (∀ k, of_user self' k ws ↔ nonempty user = Some k)
        ∧ ConnectionManager.wire self'
          = ConnectionManager.wire self
            ++ [(ws, ConnectionManager.connection_established)]
    | Closed =>
        ConnectionManager.connection_info self' !! ws
        = Some (fresh_info user room 0)
        ∧ ws ∈ ConnectionManager.active_connections self'
        ∧ (∀ k, in_room self' k ws ↔ KStr <$> nonempty room = Some k)
        ∧ (∀ k, of_user self' k ws ↔ nonempty user = Some k)
        ∧ ConnectionManager.wire self' = ConnectionManager.wire self
    | Broken =>
        absent self' ws
        ∧ ConnectionManager.wire self' = ConnectionManager.wire self
    end.
Proof.
  intros Hc Hfresh self'.
  pose proof (bookkeeping_consistent self ws user room Hc Hfresh) as Hbk.
  destruct (fresh_in_no_room self ws Hc Hfresh) as (Hnoroom & Hnouser & Hnoact).
  assert (∀ k ws', in_room self' k ws'
            ↔ ((ws' = ws ∧ KStr <$> nonempty room = Some k)
               ∨ in_room self k ws')
              ∧ (ws' = ws → net ws ≠ Broken)) as Hin.
  { intros k ws'. unfold self', ConnectionManager.connect.
    by rewrite send_personal_message_in_room, bookkeeping_in_room,
      named_key_of. }
  assert (∀ k ws', of_user self' k ws'
            ↔ ((ws' = ws ∧ nonempty user = Some k) ∨ of_user self k ws')
              ∧ (ws' = ws → net ws ≠ Broken)) as Hof.
  { intros k ws'. unfold self', ConnectionManager.connect.
    by rewrite send_personal_message_of_user, bookkeeping_of_user. }
  assert (∀ ws', registered self' ws'
            ↔ (ws' = ws ∨ registered self ws')
              ∧ (ws' = ws → net ws ≠ Broken)) as Hreg.
  { intros ws'. unfold self', ConnectionManager.connect.
    rewrite send_personal_message_registered. unfold registered.
    rewrite bookkeeping_info.
    destruct (decide (ws' = ws)) as [->|Hne].
    - rewrite lookup_insert_eq. split; intros [_ ?]; split; eauto.
    - rewrite lookup_insert_ne by done. naive_solver. }
  assert (∀ ws', ws' ∈ ConnectionManager.active_connections self'
            ↔ (ws' = ws ∨ ws' ∈ ConnectionManager.active_connections self)
              ∧ (ws' = ws → net ws ≠ Broken)) as Hact.
  { intros ws'. unfold self', ConnectionManager.connect.
    by rewrite send_personal_message_active, bookkeeping_active,
      elem_of_set_add. }
  split; [by apply connect_consistent|]. split.
  { unfold self', ConnectionManager.connect,
      ConnectionManager.send_personal_message.
    destruct (net ws); cbn [fst].
    - cbn [ConnectionManager.delivered ConnectionManager.stats
           ConnectionManager.with_stats ConnectionManager.count_sent
           Stats.total_connections].
      apply bookkeeping_total.
    - rewrite disconnect_total.
      cbn [ConnectionManager.stats ConnectionManager.with_stats
           ConnectionManager.count_failed Stats.total_connections].
      apply bookkeeping_total.
    - apply bookkeeping_total. }
  split.
  { intros ws' Hne. split; [rewrite Hreg; naive_solver|].
    split; intros k; [rewrite Hin|rewrite Hof]; naive_solver. }
  unfold self', ConnectionManager.connect,
    ConnectionManager.send_personal_message in *.
  destruct (net ws) eqn:E; cbn [fst] in *.
  - split; [|split; [|split; [|split]]].
    + cbn [ConnectionManager.delivered ConnectionManager.connection_info
           ConnectionManager.with_stats ConnectionManager.with_info].
      rewrite lookup_alter_eq.
      change (ConnectionManager.connection_info
                (ConnectionManager.with_wire ?s ?w))
        with (ConnectionManager.connection_info s).
      by rewrite bookkeeping_info, lookup_insert_eq.
    + apply Hact. naive_solver.
    + intros k. rewrite Hin. specialize (Hnoroom k). naive_solver.
    + intros k. rewrite Hof. specialize (Hnouser k). naive_solver.
    + cbn [ConnectionManager.delivered ConnectionManager.wire
           ConnectionManager.with_stats ConnectionManager.with_info
           ConnectionManager.with_wire].
      by rewrite bookkeeping_wire.
  - split.
    + split; [|split; [|split]].
      * rewrite Hact. naive_solver.
      * rewrite disconnect_info. apply lookup_delete_eq.
      * intros k. rewrite Hin. naive_solver.
      * intros k. rewrite Hof. naive_solver.
    + rewrite disconnect_wire.
      cbn [ConnectionManager.wire ConnectionManager.with_stats].
      apply bookkeeping_wire.
  - split; [|split; [|split; [|split]]].
    + by rewrite bookkeeping_info, lookup_insert_eq.
    + apply Hact. naive_solver.
    + intros k. rewrite Hin. specialize (Hnoroom k). naive_solver.
    + intros k. rewrite Hof. specialize (Hnouser k). naive_solver.
    + apply bookkeeping_wire.
Qed.

(** X6. A handshake followed by a disconnect is a round trip for the
    registry's contents: whatever the socket did with the welcome frame,
    the active set, the info table, every room and every user set hold
    exactly the connections they held before, and the registry is
    consistent. *)
Theorem connect_then_disconnect (self : ConnectionManager.t) (ws : conn)
    (user room : option string) :
  consistent self → ¬ registered self ws →
  let self' :=
    ConnectionManager.disconnect
      (ConnectionManager.connect net self ws user room) ws in
  consistent self'
  ∧ (∀ ws', registered self' ws' ↔ registered self ws')
  ∧ (∀ ws', ws' ∈ ConnectionManager.active_connections self'
            ↔ ws' ∈ ConnectionManager.active_connections self)
  ∧ (∀ k ws', in_room self' k ws' ↔ in_room self k ws')
  ∧ (∀ k ws', of_user self' k ws' ↔ of_user self k ws').
Proof.
  intros Hc Hfresh self'.
  pose proof (connect_consistent net self ws user room Hc Hfresh) as Hc1.
  pose proof (bookkeeping_consistent self ws user room Hc Hfresh) as Hbk.
  destruct (fresh_in_no_room self ws Hc Hfresh) as (Hnoroom & Hnouser & Hnoact).
  split; [by apply disconnect_consistent|].
  split; [|split; [|split]].
  - intros ws'. unfold self', registered. rewrite disconnect_info.
    destruct (decide (ws' = ws)) as [->|Hne].
    + rewrite lookup_delete_eq. split; [by intros [? ?]|done].
    + rewrite lookup_delete_ne by done.
      fold (registered (ConnectionManager.connect net self ws user room) ws').
      unfold ConnectionManager.connect.
      rewrite send_personal_message_registered. unfold registered.
      rewrite bookkeeping_info, lookup_insert_ne by done. naive_solver.
  - intros ws'. unfold self'.
    rewrite disconnect_active, elem_of_set_discard.
    unfold ConnectionManager.connect.
    rewrite send_personal_message_active, bookkeeping_active,
      elem_of_set_add. naive_solver.
  - intros k ws'. unfold self'. rewrite disconnect_in_room by done.
    unfold ConnectionManager.connect.
    rewrite send_personal_message_in_room, bookkeeping_in_room by done.
    specialize (Hnoroom k). naive_solver.
  - intros k ws'. unfold self'. rewrite disconnect_of_user by done.
    unfold ConnectionManager.connect.
    rewrite send_personal_message_of_user, bookkeeping_of_user by done.
    specialize (Hnouser k). naive_solver.
Qed.

End Handshake.

Lemma connect_registers_witness :
  let self' :=
    ConnectionManager.connect second_broken ConnectionManager.init 2
      (Some "alice") (Some "lab") in
  absent self' 2
  ∧ Stats.total_connections (ConnectionManager.stats self') = 1.
Proof.
  cbn zeta.
  assert (¬ registered ConnectionManager.init 2) as Hfresh.
  { unfold registered. cbn. rewrite lookup_empty. by intros [? ?]. }
  destruct (connect_registers second_broken ConnectionManager.init 2
              (Some "alice") (Some "lab") init_consistent Hfresh)
    as (_ & Htotal & _ & Habsent & _).
  split; [exact Habsent|exact Htotal].
Defined.

Lemma connect_then_disconnect_witness :
  let self' :=
    ConnectionManager.disconnect
      (ConnectionManager.connect all_live two_clients 3 (Some "bob")
         (Some "default")) 3 in
  in_room self' "default" 1 ↔ in_room two_clients "default" 1.
Proof.
  cbn zeta.
  assert (consistent two_clients) as Hc.
  { unfold two_clients. apply connect_consistent.
    - apply connect_consistent; [apply init_consistent|].
      unfold registered. cbn. rewrite lookup_empty. by intros [? ?].
    - unfold registered. vm_compute. by intros [? ?]. }
  assert (¬ registered two_clients 3) as Hfresh.
  { unfold registered. vm_compute. by intros [? ?]. }
  destruct (connect_then_disconnect all_live two_clients 3 (Some "bob")
              (Some "default") Hc Hfresh) as (_ & _ & _ & Hroom & _).
  exact (Hroom "default" 1).
Defined.

Section UserScope.

Variable net : conn → socket.

Lemma collect_counts (tasks rest : list conn) (i : nat)
    (failed : list conn) (n : nat) :
  drop i tasks = rest →
  ConnectionManager.collect tasks i (map (outcome net) rest) failed n
  = Ok (failures_of net failed rest,
        n + length (filter (λ ws, net ws = Live) rest)).
Proof.
  revert i failed n. induction rest as [|ws rest IH]; intros i failed n Hd.
  - cbn. by rewrite Nat.add_0_r.
  - assert (tasks !! i = Some ws) as Hi.
    { rewrite <- (Nat.add_0_r i), <- lookup_drop, Hd. done. }
    assert (drop (S i) tasks = rest) as Hd'.
    { rewrite (drop_S tasks ws i Hi) in Hd. by injection Hd. }
    cbn [map ConnectionManager.collect]. unfold failures_of at 1.
    cbn [foldl]. fold (failures_of net
      (if decide (net ws = Broken) then set_add ws failed else failed) rest).
    rewrite filter_cons. unfold outcome at 1. destruct (net ws) eqn:E.
    + rewrite decide_False, decide_True by done.
      rewrite (IH (S i) _ _ Hd'). cbn. f_equal. f_equal. lia.
    + rewrite decide_True, decide_False by done. rewrite Hi.
      by rewrite (IH (S i) _ _ Hd').
    + rewrite !decide_False by done. by rewrite (IH (S i) _ _ Hd').
Qed.

Lemma some_live_count (snapshot : list conn) :
  bool_decide (0 < length (filter (λ ws, net ws = Live) snapshot))
  = some_live net snapshot.
Proof.
  unfold some_live. apply bool_decide_ext.
  induction snapshot as [|x l IH].
  - cbn. rewrite Exists_nil. lia.
  - rewrite filter_cons, Exists_cons. case_decide; cbn; [|tauto].
    split; [tauto|lia].
Qed.

(** X7. Delivery to a user.  For a user without connections nothing
    happens and the answer is [False].  Otherwise the frame is offered to
    every connection of the user: the live ones get it, exactly the ones
    whose socket raises are taken out of the registry, and the answer is
    [True] exactly when at least one connection was live. *)
Theorem send_to_user_delivers (self : ConnectionManager.t) (user : string)
    (m : json) :
  match ConnectionManager.user_connections self !! user with
  | None =>
      ConnectionManager.send_to_user net self user m = (self, Ok false)
  | Some user_members =>
      fanned_out net user_members m self
        (ConnectionManager.send_to_user net self user m).1
      ∧ (ConnectionManager.send_to_user net self user m).2
        = Ok (some_live net user_members)
  end.
Proof.
  destruct (ConnectionManager.user_connections self !! user)
    as [user_members|] eqn:Eu.
  - split; [by apply send_to_user_fans_out|].
    unfold ConnectionManager.send_to_user. rewrite Eu.
    pose proof (gather_results net user_members self m) as Hres.
    destruct (ConnectionManager.gather net self user_members m)
      as [s results]. cbn [snd] in Hres. subst results.
    rewrite (collect_counts user_members user_members 0 [] 0 eq_refl).
    cbn [snd]. f_equal. apply some_live_count.
  - unfold ConnectionManager.send_to_user. by rewrite Eu.
Qed.

End UserScope.

Lemma broadcast_to_room_fans_out_witness :
  let self' :=
    (ConnectionManager.broadcast_to_room second_broken two_clients "default"
       ping_frame (Some [1])).1 in
  registered self' 2
  ↔ registered two_clients 2 ∧ ¬ failing second_broken [2] 2.
Proof.
  cbn zeta.
  destruct (broadcast_to_room_fans_out second_broken two_clients "default"
              ping_frame (Some [1]) [1; 2] eq_refl) as (_ & Hreg & _).
  exact (Hreg 2).
Defined.

(** ** Invariants of the registry's bookkeeping *)





Lemma join_room_stats_sent (self : ConnectionManager.t) (ws : conn)
    (room : dict_key) :
  Stats.messages_sent
    (ConnectionManager.stats (ConnectionManager._join_room self ws room))
  = Stats.messages_sent (ConnectionManager.stats self)
  ∧ ConnectionManager.wire (ConnectionManager._join_room self ws room)
    = ConnectionManager.wire self.
Proof.
  unfold ConnectionManager._join_room. by destruct (_ !! room).
Qed.

(** A property of the registry that the steps of its operations keep
    holds in every state the registry reaches. *)
Lemma reachable_invariant (P : ConnectionManager.t → Prop) :
  P ConnectionManager.init →
  (∀ a ws m, P a → P (ConnectionManager.delivered a ws m)) →
  (∀ a, P a →
        P (ConnectionManager.with_stats a
             (ConnectionManager.count_failed (ConnectionManager.stats a)))) →
  (∀ a ws, P a → P (ConnectionManager.disconnect a ws)) →
  (∀ a ws user room, P a →
     P (ConnectionManager.connect_bookkeeping a ws user room)) →
  (∀ a ws room, P a → P (ConnectionManager.change_room a ws room).1) →
  ∀ self, reachable self → P self.
Proof.
  intros Hinit Hdel Hfail Hdis Hbk Hch.
  assert (∀ net a ws m, P a →
            P (ConnectionManager.send_personal_message net a ws m).1)
    as Hspm.
  { intros net a ws m Ha. unfold ConnectionManager.send_personal_message.
    destruct (net ws); cbn [fst]; auto. }
  assert (∀ net tasks a m, P a → P (ConnectionManager.gather net a tasks m).1)
    as Hgather.
  { intros net tasks. induction tasks as [|ws rest IH]; intros a m Ha;
      [done|].
    rewrite gather_cons. cbn [fst]. apply IH.
    unfold ConnectionManager._send_with_error_handling.
    destruct (net ws); cbn [fst]; auto. }
  assert (∀ failed a, P a → P (ConnectionManager.disconnect_all a failed))
    as Hall.
  { induction failed as [|ws rest IH]; intros a Ha; [done|].
    cbn. apply IH, Hdis, Ha. }
  induction 1 as [ | net self ws user room _ IH
                   | self ws new_room _ IH
                   | self ws _ IH
                   | net self ws m _ IH
                   | net self m exclude _ IH
                   | net self room m exclude _ IH
                   | net self user m _ IH ].
  - done.
  - unfold ConnectionManager.connect. by apply Hspm, Hbk.
  - by apply Hch.
  - by apply Hdis.
  - by apply Hspm.
  - unfold ConnectionManager.broadcast.
    destruct (ConnectionManager.active_connections self); [done|].
    match goal with
    | |- context [ConnectionManager.gather net self ?t ?m] =>
        pose proof (Hgather net t self m IH) as Hg;
        destruct (ConnectionManager.gather net self t m) as [s results]
    end.
    cbn [fst] in Hg.
    destruct (ConnectionManager.collect _ _ _ _ _) as [[failed cnt]|e];
      cbn [fst]; [by apply Hall|done].
  - unfold ConnectionManager.broadcast_to_room.
    destruct (ConnectionManager.room_connections self !! room); [|done].
    destruct (list_difference _ _) as [|c cs] eqn:El; [done|].
    pose proof (Hgather net (c :: cs) self m IH) as Hg.
    destruct (ConnectionManager.gather net self (c :: cs) m)
      as [s results].
    cbn [fst] in Hg.
    destruct (ConnectionManager.collect _ _ _ _ _) as [[failed cnt]|e];
      cbn [fst]; [by apply Hall|done].
  - unfold ConnectionManager.send_to_user.
    destruct (ConnectionManager.user_connections self !! user) as [l|];
      [|done].
    pose proof (Hgather net l self m IH) as Hg.
    destruct (ConnectionManager.gather net self l m) as [s results].
    cbn [fst] in Hg.
    destruct (ConnectionManager.collect _ _ _ _ _) as [[failed cnt]|e];
      cbn [fst]; [by apply Hall|done].
Qed.


(** X9. The [messages_sent] statistic tells the truth: in every state
    the registry reaches it equals the number of frames that were
    actually delivered to a socket. *)
Theorem sent_counter_counts_deliveries (self : ConnectionManager.t) :
  reachable self → sent_is_counted self.
Proof.
  revert self. apply reachable_invariant; unfold sent_is_counted.
  - done.
  - intros a ws m Ha. cbn. rewrite length_app, Ha. cbn. lia.
  - done.
  - intros a ws Ha. rewrite disconnect_wire, <- Ha.
    unfold ConnectionManager.disconnect.
    by destruct (named _), (nonempty _).
  - intros a ws user room Ha. rewrite bookkeeping_wire, <- Ha.
    unfold ConnectionManager.connect_bookkeeping,
      ConnectionManager._join_room, ConnectionManager._associate_user.
    destruct (nonempty room), (nonempty user); cbn;
      repeat (destruct (_ !! _); cbn); done.
  - intros a ws room Ha. rewrite change_room_wire, <- Ha.
    unfold ConnectionManager.change_room, ConnectionManager._join_room.
    destruct (named _), (hash room) as [k|e]; cbn; try done;
      by destruct (_ !! k).
Qed.

Lemma two_clients_reachable : reachable two_clients.
Proof.
  unfold two_clients. apply reach_connect, reach_connect, reach_init.
Qed.

Lemma two_clients_consistent : consistent two_clients.
Proof.
  unfold two_clients. apply connect_consistent.
  - apply connect_consistent; [apply init_consistent|].
    unfold registered. cbn. rewrite lookup_empty. by intros [? ?].
  - unfold registered. vm_compute. by intros [? ?].
Qed.


Lemma sent_counter_counts_deliveries_witness :
  sent_is_counted
    (ConnectionManager.broadcast second_broken two_clients ping_frame None).1.
Proof.
  apply sent_counter_counts_deliveries.
  apply reach_broadcast, two_clients_reachable.
Defined.

(** ** The service's life cycle *)

(** Whatever a connection attempt meets, [_connect] leaves the attempt
    counter as it is or sets it to zero. *)
Lemma connect_within_cap (self : MQTTService.t) (a : attempt) :
  within_cap self → within_cap (MQTTService._connect self a).1.1.
Proof.
  unfold within_cap, MQTTService._connect. intros Hc.
  case_decide; [done|].
  destruct (if MQTTService.is_connected self then _ else _) as [delay|];
    [|done].
  case_decide; cbn; [lia|done].
Qed.

Lemma reconnect_within_cap (self : MQTTService.t) (a : attempt) :
  within_cap self → within_cap (MQTTService._reconnect self a).1.
Proof.
  intros Hc. unfold MQTTService._reconnect.
  destruct (_ && _); [|done].
  pose proof (connect_within_cap self a Hc) as H.
  by destruct (MQTTService._connect self a) as [[s ev] r].
Qed.

Lemma message_loop_within_cap (attempts : list attempt)
    (self : MQTTService.t) :
  within_cap self → within_cap (MQTTService._message_loop self attempts).1.
Proof.
  revert self.
  induction attempts as [|a rest IH]; intros self Hc; [done|].
  cbn [MQTTService._message_loop].
  destruct (MQTTService.is_running self) eqn:Er; [|done].
  assert (within_cap (MQTTService._message_loop_turn self a).1) as Hturn.
  { unfold MQTTService._message_loop_turn.
    destruct (_ && _); [|done].
    pose proof (reconnect_within_cap self a Hc) as H.
    by destruct (MQTTService._reconnect self a) as [s ev]. }
  destruct (MQTTService._message_loop_turn self a) as [s ev].
  specialize (IH s Hturn).
  destruct (MQTTService._message_loop s rest) as [s' ev']. done.
Qed.

(** X10. The attempt counter never passes the configured maximum of
    ten: the disconnect callback, the connect callback, a reconnect, any
    number of turns of the message loop, [start] and [stop] all keep it
    within the maximum once it is there. *)
Theorem attempts_stay_within_cap (self : MQTTService.t) :
  within_cap self →
  (∀ rc, within_cap (MQTTService._on_disconnect self rc).1)
  ∧ (∀ rc, within_cap (Lifecycle._on_connect self rc))
  ∧ (∀ a, within_cap (MQTTService._reconnect self a).1)
  ∧ (∀ attempts, within_cap (MQTTService._message_loop self attempts).1)
  ∧ (∀ a, within_cap (Lifecycle.start self a).1.1)
  ∧ within_cap (Lifecycle.stop self).
Proof.
  intros Hc. split; [|split; [|split; [|split; [|split]]]].
  - intros rc. unfold within_cap in *. unfold MQTTService._on_disconnect.
    case_decide; [|done]. cbn.
    destruct (MQTTService.is_running self); cbn; [|done].
    case_bool_decide; cbn; [|done].
    unfold MQTTService.max_reconnect_attempts in *. lia.
  - done.
  - intros a. by apply reconnect_within_cap.
  - intros attempts. by apply message_loop_within_cap.
  - intros a. unfold Lifecycle.start.
    destruct (MQTTService.is_running self); [done|].
    pose proof (connect_within_cap (Lifecycle.with_running self true) a Hc)
      as H.
    by destruct (MQTTService._connect _ a) as [[s ev] [|e]].
  - unfold within_cap, Lifecycle.stop.
    by destruct (MQTTService.is_running self).
Qed.

Lemma attempts_stay_within_cap_witness :
  within_cap (MQTTService._on_disconnect capped 1).1
  ∧ within_cap
      (MQTTService._message_loop capped [silent; answered 2; refused]).1.
Proof.
  assert (within_cap capped) as Hc.
  { unfold within_cap, MQTTService.max_reconnect_attempts. cbn. lia. }
  destruct (attempts_stay_within_cap capped Hc) as (H1 & _ & _ & H4 & _).
  split; [apply H1|apply H4].
Defined.



(** X12. While the service is connected the message loop does nothing
    but sleep: every turn is one second of sleep, no connection is
    requested, and the service state does not change. *)
Theorem connected_loop_only_sleeps (self : MQTTService.t)
    (attempts : list attempt) :
  MQTTService.is_connected self = true →
  MQTTService.is_running self = true →
  MQTTService._message_loop self attempts
  = (self, replicate (length attempts) (Sleep 1))
  ∧ connect_requests (MQTTService._message_loop self attempts).2 = 0.
Proof.
  intros Hconn Hrun.
  assert (MQTTService._message_loop self attempts
          = (self, replicate (length attempts) (Sleep 1))) as Hloop.
  { induction attempts as [|a rest IH]; [done|].
    cbn [MQTTService._message_loop]. rewrite Hrun.
    unfold MQTTService._message_loop_turn. rewrite Hconn. cbn [negb andb].
    by rewrite IH. }
  split; [exact Hloop|]. rewrite Hloop. cbn [snd]. clear Hloop.
  unfold connect_requests. induction (length attempts) as [|n IH]; [done|].
  cbn [replicate]. by rewrite filter_cons, decide_False.
Qed.

Lemma connected_loop_only_sleeps_witness :
  MQTTService._message_loop (service_of []) [answered 0; silent; refused]
  = (service_of [], [Sleep 1; Sleep 1; Sleep 1]).
Proof.
  exact (proj1 (connected_loop_only_sleeps (service_of [])
                  [answered 0; silent; refused] eq_refl eq_refl)).
Defined.

(** X13. [stop] ends all reconnecting.  After [stop] both flags are
    cleared; the message loop ends at once without a single event; a
    disconnect callback schedules nothing; a reconnect task that was
    already scheduled only sleeps and requests no connection; and a
    second [stop] changes nothing. *)
Theorem stop_ends_reconnecting (self : MQTTService.t) :
  let stopped := Lifecycle.stop self in
  (MQTTService.is_running self = true →
   MQTTService.is_running stopped = false
   ∧ MQTTService.is_connected stopped = false)
  ∧ (MQTTService.is_running stopped = false →
     (∀ attempts,
        MQTTService._message_loop stopped attempts = (stopped, []))
     ∧ (∀ rc, (MQTTService._on_disconnect stopped rc).2 = [])
     ∧ (∀ a, (MQTTService._reconnect stopped a).2 = [Sleep 5]
             ∧ MQTTService.is_connected (MQTTService._reconnect stopped a).1
               = MQTTService.is_connected stopped))
  ∧ MQTTService.is_running stopped = false
  ∧ Lifecycle.stop stopped = stopped.
Proof.
  cbn zeta. split; [|split; [|split]].
  - intros Hrun. unfold Lifecycle.stop. by rewrite Hrun.
  - intros Hoff. split; [|split].
    + intros [|a rest]; [done|]. cbn. by rewrite Hoff.
    + intros rc. unfold MQTTService._on_disconnect.
      case_decide; [|done]. cbn. by rewrite Hoff.
    + intros a. unfold MQTTService._reconnect. by rewrite Hoff.
  - unfold Lifecycle.stop.
    by destruct (MQTTService.is_running self) eqn:E.
  - unfold Lifecycle.stop at 1.
    assert (MQTTService.is_running (Lifecycle.stop self) = false) as ->;
      [|done].
    unfold Lifecycle.stop. by destruct (MQTTService.is_running self) eqn:E.
Qed.

Lemma stop_ends_reconnecting_witness :
  MQTTService._message_loop (Lifecycle.stop capped) [silent; answered 1]
  = (Lifecycle.stop capped, [])
  ∧ MQTTService.is_connected (Lifecycle.stop (service_of [])) = false.
Proof.
  pose proof (stop_ends_reconnecting capped) as (_ & Hoff & Hstopped & _).
  pose proof (stop_ends_reconnecting (service_of [])) as (Hon & _).
  split.
  - exact (proj1 (Hoff Hstopped) [silent; answered 1]).
  - exact (proj2 (Hon eq_refl)).
Defined.

(** ** Message handling *)

Section Messages.

Variable net : conn → socket.
Variable now : Z.
Variable fromisoformat : string → option Z.
Variable fromtimestamp : Q → option Z.
Variable str : json → string.

Lemma only_clients_refl (self : MQTTService.t) : only_clients self self.
Proof. by repeat split. Qed.

Lemma only_clients_trans (a b c : MQTTService.t) :
  only_clients a b → only_clients b c → only_clients a c.
Proof.
  unfold only_clients. intros H K.
  destruct H as (H1 & H2 & H3 & H4 & H5 & H6 & H7 & H8).
  destruct K as (K1 & K2 & K3 & K4 & K5 & K6 & K7 & K8).
  repeat split; congruence.
Qed.

Lemma broadcast_only_clients (self : MQTTService.t) (m : json) :
  only_clients self (MQTTService.broadcast net self m).1.
Proof.
  unfold MQTTService.broadcast.
  destruct (ConnectionManager.broadcast _ _ _ _). by repeat split.
Qed.

Lemma handle_alarms_only_clients (alarms : list Sensor.alarm)
    (self : MQTTService.t) :
  only_clients self (MQTTService._handle_alarms net self alarms).
Proof.
  revert self. induction alarms as [|a rest IH]; intros self.
  - apply only_clients_refl.
  - cbn [MQTTService._handle_alarms].
    pose proof (broadcast_only_clients self
      (JDict [("type", JStr "alarm"); ("data", MQTTService.alarm_json a)]))
      as Hb.
    destruct (MQTTService.broadcast net self _) as [s r]. cbn [fst] in Hb.
    destruct r; [|done]. by apply (only_clients_trans _ s).
Qed.

Lemma handle_sensor_data_stats (self : MQTTService.t) (topic : string)
    (data : json) :
  MQTTService.stats
    (MQTTService._handle_sensor_data net now fromisoformat fromtimestamp str
       self topic data)
  = MQTTService.stats self.
Proof.
  unfold MQTTService._handle_sensor_data.
  destruct (topic_device_id topic) as [device_id|]; [|done].
  destruct (MQTTService.find_sensor _ _) as [sensor|]; [|done].
  destruct (py_get data "value" JNull) as [value|]; [|done].
  destruct (is_none value); [done|].
  match goal with
  | |- context [MQTTService._write_to_influxdb ?f ?s0 ?x0 ?v0 ?t0 ?q0] =>
      destruct (write_to_influxdb_others f s0 x0 v0 t0 q0)
        as (_ & _ & _ & Hw & _);
      set (w := MQTTService._write_to_influxdb f s0 x0 v0 t0 q0) in *
  end.
  cbn [MQTTService.stats MQTTService.with_sensors] in Hw.
  unfold MQTTService._broadcast_sensor_data.
  destruct (as_number value) as [number|].
  - destruct (py_float number) as [number'|]; [|exact Hw].
    destruct (Sensor.check_alarm_conditions _ _) as [alarms|]; [|exact Hw].
    match goal with
    | |- MQTTService.stats (MQTTService.broadcast net ?s ?m).1 = _ =>
        destruct (broadcast_only_clients s m) as (_ & _ & _ & -> & _)
    end.
    destruct alarms as [|a rest]; [exact Hw|].
    match goal with
    | |- MQTTService.stats (MQTTService._handle_alarms net ?s ?l) = _ =>
        destruct (handle_alarms_only_clients l s) as (_ & _ & _ & -> & _)
    end.
    exact Hw.
  - match goal with
    | |- MQTTService.stats (MQTTService.broadcast net ?s ?m).1 = _ =>
        destruct (broadcast_only_clients s m) as (_ & _ & _ & -> & _)
    end.
    exact Hw.
Qed.

Lemma process_message_stats (self : MQTTService.t) (topic : string)
    (body : payload) :
  MQTTService.stats
    (MQTTService._process_message net now fromisoformat fromtimestamp str
       self topic body)
  = match body with
    | Loaded _ => MQTTService.count_processed (MQTTService.stats self)
    | _ => MQTTService.count_failed (MQTTService.stats self)
    end.
Proof.
  unfold MQTTService._process_message.
  destruct body as [| |data]; [done|done|].
  cbn [MQTTService.stats MQTTService.with_stats]. f_equal.
  destruct (contains "/data" topic); [apply handle_sensor_data_stats|].
  destruct (contains "/status" topic).
  { unfold MQTTService._handle_status_message.
    destruct (topic_device_id topic); [|done].
    destruct (py_get data "status" _); [|done].
    destruct (contains "sensors" topic).
    - destruct (MQTTService.find_sensor _ _); [|done].
      match goal with
      | |- MQTTService.stats (MQTTService.broadcast net ?s ?m).1 = _ =>
          destruct (broadcast_only_clients s m) as (_ & _ & _ & -> & _)
      end.
      done.
    - destruct (contains "gateways" topic); [|done].
      destruct (MQTTService.find_gateway _ _); [|done].
      match goal with
      | |- MQTTService.stats (MQTTService.broadcast net ?s ?m).1 = _ =>
          destruct (broadcast_only_clients s m) as (_ & _ & _ & -> & _)
      end.
      done. }
  destruct (contains "/heartbeat" topic).
  { unfold MQTTService._handle_heartbeat.
    destruct (topic_device_id topic); [|done].
    destruct (MQTTService.find_gateway _ _); [|done].
    by destruct (match data with JDict d => _ | _ => _ end). }
  destruct (contains "/alert" topic); [|done].
  unfold MQTTService._handle_alert.
  match goal with
  | |- MQTTService.stats (MQTTService.broadcast net ?s ?m).1 = _ =>
      destruct (broadcast_only_clients s m) as (_ & _ & _ & -> & _)
  end.
  done.
Qed.

(** X14. Every frame is counted exactly once.  Whatever the frames are
    and whatever their handlers do, after a sequence of frames the
    counter of received messages has grown by their number, the counter
    of processed messages by the number of frames that were handed to
    the event loop and whose payload could be decoded and parsed, and
    the counter of failed messages by the number of all the others (the
    hand-over raised, or the payload could not be read); so received
    stays the sum of processed and failed. *)
Theorem every_frame_is_counted_once (frames : list frame)
    (self : MQTTService.t) :
  let self' := receive_all net now fromisoformat fromtimestamp str self frames in
  let good := filter processable frames in
  MStats.messages_received (MQTTService.stats self')
  = MStats.messages_received (MQTTService.stats self) + length frames
  ∧ MStats.messages_processed (MQTTService.stats self')
    = MStats.messages_processed (MQTTService.stats self) + length good
  ∧ MStats.messages_failed (MQTTService.stats self')
    = MStats.messages_failed (MQTTService.stats self)
      + (length frames - length good)
  ∧ (counters_add_up self → counters_add_up self').
Proof.
  cbn zeta.
  assert (∀ l : list frame,
            length (filter processable l) ≤ length l) as Hle.
  { intros l. apply length_filter. }
  assert (MStats.messages_received
            (MQTTService.stats
               (receive_all net now fromisoformat fromtimestamp str self frames))
          = MStats.messages_received (MQTTService.stats self) + length frames
          ∧ MStats.messages_processed
              (MQTTService.stats
                 (receive_all net now fromisoformat fromtimestamp str self frames))
            = MStats.messages_processed (MQTTService.stats self)
              + length (filter processable frames)
          ∧ MStats.messages_failed
              (MQTTService.stats
                 (receive_all net now fromisoformat fromtimestamp str self frames))
            = MStats.messages_failed (MQTTService.stats self)
              + (length frames
                 - length (filter processable frames))) as H.
  { revert self.
    induction frames as [|[[scheduled topic] body] rest IH]; intros self.
    - cbn. lia.
    - cbn [receive_all foldl fst snd].
      fold (receive_all net now fromisoformat fromtimestamp str
              (MQTTService._on_message net now fromisoformat fromtimestamp str
                 self scheduled topic body) rest).
      destruct (IH (MQTTService._on_message net now fromisoformat
                      fromtimestamp str self scheduled topic body))
        as (H1 & H2 & H3).
      rewrite H1, H2, H3. unfold MQTTService._on_message.
      rewrite filter_cons. specialize (Hle rest).
      destruct scheduled.
      + rewrite process_message_stats.
        destruct body as [| |data]; cbn [snd].
        * case_decide as Hp; [by destruct Hp|]. cbn. lia.
        * case_decide as Hp; [by destruct Hp|]. cbn. lia.
        * case_decide as Hp; [|by destruct Hp]. cbn. lia.
      + case_decide as Hp; [by destruct Hp|]. cbn. lia. }
  destruct H as (H1 & H2 & H3). split; [done|]. split; [done|].
  split; [done|]. unfold counters_add_up. rewrite H1, H2, H3.
  specialize (Hle frames). lia.
Qed.

End Messages.

Lemma every_frame_is_counted_once_witness :
  counters_add_up
    (receive_all all_live 0 no_iso no_epoch decimal (service_of [sensor_with []])
       [(true, "sensors/dev-1/data", Loaded (JDict [("value", JNum 3)]));
        (true, "sensors/dev-1/data", JSONDecodeError);
        (false, "sensors/dev-1/data", Loaded (JDict [("value", JNum 4)]));
        (true, "system/x/alert", Loaded (JDict []))]).
Proof.
  refine (proj2 (proj2 (proj2 (every_frame_is_counted_once all_live 0%Z
                                 no_iso no_epoch decimal _ _))) _).
  reflexivity.
Defined.

Section Readings.

Variable net : conn → socket.
Variable now : Z.
Variable fromisoformat : string → option Z.
Variable fromtimestamp : Q → option Z.
Variable str : json → string.

Lemma find_sensor_device (table : list Sensor.t) (d : string)
    (sensor : Sensor.t) :
  MQTTService.find_sensor table d = Some sensor →
  Sensor.device_id sensor = d.
Proof.
  unfold MQTTService.find_sensor. intros H.
  apply head_Some_elem_of in H. by apply list_elem_of_filter in H as [? _].
Qed.

Lemma find_commit_sensor (table : list Sensor.t) (d : string)
    (sensor stored : Sensor.t) :
  MQTTService.find_sensor table d = Some sensor →
  Sensor.id stored = Sensor.id sensor →
  Sensor.device_id stored = d →
  MQTTService.find_sensor (MQTTService.commit_sensor table stored) d
  = Some stored.
Proof.
  unfold MQTTService.find_sensor, MQTTService.commit_sensor.
  intros Hf Hid Hdev. induction table as [|s rest IH]; [done|].
  rewrite filter_cons in Hf. cbn [map]. rewrite filter_cons.
  destruct (decide (Sensor.device_id s = d)) as [Hs|Hs].
  - cbn in Hf. injection Hf as ->.
    rewrite (decide_True (P := Sensor.id sensor = Sensor.id stored))
      by done.
    by rewrite decide_True.
  - destruct (decide (Sensor.id s = Sensor.id stored)).
    + by rewrite decide_True.
    + rewrite decide_False by done. by apply IH.
Qed.

(** Up to the cache write the handler has touched the three stores and
    nothing else; what follows only talks to the clients. *)
Lemma handle_sensor_data_known (self : MQTTService.t) (topic d : string)
    (fields : list (string * json)) (sensor : Sensor.t) (value : json) :
  topic_device_id topic = Ok d →
  MQTTService.find_sensor (MQTTService.sensors self) d = Some sensor →
  assoc "value" fields = Some value →
  is_none value = false →
  let dt :=
    MQTTService.reading_time now fromisoformat fromtimestamp
      (default JNull (assoc "timestamp" fields)) in
  let stored := stored_reading str sensor value in
  let written :=
    MQTTService._cache_sensor_data
      (MQTTService._write_to_influxdb str
         (MQTTService.with_sensors self
            (MQTTService.commit_sensor (MQTTService.sensors self) stored))
         stored value dt (default (JStr "good") (assoc "quality" fields)))
      stored value dt in
  MQTTService._handle_sensor_data net now fromisoformat fromtimestamp str
    self topic (JDict fields)
  = match as_number value with
    | Some number =>
        match py_float number with
        | Raise _ => written
        | Ok number =>
            match Sensor.check_alarm_conditions stored number with
            | Raise _ => written
            | Ok alarms =>
                MQTTService._broadcast_sensor_data net
                  match alarms with
                  | [] => written
                  | _ => MQTTService._handle_alarms net written alarms
                  end stored value dt
            end
        end
    | None => MQTTService._broadcast_sensor_data net written stored value dt
    end.
Proof.
  intros Ht Hf Hv Hn. cbn zeta. unfold MQTTService._handle_sensor_data.
  rewrite Ht, Hf. cbn [py_get data_get]. rewrite Hv.
  cbn [default from_option id]. rewrite Hn. reflexivity.
Qed.

(** A whole number of at most 53 bits is a double: [float] returns it. *)
Lemma py_float_exact (n : Z) :
  (Z.abs n < 2 ^ 53)%Z → py_float (inject_Z n) = Ok (inject_Z n).
Proof.
  intros Hn. unfold py_float, inject_Z.
  assert (Qred (n # 1)%Q = (n # 1)%Q) as ->.
  { unfold Qred.
    pose proof (Z.ggcd_gcd n 1) as Hg.
    pose proof (Z.ggcd_correct_divisors n 1) as Hd.
    destruct (Z.ggcd n 1) as [g [aa bb]]. cbn [fst snd] in *.
    rewrite Z.gcd_1_r in Hg. subst g. destruct Hd as [Ha Hb].
    rewrite !Z.mul_1_l in *. subst aa. subst bb. reflexivity. }
  cbn [Qnum Qden]. rewrite Pos.eqb_refl.
  unfold float_of_int.
  destruct (Z.abs n <? 2 ^ 53)%Z eqn:E; [reflexivity|].
  apply Z.ltb_ge in E. lia.
Qed.

(** X15. A reading of a known device is written to each store at most
    once, whatever happens to the alarms and the clients afterwards.
    The row found for the device next has one more data point, the text
    [str(value)] as its last value and the status online.  The cache
    holds the reading, with the value as it came, as the latest value
    for an hour and at the head of the device's history, cut to a hundred
    entries.  The time series gets exactly one more point, with the time
    of the reading and the quality (["good"] when none is given): its
    field is the text of the value when the value is not a number, and
    [float(value)] when it is, which is the value itself up to 53 bits,
    [2 ^ 53] for [2 ^ 53 + 1], and which raises for [10 ^ 400]; when it
    raises, no point is written.  The gateways are not touched. *)
Theorem reading_is_persisted (self : MQTTService.t) (topic d : string)
    (fields : list (string * json)) (sensor : Sensor.t) (value : json) :
  topic_device_id topic = Ok d →
  MQTTService.find_sensor (MQTTService.sensors self) d = Some sensor →
  assoc "value" fields = Some value →
  is_none value = false →
  let self' :=
    MQTTService._handle_sensor_data net now fromisoformat fromtimestamp str
      self topic (JDict fields) in
  let dt :=
    MQTTService.reading_time now fromisoformat fromtimestamp
      (default JNull (assoc "timestamp" fields)) in
  let entry :=
    {| cd_value := value; cd_timestamp := dt;
       cd_sensor_id := Sensor.id sensor; cd_device_id := d |} in
  let written (field : json) :=
    ∃ p, MQTTService.influx self' = MQTTService.influx self ++ [p]
         ∧ tag_device_id p = d ∧ field_value p = field ∧ time p = dt
         ∧ field_quality p = default (JStr "good") (assoc "quality" fields) in
  (∃ row, MQTTService.find_sensor (MQTTService.sensors self') d = Some row
          ∧ Sensor.data_points_count row
            = (Sensor.data_points_count sensor + 1)%Z
          ∧ Sensor.last_value row = Some (py_str str value)
          ∧ Sensor.status row = JStr "online"
          ∧ Sensor.alarm_rules row = Sensor.alarm_rules sensor)
  ∧ (as_number value = None → written (JStr (py_str str value)))
  ∧ (∀ number f, as_number value = Some number → py_float number = Ok f →
       written (JNum f))
  ∧ (∀ number e, as_number value = Some number → py_float number = Raise e →
       MQTTService.influx self' = MQTTService.influx self)
  ∧ (∀ n : Z, (Z.abs n < 2 ^ 53)%Z →
       py_float (inject_Z n) = Ok (inject_Z n))
  ∧ py_float (inject_Z (2 ^ 53 + 1)) = Ok (inject_Z (2 ^ 53))
  ∧ py_float (inject_Z (10 ^ 400)) = Raise OverflowError
  ∧ Redis.latest (MQTTService.redis self') !! Sensor.id sensor
    = Some (entry, 3600%N)
  ∧ Redis.items (MQTTService.redis self') (Sensor.id sensor)
    = take 100 (entry :: Redis.items (MQTTService.redis self)
                           (Sensor.id sensor))
  ∧ MQTTService.gateways self' = MQTTService.gateways self.
Proof.
  intros Ht Hf Hv Hn self' dt entry written.
  pose proof (find_sensor_device _ _ _ Hf) as Hdev.
  pose proof (handle_sensor_data_known self topic d fields sensor value
                Ht Hf Hv Hn) as Hk. cbn zeta in Hk. fold dt in Hk.
  set (stored := stored_reading str sensor value) in *.
  set (quality := default (JStr "good") (assoc "quality" fields)) in *.
  set (committed := MQTTService.with_sensors self _) in Hk.
  set (pointed := MQTTService._write_to_influxdb str committed stored value
                    dt quality) in Hk.
  set (cached := MQTTService._cache_sensor_data pointed stored value dt)
    in Hk.
  assert (only_clients cached self') as Hoc.
  { unfold self'. rewrite Hk. unfold MQTTService._broadcast_sensor_data.
    destruct (as_number value) as [number|].
    - destruct (py_float number) as [f|]; [|apply only_clients_refl].
      destruct (Sensor.check_alarm_conditions _ _) as [alarms|];
        [|apply only_clients_refl].
      eapply only_clients_trans; [|apply broadcast_only_clients].
      destruct alarms; [apply only_clients_refl|].
      apply handle_alarms_only_clients.
    - apply broadcast_only_clients. }
  destruct Hoc as (_ & _ & _ & _ & Hs & Hg & Hi & Hr).
  destruct (write_to_influxdb_others str committed stored value dt quality)
    as (_ & _ & _ & _ & _ & Hps & Hpg & Hpr). fold pointed in Hps, Hpg, Hpr.
  assert (∀ field,
            (match as_number value with
             | Some number =>
                 match py_float number with
                 | Ok f => Ok (JNum f)
                 | Raise e => Raise e
                 end
             | None => Ok (JStr (py_str str value))
             end) = Ok field →
            written field) as Hfield.
  { intros field Hfd. unfold written. rewrite Hi.
    change (MQTTService.influx cached) with (MQTTService.influx pointed).
    unfold pointed, MQTTService._write_to_influxdb. rewrite Hfd.
    eexists. split; [reflexivity|]. cbn. by rewrite Hdev. }
  split; [|split; [|split; [|split; [|split; [|split; [|split;
    [|split; [|split]]]]]]]].
  - exists stored. split; [|done]. rewrite Hs.
    change (MQTTService.sensors cached) with (MQTTService.sensors pointed).
    rewrite Hps. cbn. by apply (find_commit_sensor _ _ sensor).
  - intros Hnum. apply Hfield. by rewrite Hnum.
  - intros number f Hnum Hfl. apply Hfield. by rewrite Hnum, Hfl.
  - intros number e Hnum Hfl. rewrite Hi.
    change (MQTTService.influx cached) with (MQTTService.influx pointed).
    unfold pointed, MQTTService._write_to_influxdb. by rewrite Hnum, Hfl.
  - apply py_float_exact.
  - by vm_compute.
  - by vm_compute.
  - rewrite Hr. unfold cached, MQTTService._cache_sensor_data.
    cbn [MQTTService.redis MQTTService.with_redis].
    unfold Redis.expire, Redis.ltrim, Redis.lpush.
    cbn [Redis.series Redis.latest Redis.setex].
    destruct (default ([], None) _) as [old ttl].
    cbn [Redis.series Redis.latest]. rewrite lookup_insert_eq.
    cbn [Redis.latest drop take Nat.sub]. rewrite lookup_insert_eq.
    unfold entry. by rewrite <- Hdev.
  - rewrite Hr. unfold cached. rewrite cache_sensor_data_items.
    rewrite decide_True by done. rewrite Hpr. unfold entry. cbn.
    by rewrite <- Hdev.
  - rewrite Hg.
    change (MQTTService.gateways cached) with (MQTTService.gateways pointed).
    by rewrite Hpg.
Qed.




(** X17. A number that [float] rejects, or an alarm rule that cannot be
    evaluated, costs the clients the reading.  In both cases the reading
    has been written to the cache, and no frame at all is sent: neither
    an alarm nor the [sensor_data] frame, and no connection is touched.
    When it is the rules that raise, the time series has its point; when
    it is [float], the time series has no point either. *)
Theorem failing_rule_suppresses_broadcast (self : MQTTService.t)
    (topic d : string) (fields : list (string * json)) (sensor : Sensor.t)
    (value : json) (number : Q) :
  topic_device_id topic = Ok d →
  MQTTService.find_sensor (MQTTService.sensors self) d = Some sensor →
  assoc "value" fields = Some value →
  as_number value = Some number →
  let self' :=
    MQTTService._handle_sensor_data net now fromisoformat fromtimestamp str
      self topic (JDict fields) in
  let cached :=
    ∃ entry rest,
      Redis.items (MQTTService.redis self') (Sensor.id sensor)
      = entry :: rest ∧ cd_value entry = value in
  (∀ f e,
     py_float number = Ok f →
     Sensor.check_alarm_conditions (stored_reading str sensor value) f
     = Raise e →
     MQTTService.websocket_service self' = MQTTService.websocket_service self
     ∧ length (MQTTService.influx self')
       = S (length (MQTTService.influx self))
     ∧ cached)
  ∧ (∀ e,
       py_float number = Raise e →
       MQTTService.websocket_service self'
       = MQTTService.websocket_service self
       ∧ MQTTService.influx self' = MQTTService.influx self
       ∧ cached).
Proof.
  intros Ht Hf Hv Hnum self' cached.
  assert (is_none value = false) as Hn by by destruct value.
  pose proof (handle_sensor_data_known self topic d fields sensor value
                Ht Hf Hv Hn) as Hk. cbn zeta in Hk.
  set (dt := MQTTService.reading_time _ _ _ _) in Hk.
  set (stored := stored_reading str sensor value) in *.
  set (quality := default (JStr "good") (assoc "quality" fields)) in *.
  set (committed := MQTTService.with_sensors self _) in Hk.
  destruct (write_to_influxdb_others str committed stored value dt quality)
    as (_ & _ & _ & _ & Hpw & _ & _ & Hpr).
  assert (∀ s, s = MQTTService._cache_sensor_data
                     (MQTTService._write_to_influxdb str committed stored
                        value dt quality) stored value dt →
               ∃ entry rest,
                 Redis.items (MQTTService.redis s) (Sensor.id sensor)
                 = entry :: rest ∧ cd_value entry = value) as Hcached.
  { intros s ->. rewrite cache_sensor_data_items.
    rewrite decide_True by done. cbn. eauto. }
  split.
  - intros f e Hfl Hraise. unfold cached, self'.
    rewrite Hk, Hnum, Hfl, Hraise.
    split; [exact Hpw|]. split; [|by apply Hcached].
    change (MQTTService.influx (MQTTService._cache_sensor_data ?s ?x ?v ?t))
      with (MQTTService.influx s).
    unfold MQTTService._write_to_influxdb. rewrite Hnum, Hfl.
    cbn. rewrite length_app. cbn. lia.
  - intros e Hfl. unfold cached, self'. rewrite Hk, Hnum, Hfl.
    split; [exact Hpw|]. split; [|by apply Hcached].
    change (MQTTService.influx (MQTTService._cache_sensor_data ?s ?x ?v ?t))
      with (MQTTService.influx s).
    unfold MQTTService._write_to_influxdb. by rewrite Hnum, Hfl.
Qed.

End Readings.

Lemma reading_is_persisted_witness :
  let self' :=
    MQTTService._handle_sensor_data all_live 0 no_iso no_epoch decimal
      (service_of [sensor_with []]) "sensors/dev-1/data"
      (JDict [("value", JNum 21)]) in
  (∃ row, MQTTService.find_sensor (MQTTService.sensors self') "dev-1"
          = Some row
          ∧ Sensor.data_points_count row
            = (Sensor.data_points_count (sensor_with []) + 1)%Z
          ∧ Sensor.last_value row = Some (py_str decimal (JNum 21))
          ∧ Sensor.status row = JStr "online"
          ∧ Sensor.alarm_rules row = Sensor.alarm_rules (sensor_with []))
  ∧ MQTTService.gateways self' = [].
Proof.
  cbn zeta.
  destruct (reading_is_persisted all_live 0%Z no_iso no_epoch decimal
              (service_of [sensor_with []]) "sensors/dev-1/data" "dev-1"
              [("value", JNum 21)] (sensor_with []) (JNum 21)
              eq_refl eq_refl eq_refl eq_refl)
    as (H1 & _ & _ & _ & _ & _ & _ & _ & _ & H10).
  split; [exact H1|exact H10].
Defined.


Lemma failing_rule_suppresses_broadcast_witness :
  let self :=
    MQTTService.with_websocket (service_of [sensor_with_text_rule])
      two_clients in
  let self' :=
    MQTTService._handle_sensor_data all_live 0 no_iso no_epoch decimal self
      "sensors/dev-1/data" (JDict [("value", JNum 40)]) in
  let self'' :=
    MQTTService._handle_sensor_data all_live 0 no_iso no_epoch decimal self
      "sensors/dev-1/data" (JDict [("value", JNum (inject_Z (10 ^ 400)))]) in
  (MQTTService.websocket_service self' = MQTTService.websocket_service self
   ∧ length (MQTTService.influx self')
     = S (length (MQTTService.influx self)))
  ∧ (MQTTService.websocket_service self''
     = MQTTService.websocket_service self
     ∧ MQTTService.influx self'' = MQTTService.influx self).
Proof.
  cbn zeta.
  destruct (failing_rule_suppresses_broadcast all_live 0%Z no_iso no_epoch
              decimal
              (MQTTService.with_websocket (service_of [sensor_with_text_rule])
                 two_clients)
              "sensors/dev-1/data" "dev-1" [("value", JNum 40)]
              sensor_with_text_rule (JNum 40) 40%Q
              eq_refl eq_refl eq_refl eq_refl) as [Hrule _].
  destruct (failing_rule_suppresses_broadcast all_live 0%Z no_iso no_epoch
              decimal
              (MQTTService.with_websocket (service_of [sensor_with_text_rule])
                 two_clients)
              "sensors/dev-1/data" "dev-1"
              [("value", JNum (inject_Z (10 ^ 400)))]
              sensor_with_text_rule (JNum (inject_Z (10 ^ 400)))
              (inject_Z (10 ^ 400))
              eq_refl eq_refl eq_refl eq_refl) as [_ Hfloat].
  assert (py_float 40 = Ok (inject_Z 40)) as H40 by (vm_compute; reflexivity).
  assert (Sensor.check_alarm_conditions
            (stored_reading decimal sensor_with_text_rule (JNum 40))
            (inject_Z 40) = Raise TypeError) as Hraise
    by (vm_compute; reflexivity).
  assert (py_float (inject_Z (10 ^ 400)) = Raise OverflowError) as Hover
    by (vm_compute; reflexivity).
  destruct (Hrule _ _ H40 Hraise) as (H1 & H2 & _).
  destruct (Hfloat _ Hover) as (K1 & K2 & _).
  split; split; assumption.
Defined.

Section OtherTopics.

Variable net : conn → socket.
Variable now : Z.
Variable fromisoformat : string → option Z.
Variable fromtimestamp : Q → option Z.
Variable str : json → string.

Lemma find_gateway_device (table : list Gateway.t) (d : string)
    (g : Gateway.t) :
  MQTTService.find_gateway table d = Some g → Gateway.device_id g = d.
Proof.
  unfold MQTTService.find_gateway. intros H.
  apply head_Some_elem_of in H. by apply list_elem_of_filter in H as [? _].
Qed.

Lemma find_commit_gateway (table : list Gateway.t) (d : string)
    (g stored : Gateway.t) :
  MQTTService.find_gateway table d = Some g →
  Gateway.id stored = Gateway.id g →
  Gateway.device_id stored = d →
  MQTTService.find_gateway (MQTTService.commit_gateway table stored) d
  = Some stored.
Proof.
  unfold MQTTService.find_gateway, MQTTService.commit_gateway.
  intros Hf Hid Hdev. induction table as [|s rest IH]; [done|].
  rewrite filter_cons in Hf. cbn [map]. rewrite filter_cons.
  destruct (decide (Gateway.device_id s = d)) as [Hs|Hs].
  - cbn in Hf. injection Hf as ->.
    rewrite (decide_True (P := Gateway.id g = Gateway.id stored)) by done.
    by rewrite decide_True.
  - destruct (decide (Gateway.id s = Gateway.id stored)).
    + by rewrite decide_True.
    + rewrite decide_False by done. by apply IH.
Qed.

(** X18. A heartbeat concerns the gateway's row and nothing else.  For
    a known gateway and a dictionary payload, the row found for the
    gateway afterwards is online, was last seen now, has the uptime of
    the payload when there is one and its old uptime otherwise, counts
    the sensors that belong to it, and never reports more active sensors
    than sensors.  No frame is sent to any client and no sensor row,
    time-series point or cache entry is written. *)
Theorem heartbeat_updates_gateway_only (self : MQTTService.t)
    (topic d : string) (fields : list (string * json)) (g : Gateway.t) :
  topic_device_id topic = Ok d →
  MQTTService.find_gateway (MQTTService.gateways self) d = Some g →
  let self' := MQTTService._handle_heartbeat now self topic (JDict fields) in
  (∃ row,
     MQTTService.find_gateway (MQTTService.gateways self') d = Some row
     ∧ Gateway.status row = JStr "online"
     ∧ Gateway.last_seen row = Some now
     ∧ Gateway.uptime row = default (Gateway.uptime g) (assoc "uptime" fields)
     ∧ Gateway.total_sensors row
       = length (filter (λ s, Sensor.gateway_id s = Gateway.id g)
                   (MQTTService.sensors self))
     ∧ Gateway.active_sensors row ≤ Gateway.total_sensors row)
  ∧ MQTTService.websocket_service self' = MQTTService.websocket_service self
  ∧ MQTTService.sensors self' = MQTTService.sensors self
  ∧ MQTTService.influx self' = MQTTService.influx self
  ∧ MQTTService.redis self' = MQTTService.redis self.
Proof.
  intros Ht Hf self'. unfold self', MQTTService._handle_heartbeat.
  rewrite Ht, Hf. cbn [MQTTService.gateways MQTTService.with_gateways].
  split; [|done].
  eexists. split.
  { apply (find_commit_gateway _ _ g); [done|done|].
    cbn. by apply (find_gateway_device (MQTTService.gateways self)). }
  cbn. split; [done|]. split; [done|]. split; [done|]. split; [done|].
  apply length_filter.
Qed.

(** X19. An alert is passed on as it came.  A message on a topic that
    contains [/alert] and none of [/data], [/status], [/heartbeat] is
    offered, wrapped in a frame of type [alert] with the payload
    unchanged, to every active connection: the live ones get it and
    exactly the ones whose socket raises are removed.  The stores are
    not touched and the message counts as processed. *)
Theorem alert_is_forwarded (self : MQTTService.t) (topic : string)
    (data : json) :
  contains "/data" topic = false →
  contains "/status" topic = false →
  contains "/heartbeat" topic = false →
  contains "/alert" topic = true →
  let self' :=
    MQTTService._process_message net now fromisoformat fromtimestamp str
      self topic (Loaded data) in
  fanned_out net
    (ConnectionManager.active_connections (MQTTService.websocket_service self))
    (JDict [("type", JStr "alert"); ("data", data)])
    (MQTTService.websocket_service self)
    (MQTTService.websocket_service self')
  ∧ MQTTService.sensors self' = MQTTService.sensors self
  ∧ MQTTService.gateways self' = MQTTService.gateways self
  ∧ MQTTService.influx self' = MQTTService.influx self
  ∧ MQTTService.redis self' = MQTTService.redis self
  ∧ MQTTService.stats self'
    = MQTTService.count_processed (MQTTService.stats self).
Proof.
  intros H1 H2 H3 H4 self'. unfold self', MQTTService._process_message.
  rewrite H1, H2, H3, H4. unfold MQTTService._handle_alert.
  pose proof (broadcast_only_clients net self
                (JDict [("type", JStr "alert"); ("data", data)]))
    as (_ & _ & _ & Hst & Hs & Hg & Hi & Hr).
  pose proof (broadcast_to_all_fans_out net
                (MQTTService.websocket_service self)
                (JDict [("type", JStr "alert"); ("data", data)])) as Hfan.
  cbn [MQTTService.sensors MQTTService.gateways MQTTService.influx
       MQTTService.redis MQTTService.stats MQTTService.websocket_service
       MQTTService.with_stats].
  rewrite Hs, Hg, Hi, Hr, Hst. split; [|done].
  unfold MQTTService.broadcast.
  by destruct (ConnectionManager.broadcast _ _ _ _).
Qed.

(** X20. A status message of a known sensor.  The row found for the
    device afterwards carries the reported status (["unknown"] when the
    payload has none); its error counter goes up by one, and the error
    is kept as the last error, exactly when the payload has a non-empty
    error; one [sensor_status] frame is offered to every active
    connection; and neither the time series nor the cache is written. *)
Theorem sensor_status_is_recorded (self : MQTTService.t) (topic d : string)
    (fields : list (string * json)) (sensor : Sensor.t) :
  topic_device_id topic = Ok d →
  contains "sensors" topic = true →
  MQTTService.find_sensor (MQTTService.sensors self) d = Some sensor →
  let self' :=
    MQTTService._handle_status_message net now self topic (JDict fields) in
  let status := default (JStr "unknown") (assoc "status" fields) in
  let error := default JNull (assoc "error" fields) in
  (∃ row,
     MQTTService.find_sensor (MQTTService.sensors self') d = Some row
     ∧ Sensor.status row = status
     ∧ Sensor.error_count row
       = (if truthy error then Sensor.error_count sensor + 1
          else Sensor.error_count sensor)%Z
     ∧ Sensor.last_error row
       = (if truthy error then Some error else Sensor.last_error sensor)
     ∧ Sensor.data_points_count row = Sensor.data_points_count sensor)
  ∧ (∃ status_frame,
       fanned_out net
         (ConnectionManager.active_connections
            (MQTTService.websocket_service self))
         status_frame
         (MQTTService.websocket_service self)
         (MQTTService.websocket_service self')
       ∧ frame_type status_frame = Some (JStr "sensor_status")
       ∧ data_get status_frame "status" = Some status)
  ∧ MQTTService.influx self' = MQTTService.influx self
  ∧ MQTTService.redis self' = MQTTService.redis self.
Proof.
  intros Ht Hs Hf self' status error.
  pose proof (find_sensor_device _ _ _ Hf) as Hdev.
  unfold self', MQTTService._handle_status_message.
  rewrite Ht. cbn [py_get mbind]. rewrite Hs, Hf. cbn [data_get].
  fold status. fold error.
  set (stored := Sensor.update_status sensor status error).
  set (committed := MQTTService.with_sensors self _).
  set (status_frame := JDict _).
  pose proof (broadcast_only_clients net committed status_frame)
    as (_ & _ & _ & _ & Hsens & _ & Hi & Hr).
  pose proof (broadcast_to_all_fans_out net
                (MQTTService.websocket_service committed) status_frame)
    as Hfan.
  rewrite Hsens, Hi, Hr. split; [|split; [|done]].
  - exists stored. split; [|done]. unfold committed. cbn.
    by apply (find_commit_sensor _ _ sensor).
  - exists status_frame. split; [|done].
    unfold MQTTService.broadcast.
    by destruct (ConnectionManager.broadcast _ _ _ _).
Qed.

End OtherTopics.

Lemma heartbeat_updates_gateway_only_witness :
  let self' :=
    MQTTService._handle_heartbeat 50 service_with_gateway
      "gateways/gw-1/heartbeat" (JDict [("uptime", JNum 3600)]) in
  (∃ row,
     MQTTService.find_gateway (MQTTService.gateways self') "gw-1" = Some row
     ∧ Gateway.status row = JStr "online"
     ∧ Gateway.uptime row = JNum 3600
     ∧ Gateway.total_sensors row = 2)
  ∧ MQTTService.websocket_service self'
    = MQTTService.websocket_service service_with_gateway.
Proof.
  cbn zeta.
  assert (topic_device_id "gateways/gw-1/heartbeat" = Ok "gw-1") as Ht
    by (vm_compute; reflexivity).
  assert (MQTTService.find_gateway (MQTTService.gateways service_with_gateway)
            "gw-1" = Some quiet_gateway) as Hf
    by (vm_compute; reflexivity).
  destruct (heartbeat_updates_gateway_only 50%Z service_with_gateway
              "gateways/gw-1/heartbeat" "gw-1" [("uptime", JNum 3600)]
              quiet_gateway Ht Hf)
    as ((row & H1 & H2 & _ & H4 & H5 & _) & Hw & _).
  split; [|exact Hw]. exists row. split; [exact H1|]. split; [exact H2|].
  split; [exact H4|]. rewrite H5. vm_compute. reflexivity.
Defined.

Lemma alert_is_forwarded_witness :
  let self' :=
    MQTTService._process_message second_broken 0 no_iso no_epoch decimal
      service_with_gateway "system/plant/alert"
      (Loaded (JDict [("level", JStr "red")])) in
  ConnectionManager.wire (MQTTService.websocket_service self')
  = ConnectionManager.wire (MQTTService.websocket_service service_with_gateway)
    ++ deliveries second_broken
         (ConnectionManager.active_connections
            (MQTTService.websocket_service service_with_gateway))
         (JDict [("type", JStr "alert");
                 ("data", JDict [("level", JStr "red")])])
  ∧ MQTTService.influx self' = MQTTService.influx service_with_gateway.
Proof.
  cbn zeta.
  assert (contains "/data" "system/plant/alert" = false) as H1
    by (vm_compute; reflexivity).
  assert (contains "/status" "system/plant/alert" = false) as H2
    by (vm_compute; reflexivity).
  assert (contains "/heartbeat" "system/plant/alert" = false) as H3
    by (vm_compute; reflexivity).
  assert (contains "/alert" "system/plant/alert" = true) as H4
    by (vm_compute; reflexivity).
  destruct (alert_is_forwarded second_broken 0%Z no_iso no_epoch decimal
              service_with_gateway "system/plant/alert"
              (JDict [("level", JStr "red")]) H1 H2 H3 H4)
    as ((_ & _ & Hwire & _) & _ & _ & Hi & _).
  split; [exact Hwire|exact Hi].
Defined.

Lemma sensor_status_is_recorded_witness :
  let self' :=
    MQTTService._handle_status_message all_live 0 service_with_gateway
      "sensors/dev-3/status"
      (JDict [("status", JStr "error"); ("error", JStr "probe open")]) in
  ∃ row,
    MQTTService.find_sensor (MQTTService.sensors self') "dev-3" = Some row
    ∧ Sensor.status row = JStr "error"
    ∧ Sensor.error_count row = 1%Z.
Proof.
  cbn zeta.
  assert (topic_device_id "sensors/dev-3/status" = Ok "dev-3") as Ht
    by (vm_compute; reflexivity).
  assert (contains "sensors" "sensors/dev-3/status" = true) as Hs
    by (vm_compute; reflexivity).
  assert (MQTTService.find_sensor (MQTTService.sensors service_with_gateway)
            "dev-3" = Some thermometer) as Hf
    by (vm_compute; reflexivity).
  destruct (sensor_status_is_recorded all_live 0%Z service_with_gateway
              "sensors/dev-3/status" "dev-3"
              [("status", JStr "error"); ("error", JStr "probe open")]
              thermometer Ht Hs Hf)
    as ((row & H1 & H2 & H3 & _) & _).
  exists row. split; [exact H1|]. split; [exact H2|exact H3].
Defined.

(** ** Topics *)

Lemma no_slash_cons (c : Ascii.ascii) (s : string) :
  no_slash (String c s) ↔ c ≠ "/"%char ∧ no_slash s.
Proof. unfold no_slash. cbn. naive_solver. Qed.

Lemma split_not_nil (sep : Ascii.ascii) (s : string) : split sep s ≠ [].
Proof.
  destruct s as [|c s]; cbn; [done|].
  destruct (Ascii.eqb c sep); [done|]. by destruct (split sep s).
Qed.

Lemma split_app (a b : string) :
  no_slash a →
  split "/" (String.append a (String "/" b)) = a :: split "/" b.
Proof.
  induction a as [|c a IH]; intros Ha.
  - done.
  - apply no_slash_cons in Ha as [Hc Ha].
    change (String.append (String c a) (String "/" b))
      with (String c (String.append a (String "/" b))).
    cbn [split]. rewrite (IH Ha).
    by destruct (Ascii.eqb_spec c "/"%char) as [->|_].
Qed.

Lemma split_no_slash (a : string) : no_slash a → split "/" a = [a].
Proof.
  induction a as [|c a IH]; intros Ha; [done|].
  apply no_slash_cons in Ha as [Hc Ha]. cbn [split]. rewrite (IH Ha).
  by destruct (Ascii.eqb_spec c "/"%char) as [->|_].
Qed.

Lemma split_with_slash (s : string) :
  ¬ no_slash s → 2 ≤ length (split "/" s).
Proof.
  induction s as [|c s IH]; intros Hs.
  - exfalso. apply Hs. unfold no_slash. cbn. tauto.
  - cbn. destruct (Ascii.eqb_spec c "/"%char) as [->|Hc].
    + pose proof (split_not_nil "/" s).
      destruct (split "/" s); [done|cbn; lia].
    + assert (¬ no_slash s) as Hs'.
      { intros H. apply Hs. by apply no_slash_cons. }
      specialize (IH Hs'). destruct (split "/" s); cbn in *; lia.
Qed.

Lemma split_second_none (s : string) :
  split "/" s !! 1 = None → no_slash s.
Proof.
  induction s as [|c s IH]; [intros _; unfold no_slash; cbn; tauto|].
  cbn [split]. destruct (Ascii.eqb_spec c "/"%char) as [->|Hc].
  - pose proof (split_not_nil "/" s). by destruct (split "/" s).
  - intros H. apply no_slash_cons. split; [done|]. apply IH.
    by destruct (split "/" s).
Qed.

Lemma contains_slash (sub s : string) :
  contains (String "/" sub) s = true → ¬ no_slash s.
Proof.
  induction s as [|c s IH]; [done|].
  cbn [contains String.prefix]. intros H Hs.
  apply no_slash_cons in Hs as [Hc Hs].
  apply orb_true_iff in H as [H|H]; [|by apply IH].
  destruct (Ascii.ascii_dec "/" c) as [<-|_]; done.
Qed.

(** X21. The device identifier is the second segment of the topic.  For
    a topic of the form [kind/device/...] or [kind/device], with no
    slash inside [kind] and [device], the handlers extract exactly
    [device]; extraction fails, with [IndexError], exactly for the topics
    without any slash; so on every topic the router hands to a handler,
    which contains [/data], [/status], [/heartbeat] or [/alert], it
    succeeds. *)
Theorem device_id_is_second_segment :
  (∀ kind device rest,
     no_slash kind → no_slash device →
     topic_device_id
       (String.append kind (String "/" (String.append device
                                          (String "/" rest))))
     = Ok device
     ∧ topic_device_id (String.append kind (String "/" device)) = Ok device)
  ∧ (∀ topic, no_slash topic ↔ topic_device_id topic = Raise IndexError)
  ∧ (∀ topic suffix,
       contains (String "/" suffix) topic = true →
       ∃ device, topic_device_id topic = Ok device).
Proof.
  assert (∀ topic, no_slash topic ↔ topic_device_id topic = Raise IndexError)
    as Hraise.
  { intros topic. unfold topic_device_id. split.
    - intros H. by rewrite (split_no_slash topic H).
    - intros H. apply split_second_none.
      by destruct (split "/" topic !! 1). }
  split; [|split; [exact Hraise|]].
  - intros kind device rest Hk Hd. unfold topic_device_id. split.
    + by rewrite (split_app kind _ Hk), (split_app device _ Hd).
    + by rewrite (split_app kind _ Hk), (split_no_slash device Hd).
  - intros topic suffix Hc. apply contains_slash in Hc.
    destruct (topic_device_id topic) as [device|e] eqn:E; [by exists device|].
    exfalso. apply Hc. apply Hraise. unfold topic_device_id in *.
    by destruct (split "/" topic !! 1).
Qed.

Lemma device_id_is_second_segment_witness :
  topic_device_id "sensors/boiler-7/data" = Ok "boiler-7"
  ∧ ∃ device, topic_device_id "gateways/gw-1/heartbeat" = Ok device.
Proof.
  destruct device_id_is_second_segment as (Hform & _ & Hrouted).
  split.
  - refine (proj1 (Hform "sensors" "boiler-7" "data" _ _)).
    + unfold no_slash. cbn. intros H.
      repeat (destruct H as [H|H]; [discriminate H|]). exact H.
    + unfold no_slash. cbn. intros H.
      repeat (destruct H as [H|H]; [discriminate H|]). exact H.
  - apply (Hrouted "gateways/gw-1/heartbeat" "heartbeat").
    vm_compute. reflexivity.
Defined.

(** ** Handler tables *)

Lemma remove_first_app_new (h : nat) (l : list nat) :
  h ∉ l → HandlerTable.remove_first h (l ++ [h]) = l.
Proof.
  induction l as [|y l IH]; intros Hh; cbn.
  - by rewrite decide_True.
  - apply not_elem_of_cons in Hh as [Hne Hh].
    rewrite decide_False by done. by rewrite IH.
Qed.

Lemma remove_first_absent (h : nat) (l : list nat) :
  h ∉ l → HandlerTable.remove_first h l = l.
Proof.
  induction l as [|y l IH]; intros Hh; [done|]. cbn.
  apply not_elem_of_cons in Hh as [Hne Hh].
  rewrite decide_False by done. by rewrite IH.
Qed.

Lemma remove_first_app_perm (h : nat) (l : list nat) :
  HandlerTable.remove_first h (l ++ [h]) ≡ₚ l.
Proof.
  induction l as [|y l IH]; cbn.
  - by rewrite decide_True.
  - case_decide as Hy.
    + subst y. symmetry. apply Permutation_cons_append.
    + by rewrite IH.
Qed.

Lemma handlers_for_add (m : gmap string (list nat)) (key k : string)
    (h : nat) :
  HandlerTable.handlers_for (HandlerTable.add_message_handler m key h) k
  = if decide (k = key) then HandlerTable.handlers_for m key ++ [h]
    else HandlerTable.handlers_for m k.
Proof.
  unfold HandlerTable.handlers_for, HandlerTable.add_message_handler.
  destruct (m !! key) as [l|] eqn:E; case_decide as Hk; subst.
  - by rewrite lookup_alter_eq, E.
  - by rewrite lookup_alter_ne.
  - by rewrite lookup_alter_eq, lookup_insert_eq.
  - by rewrite lookup_alter_ne, lookup_insert_ne.
Qed.

Lemma handlers_for_remove (m : gmap string (list nat)) (key k : string)
    (h : nat) :
  HandlerTable.handlers_for (HandlerTable.remove_message_handler m key h) k
  = if decide (k = key)
    then HandlerTable.remove_first h (HandlerTable.handlers_for m key)
    else HandlerTable.handlers_for m k.
Proof.
  unfold HandlerTable.handlers_for, HandlerTable.remove_message_handler.
  destruct (m !! key) as [l|] eqn:E; case_decide as Hk; subst.
  - by rewrite lookup_alter_eq, E.
  - by rewrite lookup_alter_ne.
  - by rewrite E.
  - done.
Qed.

(** X22. Registering a handler and removing it again.  The handlers
    found for every key are the same as before when the handler was not
    yet registered under that key, and in any case the same up to their
    order; removing a handler that is not registered, or from a key that
    does not exist, changes nothing. *)
Theorem handler_added_then_removed (m : gmap string (list nat))
    (key : string) (h : nat) :
  let m' :=
    HandlerTable.remove_message_handler
      (HandlerTable.add_message_handler m key h) key h in
  (∀ k, HandlerTable.handlers_for m' k ≡ₚ HandlerTable.handlers_for m k)
  ∧ (h ∉ HandlerTable.handlers_for m key →
     (∀ k, HandlerTable.handlers_for m' k = HandlerTable.handlers_for m k)
     ∧ HandlerTable.remove_message_handler m key h = m).
Proof.
  cbn zeta. split.
  - intros k. rewrite handlers_for_remove, !handlers_for_add.
    destruct (decide (k = key)) as [->|Hk].
    + rewrite decide_True by done. apply remove_first_app_perm.
    + done.
  - intros Hh. split.
    + intros k. rewrite handlers_for_remove, !handlers_for_add.
      destruct (decide (k = key)) as [->|Hk].
      * rewrite decide_True by done. by apply remove_first_app_new.
      * done.
    + unfold HandlerTable.remove_message_handler,
        HandlerTable.handlers_for in *.
      destruct (m !! key) as [l|] eqn:E; [|done]. cbn in Hh.
      apply map_eq. intros k. rewrite lookup_alter. case_decide; [|done].
      subst. rewrite E. cbn. by rewrite remove_first_absent.
Qed.

Lemma handler_added_then_removed_witness :
  let m : gmap string (list nat) := {[ "ping" := [1; 2] ]} in
  HandlerTable.handlers_for
    (HandlerTable.remove_message_handler
       (HandlerTable.add_message_handler m "ping" 3) "ping" 3) "ping"
  = HandlerTable.handlers_for m "ping".
Proof.
  cbn zeta.
  refine (proj1 (proj2 (handler_added_then_removed {[ "ping" := [1; 2] ]}
                          "ping" 3) _) "ping").
  unfold HandlerTable.handlers_for. rewrite lookup_singleton_eq. cbn.
  intros H. apply elem_of_cons in H as [H|H]; [done|].
  apply elem_of_cons in H as [H|H]; [done|]. by apply elem_of_nil in H.
Defined.

(** ** Broadcasts to everyone *)

(** X24. A broadcast without an exclusion set, and with it the periodic
    liveness probe [ping_all], offers the frame to every active
    connection: the live ones get it, exactly the ones whose socket
    raises are removed from the registry, every failure is counted, no
    exception leaves the broadcast, and a consistent registry stays
    consistent. *)
Theorem broadcast_to_everyone (net : conn → socket)
    (self : ConnectionManager.t) (m : json) :
  let everyone := ConnectionManager.active_connections self in
  (ConnectionManager.broadcast net self m None).2 = Ok ()
  ∧ fanned_out net everyone m self
      (ConnectionManager.broadcast net self m None).1
  ∧ fanned_out net everyone ping_frame self (ManagerViews.ping_all net self).1
  ∧ (consistent self →
     consistent (ConnectionManager.broadcast net self m None).1).
Proof.
  cbn zeta. split; [|split; [|split]].
  - unfold ConnectionManager.broadcast.
    destruct (ConnectionManager.active_connections self) as [|c cs] eqn:Ea;
      [done|].
    rewrite <- Ea. cbn [default from_option id].
    rewrite filter_excluding_none.
    destruct (fanout_own_snapshot net self
                (ConnectionManager.active_connections self) m)
      as (failed & cnt & Hcollect & _).
    pose proof (gather_same_index net
                  (ConnectionManager.active_connections self) self m)
      as (Hact & _).
    destruct (ConnectionManager.gather net self
                (ConnectionManager.active_connections self) m)
      as [s results].
    cbn [fst snd] in *. by rewrite Hact, Hcollect.
  - apply broadcast_to_all_fans_out.
  - apply broadcast_to_all_fans_out.
  - intros Hc. apply broadcast_invariant;
      [apply same_index_consistent|apply disconnect_consistent|done].
Qed.

Lemma broadcast_to_everyone_witness :
  consistent
    (ConnectionManager.broadcast second_broken two_clients ping_frame None).1.
Proof.
  refine (proj2 (proj2 (proj2 (broadcast_to_everyone second_broken
                                 two_clients ping_frame))) _).
  apply two_clients_consistent.
Defined.
